(** * School management backend: a shallow embedding of the role-gated
      endpoints and of the store gateway they call.

    The embedding follows the Python sources under [server/app]:
    - [models/schemas.py]: the enums and the request/response models;
    - [db/supabase.py]: the gateway class [SupabaseQueries];
    - [core/security.py]: token issuance, verification and role guards;
    - [api/v1/endpoints/*.py]: the endpoint handlers.

    Conventions of the model.
    - The remote store is a record of tables, each a list of typed rows in
      insertion order.  Every [.execute()] of the store client is one
      store call; a store call may fail, which is scripted by the
      [faults] field of the world: the next entry says whether the next
      call raises, and with which text.  An empty script means that no
      further call fails.
    - Exceptions are values; a raising computation keeps the changes it
      made to the world before raising, as in Python.
    - Python floats are rationals; comparisons are exact, the arithmetic
      operators are those of the [Platform] (any rounding is allowed).
    - Dates and instants are integers (days, seconds); [str(date)] and
      [isoformat()] are injective, so equality filters on the text are
      equality on the number.
    - A row carries the columns the handlers read and write.  A column
      that every writer fills from a validated model has the type of the
      model's field; the role of a user and the status of an attendance
      record, which reach the store as text that nothing checks, are
      strings.
    - A response model is validated when the handler builds it: a fee
      whose amount is not positive, a mark whose score is negative and an
      attendance status outside the enumeration raise there.
    - An exception that leaves a handler reaches the client as the
      framework has it, see [client_reply].
    - [logger] calls do not influence the store or the response and are
      left out; a subscript evaluated inside a log message is kept. *)

From Stdlib Require Import String Ascii List ZArith QArith Bool Lia.
From Stdlib Require Import Qround Qabs DecimalString Permutation.
Import ListNotations.

Local Open Scope string_scope.
Local Open Scope list_scope.

(* ===================================================================== *)
(** ** Platform: settings and external primitives                         *)
(* ===================================================================== *)

(** [core/config.py] settings that the modelled code reads, the password
    hashing primitive of passlib, Python's float arithmetic, and two
    facts of the runtime: [datetime.fromtimestamp] converts the
    timestamps of the platform's range only ([fromtimestamp_fails ts] is
    the text of the exception it raises for [ts], if it raises), and
    pydantic words a [ValidationError] for a model, a field and the
    text of the offending value. *)
Class Platform : Type := {
  SECRET_KEY : string;
  ALGORITHM : string;
  ACCESS_TOKEN_EXPIRE_MINUTES : Z;
  REFRESH_TOKEN_EXPIRE_DAYS : Z;
  hash_password : string -> string;
  float_add : Q -> Q -> Q;
  float_sub : Q -> Q -> Q;
  float_mul : Q -> Q -> Q;
  float_div : Q -> Q -> Q;
  float_round : Q -> Z -> Q;
  float_str : Q -> string;
  fromtimestamp_fails : Z -> option string;
  validation_text : string -> string -> string -> string
}.

(* ===================================================================== *)
(** ** models/schemas.py: enums                                           *)
(* ===================================================================== *)

Inductive UserRole : Type := ADMIN | TEACHER | STUDENT | PARENT | MASTER.

Definition UserRole_value (r : UserRole) : string :=
  match r with
  | ADMIN => "admin"
  | TEACHER => "teacher"
  | STUDENT => "student"
  | PARENT => "parent"
  | MASTER => "master"
  end.

(** [UserRole(s)]: the member whose value is [s], if any. *)
Definition UserRole_of_value (s : string) : option UserRole :=
  if s =? "admin" then Some ADMIN
  else if s =? "teacher" then Some TEACHER
  else if s =? "student" then Some STUDENT
  else if s =? "parent" then Some PARENT
  else if s =? "master" then Some MASTER
  else None.

Definition UserRole_eqb (a b : UserRole) : bool :=
  match a, b with
  | ADMIN, ADMIN | TEACHER, TEACHER | STUDENT, STUDENT
  | PARENT, PARENT | MASTER, MASTER => true
  | _, _ => false
  end.

Inductive AttendanceStatus : Type := PRESENT | ABSENT | LATE | EXCUSED.

Definition AttendanceStatus_value (s : AttendanceStatus) : string :=
  match s with
  | PRESENT => "present"
  | ABSENT => "absent"
  | LATE => "late"
  | EXCUSED => "excused"
  end.

(** [AttendanceStatus(value)], [None] standing for the failure. *)
Definition AttendanceStatus_of_value (s : string) : option AttendanceStatus :=
  if s =? "present" then Some PRESENT
  else if s =? "absent" then Some ABSENT
  else if s =? "late" then Some LATE
  else if s =? "excused" then Some EXCUSED
  else None.

Inductive FeeStatus : Type := PAID | PENDING | OVERDUE | PARTIAL.

Definition FeeStatus_eqb (a b : FeeStatus) : bool :=
  match a, b with
  | PAID, PAID | PENDING, PENDING | OVERDUE, OVERDUE | PARTIAL, PARTIAL => true
  | _, _ => false
  end.

Inductive LeaveStatus : Type := LEAVE_PENDING | APPROVED | REJECTED.

Definition LeaveStatus_eqb (a b : LeaveStatus) : bool :=
  match a, b with
  | LEAVE_PENDING, LEAVE_PENDING | APPROVED, APPROVED | REJECTED, REJECTED => true
  | _, _ => false
  end.

(* ===================================================================== *)
(** ** Stored rows (one record per table of the store)                    *)
(* ===================================================================== *)

Definition date := Z.
Definition datetime := Z.

Record user_row : Type := mk_user {
  user_id : string;
  u_email : string;
  u_password_hash : string;
  u_role : string;
  u_is_active : bool;
  u_created_at : datetime
}.

Record student_row : Type := mk_student {
  student_id : string;
  s_user_id : option string;
  s_name : string;
  s_class_id : option string
}.

Record parent_row : Type := mk_parent {
  parent_id : string;
  p_user_id : option string;
  p_name : string
}.

(** Link table [parent_student]. *)
Record link_row : Type := mk_link {
  l_parent_id : string;
  l_student_id : string
}.

Record exam_row : Type := mk_exam {
  exam_id : string;
  exam_name : string;
  max_marks : Z
}.

Record mark_row : Type := mk_mark {
  mark_id : string;
  m_exam_id : string;
  m_student_id : string;
  marks_scored : Q;
  m_remarks : option string;
  m_created_at : datetime
}.

Record fee_row : Type := mk_fee {
  fee_id : string;
  f_student_id : string;
  amount : Q;
  fee_type : string;
  due_date : date;
  f_status : FeeStatus;
  academic_year : string;
  amount_paid : Q;
  payment_date : option datetime;
  payment_method : option string;
  transaction_id : option string;
  f_created_at : datetime
}.

Record attendance_row : Type := mk_attendance {
  attendance_id : string;
  a_student_id : string;
  a_date : date;
  a_status : string;
  a_remarks : option string;
  a_created_at : datetime
}.

Record leave_row : Type := mk_leave {
  request_id : string;
  lr_student_id : string;
  start_date : date;
  end_date : date;
  reason : string;
  lr_status : LeaveStatus;
  admin_remarks : option string;
  lr_created_at : datetime;
  updated_at : option datetime
}.

Record DB : Type := mk_db {
  users : list user_row;
  students : list student_row;
  parents : list parent_row;
  parent_student : list link_row;
  exams : list exam_row;
  marks : list mark_row;
  fees : list fee_row;
  attendance : list attendance_row;
  leave_requests : list leave_row
}.

Definition empty_db : DB := mk_db [] [] [] [] [] [] [] [] [].

(* ===================================================================== *)
(** ** The world: store, fault script, id supply and clock                *)
(* ===================================================================== *)

Record World : Type := mk_world {
  db : DB;
  faults : list (option string);
  next_id : nat;
  clock : Z
}.

Definition set_db (d : DB) (w : World) : World :=
  mk_world d (faults w) (next_id w) (clock w).

Definition set_faults (fs : list (option string)) (w : World) : World :=
  mk_world (db w) fs (next_id w) (clock w).

Definition set_next_id (n : nat) (w : World) : World :=
  mk_world (db w) (faults w) n (clock w).

(* ===================================================================== *)
(** ** Exceptions and the computation monad                               *)
(* ===================================================================== *)

Inductive exn : Type :=
| HTTPException (status_code : Z) (detail : string)
| JWTError (msg : string)
| TypeError (msg : string)
| AttributeError (msg : string)
| ValueError (msg : string)
| Exception (msg : string).

Definition Z_str (z : Z) : string := NilZero.string_of_int (Z.to_int z).

(** [str(e)]. Starlette prints an [HTTPException] as status and detail. *)
Definition exn_str (e : exn) : string :=
  match e with
  | HTTPException c d => Z_str c ++ ": " ++ d
  | JWTError m | TypeError m | AttributeError m | ValueError m | Exception m => m
  end.

Definition is_HTTPException (e : exn) : bool :=
  match e with HTTPException _ _ => true | _ => false end.

Definition is_JWTError (e : exn) : bool :=
  match e with JWTError _ => true | _ => false end.

Inductive outcome (A : Type) : Type :=
| Return (a : A)
| Raise (e : exn).
Arguments Return {A} a.
Arguments Raise {A} e.

Definition M (A : Type) : Type := World -> outcome A * World.

Definition ret {A} (a : A) : M A := fun w => (Return a, w).

Definition raise {A} (e : exn) : M A := fun w => (Raise e, w).

Definition bind {A B} (c : M A) (k : A -> M B) : M B :=
  fun w =>
    match c w with
    | (Return a, w') => k a w'
    | (Raise e, w') => (Raise e, w')
    end.

(** [try: body / except ... as e: handler e]. *)
Definition try_except {A} (body : M A) (handler : exn -> M A) : M A :=
  fun w =>
    match body w with
    | (Return a, w') => (Return a, w')
    | (Raise e, w') => handler e w'
    end.

Declare Scope py_scope.
Delimit Scope py_scope with py.
Notation "x <- c1 ;; c2" := (bind c1 (fun x => c2))
  (at level 61, c1 at next level, right associativity) : py_scope.
Notation "c1 ;; c2" := (bind c1 (fun _ => c2))
  (at level 61, right associativity) : py_scope.
Local Open Scope py_scope.

Definition get_world : M World := fun w => (Return w, w).

(** [datetime.now()] / [datetime.utcnow()]. *)
Definition now : M Z := fun w => (Return (clock w), w).

(** The idiom closing most handlers:
    [except HTTPException: raise]
    [except Exception as e: raise HTTPException(500, f"<prefix>{str(e)}")]. *)
Definition reraise_http_or_500 {A} (prefix : string) (e : exn) : M A :=
  if is_HTTPException e then raise e
  else raise (HTTPException 500 (prefix ++ exn_str e)).

(** The same idiom with a fixed detail that does not mention [e]. *)
Definition reraise_http_or_500_fixed {A} (detail : string) (e : exn) : M A :=
  if is_HTTPException e then raise e
  else raise (HTTPException 500 detail).

(** What the client receives when a handler ends with an exception:
    the framework answers an [HTTPException] with its status and detail,
    and any other exception, which no handler of [main.py] catches, with
    status 500 and the fixed text of the server's error middleware (the
    application is built without [debug]). *)
Definition client_reply {A} (o : outcome A) : option (Z * string) :=
  match o with
  | Return _ => None
  | Raise (HTTPException status_code detail) => Some (status_code, detail)
  | Raise _ => Some (500%Z, "Internal Server Error")
  end.

(** Subscripting [None], as in [row["col"]] when a lookup returned nothing. *)
Definition NoneType_not_subscriptable : exn :=
  TypeError "'NoneType' object is not subscriptable".

Definition NoneType_no_get : exn :=
  AttributeError "'NoneType' object has no attribute 'get'".

Definition subscript {A} (o : option A) : M A :=
  match o with
  | Some a => ret a
  | None => raise NoneType_not_subscriptable
  end.

(* ===================================================================== *)
(** ** The store client ([supabase.table(..)...execute()])                *)
(* ===================================================================== *)

(** One round trip to the store: consumes the next entry of the script. *)
Definition execute : M unit :=
  fun w =>
    match faults w with
    | Some m :: fs => (Raise (Exception m), set_faults fs w)
    | None :: fs => (Return tt, set_faults fs w)
    | [] => (Return tt, w)
    end.

Record Table (R : Type) : Type := mk_table {
  tname : string;
  rows : DB -> list R;
  with_rows : list R -> DB -> DB
}.
Arguments tname {R} _.
Arguments rows {R} _ _.
Arguments with_rows {R} _ _ _.

Definition users_t : Table user_row :=
  mk_table _ "users" users
    (fun l d => mk_db l (students d) (parents d) (parent_student d) (exams d)
                  (marks d) (fees d) (attendance d) (leave_requests d)).
Definition students_t : Table student_row :=
  mk_table _ "students" students
    (fun l d => mk_db (users d) l (parents d) (parent_student d) (exams d)
                  (marks d) (fees d) (attendance d) (leave_requests d)).
Definition parents_t : Table parent_row :=
  mk_table _ "parents" parents
    (fun l d => mk_db (users d) (students d) l (parent_student d) (exams d)
                  (marks d) (fees d) (attendance d) (leave_requests d)).
Definition parent_student_t : Table link_row :=
  mk_table _ "parent_student" parent_student
    (fun l d => mk_db (users d) (students d) (parents d) l (exams d)
                  (marks d) (fees d) (attendance d) (leave_requests d)).
Definition exams_t : Table exam_row :=
  mk_table _ "exams" exams
    (fun l d => mk_db (users d) (students d) (parents d) (parent_student d) l
                  (marks d) (fees d) (attendance d) (leave_requests d)).
Definition marks_t : Table mark_row :=
  mk_table _ "marks" marks
    (fun l d => mk_db (users d) (students d) (parents d) (parent_student d)
                  (exams d) l (fees d) (attendance d) (leave_requests d)).
Definition fees_t : Table fee_row :=
  mk_table _ "fees" fees
    (fun l d => mk_db (users d) (students d) (parents d) (parent_student d)
                  (exams d) (marks d) l (attendance d) (leave_requests d)).
Definition attendance_t : Table attendance_row :=
  mk_table _ "attendance" attendance
    (fun l d => mk_db (users d) (students d) (parents d) (parent_student d)
                  (exams d) (marks d) (fees d) l (leave_requests d)).
Definition leave_requests_t : Table leave_row :=
  mk_table _ "leave_requests" leave_requests
    (fun l d => mk_db (users d) (students d) (parents d) (parent_student d)
                  (exams d) (marks d) (fees d) (attendance d) l).

(** A filter dictionary [{col: value, ...}]: every [.eq(col, value)] must
    hold of the row. *)
Definition filters (R : Type) : Type := list (R -> bool).

Definition matches {R} (fs : filters R) (r : R) : bool :=
  forallb (fun f => f r) fs.

Definition eq_str {R} (col : R -> string) (v : string) : R -> bool :=
  fun r => col r =? v.

(** A nullable column never equals a value when it is null. *)
Definition eq_opt_str {R} (col : R -> option string) (v : string) : R -> bool :=
  fun r => match col r with Some x => x =? v | None => false end.

(** [.order(col, desc=...)] on an integer-valued column. *)
Fixpoint insert_sorted {R} (le : R -> R -> bool) (x : R) (l : list R) : list R :=
  match l with
  | [] => [x]
  | y :: l' => if le x y then x :: y :: l' else y :: insert_sorted le x l'
  end.

Definition sort_rows {R} (le : R -> R -> bool) (l : list R) : list R :=
  fold_right (insert_sorted le) [] l.

Definition order_rows {R} (col : R -> Z) (desc : bool) (l : list R) : list R :=
  sort_rows (fun a b => if desc then (col b <=? col a)%Z else (col a <=? col b)%Z) l.

(** [.select("*")] with equality filters. *)
Definition table_select {R} (T : Table R) (fs : filters R) : M (list R) :=
  execute ;;
  w <- get_world ;;
  ret (filter (matches fs) (rows T (db w))).

(** Identifiers generated by the store. *)
Definition uuid (n : nat) : string :=
  "id-" ++ NilEmpty.string_of_uint (Nat.to_uint n).

(** What an insert sends: the row up to the columns the store fills in
    (the generated identifier and [created_at]). *)
Definition draft (R : Type) : Type := string -> datetime -> R.

Fixpoint materialise {R} (ds : list (draft R)) (n : nat) (t : datetime) : list R :=
  match ds with
  | [] => []
  | d :: ds' => d (uuid n) t :: materialise ds' (S n) t
  end.

(** [.insert(data)]: appends the rows and answers with them. *)
Definition table_insert {R} (T : Table R) (ds : list (draft R)) : M (list R) :=
  execute ;;
  fun w =>
    let new := materialise ds (next_id w) (clock w) in
    (Return new,
     set_next_id (next_id w + length ds)
       (set_db (with_rows T (rows T (db w) ++ new) (db w)) w)).

(** [.update(data).eq(...)]: rewrites the matching rows and answers with
    them. *)
Definition table_update {R} (T : Table R) (fs : filters R) (upd : R -> R)
  : M (list R) :=
  execute ;;
  fun w =>
    let old := rows T (db w) in
    (Return (map upd (filter (matches fs) old)),
     set_db (with_rows T (map (fun r => if matches fs r then upd r else r) old)
               (db w)) w).

(* ===================================================================== *)
(** ** db/supabase.py: class SupabaseQueries                              *)
(* ===================================================================== *)

Definition insert_one {R} (T : Table R) (data : draft R) : M (option R) :=
  try_except
    (data' <- table_insert T [data] ;;
     ret (hd_error data'))
    (fun e => raise (Exception ("Failed to insert into " ++ tname T ++ ": " ++ exn_str e))).

Definition insert_many {R} (T : Table R) (data : list (draft R)) : M (list R) :=
  try_except
    (table_insert T data)
    (fun e => raise (Exception ("Failed to bulk insert into " ++ tname T ++ ": " ++ exn_str e))).

(** [limit] follows Python truthiness: [None] and [0] mean no limit. *)
Definition apply_limit {R} (limit : option nat) (l : list R) : list R :=
  match limit with
  | Some (S n) => firstn (S n) l
  | _ => l
  end.

Definition select_all {R} (T : Table R) (fs : filters R)
    (order_by : option (R -> Z)) (ascending : bool) (limit : option nat)
  : M (list R) :=
  try_except
    (data <- table_select T fs ;;
     let data := match order_by with
                 | Some col => order_rows col (negb ascending) data
                 | None => data
                 end in
     ret (apply_limit limit data))
    (fun e => raise (Exception ("Failed to select from " ++ tname T ++ ": " ++ exn_str e))).

Definition select_by_id {R} (T : Table R) (id_column : R -> string)
    (id_value : string) : M (option R) :=
  try_except
    (data <- table_select T [eq_str id_column id_value] ;;
     ret (hd_error data))
    (fun e => raise (Exception ("Failed to select from " ++ tname T ++ ": " ++ exn_str e))).

Definition select_one {R} (T : Table R) (fs : filters R) : M (option R) :=
  try_except
    (data <- table_select T fs ;;
     ret (hd_error (firstn 1 data)))
    (fun e => raise (Exception ("Failed to select from " ++ tname T ++ ": " ++ exn_str e))).

Definition update_by_id {R} (T : Table R) (id_column : R -> string)
    (id_value : string) (data : R -> R) : M (option R) :=
  try_except
    (data' <- table_update T [eq_str id_column id_value] data ;;
     ret (hd_error data'))
    (fun e => raise (Exception ("Failed to update " ++ tname T ++ ": " ++ exn_str e))).

(* ===================================================================== *)
(** ** The handlers                                                       *)
(* ===================================================================== *)

(** Python truthiness of a list and of a string. *)
Definition truthy_list {A} (l : list A) : bool :=
  match l with [] => false | _ :: _ => true end.

Definition truthy_str (s : string) : bool :=
  match s with EmptyString => false | String _ _ => true end.

(** [x in l] on strings. *)
Definition str_in (x : string) (l : list string) : bool :=
  existsb (String.eqb x) l.

Section Handlers.

Context {platform : Platform}.

(* --------------------------------------------------------------------- *)
(** *** core/security.py                                                  *)
(* --------------------------------------------------------------------- *)

(** The claims of a token: the dictionary that is signed. *)
Record claims : Type := mk_claims {
  c_sub : option string;
  c_role : option string;
  c_exp : option Z;
  c_type : option string
}.

(** Tokens, symbolically: a text that is no well-formed token, or a set
    of claims signed with some key under some algorithm. *)
Inductive token : Type :=
| Malformed (text : string)
| Signed (key alg : string) (c : claims).

Definition jwt_encode (c : claims) (key alg : string) : token := Signed key alg c.

(** [jwt.decode(token, key, algorithms=[alg])]: header, signature, then
    the registered claims ([exp] is checked only when present). *)
Definition jwt_decode (t : token) (key : string) (algorithms : list string)
  : M claims :=
  match t with
  | Malformed _ => raise (JWTError "Not enough segments")
  | Signed k a c =>
      if negb (str_in a algorithms)
      then raise (JWTError "The specified alg value is not allowed")
      else if negb (k =? key)
      then raise (JWTError "Signature verification failed.")
      else
        match c_exp c with
        | Some e =>
            t <- now ;;
            if (e <? t)%Z then raise (JWTError "Signature has expired.")
            else ret c
        | None => ret c
        end
  end.

Record TokenPayload : Type := mk_payload {
  sub : string;
  role : UserRole;
  exp : datetime
}.

Record Token : Type := mk_token {
  tk_access_token : token;
  tk_refresh_token : token;
  token_type : string;
  expires_in : Z
}.

(** [expires_delta] in seconds; a zero [timedelta] is falsy. *)
Definition create_access_token (data : claims) (expires_delta : option Z)
  : M token :=
  t <- now ;;
  let expire :=
    match expires_delta with
    | Some d => if (d =? 0)%Z then (t + ACCESS_TOKEN_EXPIRE_MINUTES * 60)%Z
                else (t + d)%Z
    | None => (t + ACCESS_TOKEN_EXPIRE_MINUTES * 60)%Z
    end in
  let to_encode := mk_claims (c_sub data) (c_role data) (Some expire) (Some "access") in
  ret (jwt_encode to_encode SECRET_KEY ALGORITHM).

Definition create_refresh_token (data : claims) : M token :=
  t <- now ;;
  let expire := (t + REFRESH_TOKEN_EXPIRE_DAYS * 86400)%Z in
  let to_encode := mk_claims (c_sub data) (c_role data) (Some expire) (Some "refresh") in
  ret (jwt_encode to_encode SECRET_KEY ALGORITHM).

(** [UserRole(value)]. *)
Definition UserRole_call (value : string) : M UserRole :=
  match UserRole_of_value value with
  | Some r => ret r
  | None => raise (ValueError ("'" ++ value ++ "' is not a valid UserRole"))
  end.

(** [datetime.fromtimestamp(payload.get("exp"))].  A timestamp outside
    the platform's range raises a [ValueError] (year out of range), an
    [OverflowError] or an [OSError].  No handler of the modelled code
    tells them apart ([except JWTError] lets each of them pass, [except
    Exception] catches each of them, and the client is told the same),
    and all are written [ValueError] here. *)
Definition fromtimestamp (ts : option Z) : M datetime :=
  match ts with
  | Some e =>
      match fromtimestamp_fails e with
      | Some text => raise (ValueError text)
      | None => ret e
      end
  | None => raise (TypeError "'NoneType' object cannot be interpreted as an integer")
  end.

Definition verify_token (t : token) : M TokenPayload :=
  try_except
    (payload <- jwt_decode t SECRET_KEY [ALGORITHM] ;;
     match c_sub payload, c_role payload with
     | Some user_id, Some role =>
         r <- UserRole_call role ;;
         e <- fromtimestamp (c_exp payload) ;;
         ret (mk_payload user_id r e)
     | _, _ => raise (HTTPException 401 "Invalid token payload")
     end)
    (fun e =>
       if is_JWTError e
       then raise (HTTPException 401 "Could not validate credentials")
       else raise e).

Definition get_current_user (credentials : token) : M TokenPayload :=
  verify_token credentials.

(** The guards in force are the later definitions of the module, which
    replace the earlier ones of the same name. *)
Definition role_in (r : UserRole) (l : list UserRole) : bool :=
  existsb (UserRole_eqb r) l.

Definition require_master (current_user : TokenPayload) : M TokenPayload :=
  if negb (UserRole_eqb (role current_user) MASTER)
  then raise (HTTPException 403 "Master access required")
  else ret current_user.

Definition require_admin (current_user : TokenPayload) : M TokenPayload :=
  if negb (role_in (role current_user) [ADMIN; MASTER])
  then raise (HTTPException 403 "Admin access required")
  else ret current_user.

Definition require_teacher (current_user : TokenPayload) : M TokenPayload :=
  if negb (role_in (role current_user) [TEACHER; ADMIN; MASTER])
  then raise (HTTPException 403 "Teacher access required")
  else ret current_user.

(* --------------------------------------------------------------------- *)
(** *** api/v1/endpoints/auth.py                                          *)
(* --------------------------------------------------------------------- *)

Record UserCreate : Type := mk_user_create {
  uc_email : string;
  uc_role : UserRole;
  uc_is_active : bool;
  uc_password : string
}.

Record UserResponse : Type := mk_user_response {
  ur_user_id : string;
  ur_email : string;
  ur_role : UserRole;
  ur_is_active : bool;
  ur_created_at : datetime
}.

(** The module defines [register_user] twice, each time under the route
    decorator of [POST /register].  This is the earlier definition
    (the first in the file); it stores the role the client sent. *)
Definition register_user_earlier (user_data : UserCreate) : M UserResponse :=
  try_except
    (existing <- table_select users_t [eq_str u_email (uc_email user_data)] ;;
     if truthy_list existing
     then raise (HTTPException 400 "User with this email already exists")
     else
       let hashed_password := hash_password (uc_password user_data) in
       let user_dict : draft user_row := fun id created =>
         mk_user id (uc_email user_data) hashed_password
           (UserRole_value (uc_role user_data)) (uc_is_active user_data) created in
       new_user <- insert_one users_t user_dict ;;
       nu <- subscript new_user ;;
       r <- UserRole_call (u_role nu) ;;
       ret (mk_user_response (user_id nu) (u_email nu) r (u_is_active nu)
              (u_created_at nu)))
    (reraise_http_or_500_fixed "Registration failed").

(** [register_user], the later definition: the one the module name is
    bound to once the module is loaded. *)
Definition register_user (user_data : UserCreate) : M UserResponse :=
  try_except
    (existing <- table_select users_t [eq_str u_email (uc_email user_data)] ;;
     if truthy_list existing
     then raise (HTTPException 400 "User with this email already exists")
     else
       let hashed_password := hash_password (uc_password user_data) in
       let user_dict : draft user_row := fun id created =>
         mk_user id (uc_email user_data) hashed_password
           (UserRole_value STUDENT) (uc_is_active user_data) created in
       new_user <- insert_one users_t user_dict ;;
       nu <- subscript new_user ;;
       r <- UserRole_call (u_role nu) ;;
       ret (mk_user_response (user_id nu) (u_email nu) r (u_is_active nu)
              (u_created_at nu)))
    (reraise_http_or_500_fixed "Registration failed").

(** [POST /register] as served.  Both definitions are registered on the
    router under that route, in the order of the file, and the router
    hands a request to the first route that matches: the requests reach
    the earlier definition. *)
Definition post_register (user_data : UserCreate) : M UserResponse :=
  register_user_earlier user_data.

(** [POST /refresh]. Every exception, of whatever class, becomes a 401. *)
Definition refresh_token (refresh_token : token) : M Token :=
  try_except
    (payload <- verify_token refresh_token ;;
     let token_data :=
       mk_claims (Some (sub payload)) (Some (UserRole_value (role payload)))
         None None in
     new_access_token <- create_access_token token_data None ;;
     new_refresh_token <- create_refresh_token token_data ;;
     ret (mk_token new_access_token new_refresh_token "bearer"
            (ACCESS_TOKEN_EXPIRE_MINUTES * 60)%Z))
    (fun _ => raise (HTTPException 401 "Invalid refresh token")).

(* --------------------------------------------------------------------- *)
(** *** api/v1/endpoints/leave_requests.py                                *)
(* --------------------------------------------------------------------- *)

(** [LeaveRequestCreate]; [status] defaults to pending when the body
    leaves it out. *)
Record LeaveRequestCreate : Type := mk_leave_create {
  lc_student_id : string;
  lc_start_date : date;
  lc_end_date : date;
  lc_reason : string;
  lc_status : LeaveStatus
}.

(** Parsing of a request body: the optional [status] field takes the
    default of [LeaveRequestBase]. *)
Definition parse_LeaveRequestCreate (sid : string) (sd ed : date)
    (why : string) (status : option LeaveStatus) : LeaveRequestCreate :=
  mk_leave_create sid sd ed why
    (match status with Some s => s | None => LEAVE_PENDING end).

(** [LeaveRequestUpdate]; [admin_remarks] is [None] when unset, so that
    [model_dump(exclude_unset=True)] leaves the column alone. *)
Record LeaveRequestUpdate : Type := mk_leave_update {
  lu_status : LeaveStatus;
  lu_admin_remarks : option (option string)
}.

Record LeaveRequestResponse : Type := mk_leave_response {
  lrr_row : leave_row;
  lrr_student_name : option string
}.

Definition _enrich_leave_response (request : option leave_row)
  : M (option string) :=
  match request with
  | None => raise NoneType_no_get
  | Some r =>
      if truthy_str (lr_student_id r)
      then
        student <- select_by_id students_t student_id (lr_student_id r) ;;
        ret (option_map s_name student)
      else ret None
  end.

Definition create_leave_request (request_data : LeaveRequestCreate)
    (current_user : TokenPayload) : M LeaveRequestResponse :=
  try_except
    (student_id_to_use <-
       (match role current_user with
        | STUDENT =>
            student <- select_one students_t [eq_opt_str s_user_id (sub current_user)] ;;
            match student with
            | None => raise (HTTPException 404 "Student profile not found for this user.")
            | Some s =>
                if negb (lc_student_id request_data =? student_id s)
                then raise (HTTPException 403 "Students can only submit leave requests for themselves.")
                else ret (student_id s)
            end
        | PARENT =>
            parent <- select_one parents_t [eq_opt_str p_user_id (sub current_user)] ;;
            match parent with
            | None => raise (HTTPException 404 "Parent profile not found for this user.")
            | Some p =>
                links <- select_all parent_student_t [eq_str l_parent_id (parent_id p)]
                           None true None ;;
                let child_ids := map l_student_id links in
                if negb (str_in (lc_student_id request_data) child_ids)
                then raise (HTTPException 403 "Parents can only submit requests for their own children.")
                else ret (lc_student_id request_data)
            end
        | ADMIN =>
            found <- select_by_id students_t student_id (lc_student_id request_data) ;;
            match found with
            | None => raise (HTTPException 404 "Student not found.")
            | Some _ => ret (lc_student_id request_data)
            end
        | _ => raise (HTTPException 403 "Only Students, Parents, or Admins can create leave requests.")
        end) ;;
     let request_dict : draft leave_row := fun id created =>
       mk_leave id student_id_to_use (lc_start_date request_data)
         (lc_end_date request_data) (lc_reason request_data)
         (lc_status request_data) None created None in
     new_request <- insert_one leave_requests_t request_dict ;;
     nr <- subscript new_request ;;
     enriched <- _enrich_leave_response (Some nr) ;;
     ret (mk_leave_response nr enriched))
    (reraise_http_or_500 "Failed to create request: ").

(** The columns written by [update_leave_request_status]. *)
Definition leave_update_dict (update_data : LeaveRequestUpdate) (t : datetime)
    (r : leave_row) : leave_row :=
  mk_leave (request_id r) (lr_student_id r) (start_date r) (end_date r)
    (reason r) (lu_status update_data)
    (match lu_admin_remarks update_data with
     | Some v => v
     | None => admin_remarks r
     end)
    (lr_created_at r) (Some t).

Definition update_leave_request_status (rid : string)
    (update_data : LeaveRequestUpdate) (current_user : TokenPayload)
  : M LeaveRequestResponse :=
  try_except
    (existing_request <- select_by_id leave_requests_t request_id rid ;;
     match existing_request with
     | None => raise (HTTPException 404 "Leave request not found")
     | Some _ =>
         t <- now ;;
         updated_request <- update_by_id leave_requests_t request_id rid
                              (leave_update_dict update_data t) ;;
         enriched <- _enrich_leave_response updated_request ;;
         ur <- subscript updated_request ;;
         ret (mk_leave_response ur enriched)
     end)
    (reraise_http_or_500 "Failed to update request: ").

(** [PUT /{request_id}] with its dependency [Depends(require_teacher)]. *)
Definition put_leave_request (rid : string) (update_data : LeaveRequestUpdate)
    (caller : TokenPayload) : M LeaveRequestResponse :=
  current_user <- require_teacher caller ;;
  update_leave_request_status rid update_data current_user.

(* --------------------------------------------------------------------- *)
(** *** api/v1/endpoints/fees.py                                          *)
(* --------------------------------------------------------------------- *)

Record FeePayment : Type := mk_fee_payment {
  fp_fee_id : string;
  fp_amount_paid : Q;
  fp_payment_method : string;
  fp_transaction_id : option string
}.

Record FeeResponse : Type := mk_fee_response {
  fr_row : fee_row;
  fr_student_name : option string;
  fr_balance : Q
}.

Definition _enrich_fee_response (fee : option fee_row)
  : M (option string * Q) :=
  match fee with
  | None => raise NoneType_no_get
  | Some f =>
      student_name <-
        (if truthy_str (f_student_id f)
         then
           student <- select_by_id students_t student_id (f_student_id f) ;;
           ret (option_map s_name student)
         else ret None) ;;
      let balance := float_sub (amount f) (amount_paid f) in
      ret (student_name, balance)
  end.

(** The currency mark as it stands in the source text of the message. *)
Definition currency_mark : string :=
  String (ascii_of_nat 195) (String (ascii_of_nat 162)
  (String (ascii_of_nat 226) (String (ascii_of_nat 128)
  (String (ascii_of_nat 154) (String (ascii_of_nat 194)
  (String (ascii_of_nat 185) EmptyString)))))).

Definition overpayment_detail (paid due : Q) : string :=
  "Payment (" ++ currency_mark ++ float_str paid ++ ") exceeds balance due ("
  ++ currency_mark ++ float_str due ++ ")".

(** [a > b] on numbers. *)
Definition Qgtb (a b : Q) : bool := negb (Qle_bool a b).

(** pydantic's [ValidationError], a [ValueError], for a value that the
    declaration of a field of a model does not admit. *)
Definition ValidationError (model field value : string) : exn :=
  ValueError (validation_text model field value).

(** The call of [FeeResponse] on the columns of [fee] and the enriched
    fields.  The model is validated when it is built; of the columns of a typed row only
    [amount: float = Field(..., gt=0)] can fail. *)
Definition FeeResponse_call (fee : fee_row) (enriched : option string * Q)
  : M FeeResponse :=
  if Qgtb (amount fee) 0
  then ret (mk_fee_response fee (fst enriched) (snd enriched))
  else raise (ValidationError "FeeResponse" "amount" (float_str (amount fee))).

(** The columns written by [record_payment]. *)
Definition payment_update_data (new_paid_amount : Q) (new_status : FeeStatus)
    (t : datetime) (payment_data : FeePayment) (f : fee_row) : fee_row :=
  mk_fee (fee_id f) (f_student_id f) (amount f) (fee_type f) (due_date f)
    new_status (academic_year f) new_paid_amount (Some t)
    (Some (fp_payment_method payment_data)) (fp_transaction_id payment_data)
    (f_created_at f).

Definition record_payment (payment_data : FeePayment)
    (current_user : TokenPayload) : M FeeResponse :=
  try_except
    (fee <- select_by_id fees_t fee_id (fp_fee_id payment_data) ;;
     match fee with
     | None => raise (HTTPException 404 "Fee record not found")
     | Some fee =>
         let current_paid := amount_paid fee in
         let total_amount := amount fee in
         let new_paid_amount := float_add current_paid (fp_amount_paid payment_data) in
         if Qgtb new_paid_amount total_amount
         then raise (HTTPException 400
                       (overpayment_detail (fp_amount_paid payment_data)
                          (float_sub total_amount current_paid)))
         else
           let new_balance := float_sub total_amount new_paid_amount in
           let new_status := if Qeq_bool new_balance 0 then PAID else PARTIAL in
           t <- now ;;
           updated_fee <- update_by_id fees_t fee_id (fp_fee_id payment_data)
                            (payment_update_data new_paid_amount new_status t
                               payment_data) ;;
           enriched <- _enrich_fee_response updated_fee ;;
           uf <- subscript updated_fee ;;
           FeeResponse_call uf enriched
     end)
    (reraise_http_or_500 "Failed to record payment: ").

(** The loop of [get_fees] over the fetched rows. *)
Fixpoint get_fees_loop (caller_role : UserRole)
    (student_ids_allowed : option (list string)) (fees_list : list fee_row)
  : M (list FeeResponse) :=
  match fees_list with
  | [] => ret []
  | fee :: rest =>
      let skipped :=
        match student_ids_allowed with
        | Some allowed =>
            UserRole_eqb caller_role PARENT && truthy_list allowed
            && negb (str_in (f_student_id fee) allowed)
        | None => false
        end in
      if skipped then get_fees_loop caller_role student_ids_allowed rest
      else
        enriched <- _enrich_fee_response (Some fee) ;;
        response <- FeeResponse_call fee enriched ;;
        tail <- get_fees_loop caller_role student_ids_allowed rest ;;
        ret (response :: tail)
  end.

(** In [get_fees] the parameter [status] hides the module [status] of the
    framework, so the handler's [status.HTTP_500_INTERNAL_SERVER_ERROR]
    is an attribute lookup on the query parameter: building the 500
    response raises instead. *)
Definition status_attribute_error (status : option FeeStatus) : exn :=
  AttributeError
    (match status with
     | None => "'NoneType' object has no attribute 'HTTP_500_INTERNAL_SERVER_ERROR'"
     | Some _ => "'FeeStatus' object has no attribute 'HTTP_500_INTERNAL_SERVER_ERROR'"
     end).

(** The optional [student_id] query parameter as a filter. *)
Definition student_filter (student_id_q : option string) : filters fee_row :=
  match student_id_q with
  | Some sid => if truthy_str sid then [eq_str f_student_id sid] else []
  | None => []
  end.

Definition get_fees (student_id_q : option string) (status : option FeeStatus)
    (academic_year_q : option string) (current_user : TokenPayload)
  : M (list FeeResponse) :=
  (* role-based security: [None] stands for the early [return []] *)
  scope <-
    (match role current_user with
     | STUDENT =>
         student <- select_one students_t [eq_opt_str s_user_id (sub current_user)] ;;
         match student with
         | None => ret None
         | Some s => ret (Some ([eq_str f_student_id (student_id s)],
                                Some [student_id s]))
         end
     | PARENT =>
         parent <- select_one parents_t [eq_opt_str p_user_id (sub current_user)] ;;
         match parent with
         | None => ret None
         | Some p =>
             links <- select_all parent_student_t [eq_str l_parent_id (parent_id p)]
                        None true None ;;
             let student_ids_allowed := map l_student_id links in
             if negb (truthy_list student_ids_allowed) then ret None
             else
               match student_id_q with
               | Some sid =>
                   if truthy_str sid && str_in sid student_ids_allowed
                   then ret (Some ([eq_str f_student_id sid], Some student_ids_allowed))
                   else if truthy_str sid
                   then raise (HTTPException 403 "Access denied to this student's records")
                   else ret (Some ([], Some student_ids_allowed))
               | None => ret (Some ([], Some student_ids_allowed))
               end
         end
     | _ => ret (Some (student_filter student_id_q, None))
     end) ;;
  match scope with
  | None => ret []
  | Some (fs, student_ids_allowed) =>
      let fs := fs
        ++ match status with
           | Some st => [fun f => FeeStatus_eqb (f_status f) st]
           | None => []
           end
        ++ match academic_year_q with
           | Some y => if truthy_str y then [eq_str academic_year y] else []
           | None => []
           end in
      try_except
        (fees_list <- select_all fees_t fs (Some due_date) false None ;;
         get_fees_loop (role current_user) student_ids_allowed fees_list)
        (fun _ => raise (status_attribute_error status))
  end.

(* --------------------------------------------------------------------- *)
(** *** api/v1/endpoints/marks.py                                         *)
(* --------------------------------------------------------------------- *)

Record MarksCreate : Type := mk_marks_create {
  mc_exam_id : string;
  mc_student_id : string;
  mc_marks_scored : Q;
  mc_remarks : option string
}.

Record MarksResponse : Type := mk_marks_response {
  mr_row : mark_row;
  mr_student_name : option string;
  mr_exam_name : option string;
  mr_max_marks : option Z;
  mr_percentage : option Q
}.

Record mark_enrichment : Type := mk_mark_enrichment {
  me_student_name : option string;
  me_exam_name : option string;
  me_max_marks : option Z;
  me_percentage : option Q
}.

Definition _enrich_mark_response (mark : option mark_row) : M mark_enrichment :=
  match mark with
  | None => raise NoneType_no_get
  | Some m =>
      student_name <-
        (if truthy_str (m_student_id m)
         then
           student <- select_by_id students_t student_id (m_student_id m) ;;
           ret (option_map s_name student)
         else ret None) ;;
      exam <-
        (if truthy_str (m_exam_id m)
         then select_by_id exams_t exam_id (m_exam_id m)
         else ret None) ;;
      let max_marks_o := option_map max_marks exam in
      let percentage :=
        match max_marks_o with
        | Some mm =>
            if (0 <? mm)%Z
            then Some (float_round
                         (float_mul (float_div (marks_scored m) (inject_Z mm))
                            (inject_Z 100)) 2)
            else None
        | None => None
        end in
      ret (mk_mark_enrichment student_name (option_map exam_name exam)
             max_marks_o percentage)
  end.

Definition mark_response (m : mark_row) (e : mark_enrichment) : MarksResponse :=
  mk_marks_response m (me_student_name e) (me_exam_name e) (me_max_marks e)
    (me_percentage e).

(** The call of [MarksResponse] on the columns of the mark and the
    enriched fields: validated when it is built;
    of the columns of a typed row only
    [marks_scored: float = Field(..., ge=0)] can fail. *)
Definition MarksResponse_call (m : mark_row) (e : mark_enrichment)
  : M MarksResponse :=
  if Qle_bool 0 (marks_scored m)
  then ret (mark_response m e)
  else raise (ValidationError "MarksResponse" "marks_scored"
                (float_str (marks_scored m))).

(** [mark_data.model_dump()] as sent to the store. *)
Definition mark_dict (mark_data : MarksCreate) : draft mark_row :=
  fun id created =>
    mk_mark id (mc_exam_id mark_data) (mc_student_id mark_data)
      (mc_marks_scored mark_data) (mc_remarks mark_data) created.

Definition create_mark (mark_data : MarksCreate) (current_user : TokenPayload)
  : M MarksResponse :=
  try_except
    (exam <- select_by_id exams_t exam_id (mc_exam_id mark_data) ;;
     match exam with
     | None => raise (HTTPException 404 "Exam not found")
     | Some exam =>
         student <- select_by_id students_t student_id (mc_student_id mark_data) ;;
         match student with
         | None => raise (HTTPException 404 "Student not found")
         | Some _ =>
             existing <- select_one marks_t
                           [eq_str m_exam_id (mc_exam_id mark_data);
                            eq_str m_student_id (mc_student_id mark_data)] ;;
             match existing with
             | Some _ => raise (HTTPException 400
                                  "Marks for this student and exam already exist.")
             | None =>
                 let max_marks := max_marks exam in
                 if Qgtb (mc_marks_scored mark_data) (inject_Z max_marks)
                 then raise (HTTPException 400
                               ("Marks scored (" ++ float_str (mc_marks_scored mark_data)
                                ++ ") cannot be greater than max marks ("
                                ++ Z_str max_marks ++ ")"))
                 else
                   new_mark <- insert_one marks_t (mark_dict mark_data) ;;
                   nm <- subscript new_mark ;;
                   enriched <- _enrich_mark_response (Some nm) ;;
                   MarksResponse_call nm enriched
             end
         end
     end)
    (reraise_http_or_500 "Failed to create mark: ").

Record bulk_error : Type := mk_bulk_error {
  be_index : nat;
  be_student_id : option string;
  be_error : string
}.

Record bulk_result : Type := mk_bulk_result {
  br_message : string;
  br_created_count : nat;
  br_errors : list bulk_error
}.

(** The validation loop of [create_bulk_marks]: the errors and the
    records to insert, both in the order of the input. *)
Fixpoint bulk_validate (first_exam_id : string) (max_marks : Z) (i : nat)
    (marks_list : list MarksCreate)
  : list bulk_error * list (draft mark_row) :=
  match marks_list with
  | [] => ([], [])
  | mark_data :: rest =>
      let '(errors, records_to_insert) :=
        bulk_validate first_exam_id max_marks (S i) rest in
      if negb (mc_exam_id mark_data =? first_exam_id)
      then (mk_bulk_error i None
              "All marks in a bulk upload must be for the same exam." :: errors,
            records_to_insert)
      else if Qgtb (mc_marks_scored mark_data) (inject_Z max_marks)
      then (mk_bulk_error i (Some (mc_student_id mark_data))
              ("Marks (" ++ float_str (mc_marks_scored mark_data)
               ++ ") exceed max marks (" ++ Z_str max_marks ++ ").") :: errors,
            records_to_insert)
      else (errors, mark_dict mark_data :: records_to_insert)
  end.

Definition create_bulk_marks (marks_list : list MarksCreate)
    (current_user : TokenPayload) : M bulk_result :=
  match marks_list with
  | [] => raise (HTTPException 400 "No marks data provided.")
  | first :: _ =>
      let first_exam_id := mc_exam_id first in
      exam <- select_by_id exams_t exam_id first_exam_id ;;
      match exam with
      | None => raise (HTTPException 404
                         ("Exam with ID " ++ first_exam_id ++ " not found."))
      | Some exam =>
          let max_marks := max_marks exam in
          let '(errors, records_to_insert) :=
            bulk_validate first_exam_id max_marks 0 marks_list in
          created_count <-
            (if truthy_list records_to_insert
             then
               try_except
                 (new_marks <- insert_many marks_t records_to_insert ;;
                  ret (length new_marks))
                 (fun e => raise (HTTPException 500
                                    ("Failed to create marks in bulk: " ++ exn_str e)))
             else ret 0%nat) ;;
          ret (mk_bulk_result "Bulk marks processed." created_count errors)
      end
  end.

(** The loop of [get_marks] over the fetched rows; [post_filter] holds
    for a parent who gave no [student_id]. *)
Fixpoint get_marks_loop (post_filter : bool) (child_ids : list string)
    (marks_list : list mark_row) : M (list MarksResponse) :=
  match marks_list with
  | [] => ret []
  | mark :: rest =>
      if post_filter && negb (str_in (m_student_id mark) child_ids)
      then get_marks_loop post_filter child_ids rest
      else
        enriched <- _enrich_mark_response (Some mark) ;;
        response <- MarksResponse_call mark enriched ;;
        tail <- get_marks_loop post_filter child_ids rest ;;
        ret (response :: tail)
  end.

Definition truthy_opt_str (o : option string) : bool :=
  match o with Some s => truthy_str s | None => false end.

Definition get_marks (student_id_q exam_id_q : option string)
    (current_user : TokenPayload) : M (list MarksResponse) :=
  scope <-
    (match role current_user with
     | STUDENT =>
         student_profile <- select_one students_t
                              [eq_opt_str s_user_id (sub current_user)] ;;
         match student_profile with
         | None => ret None
         | Some s => ret (Some ([eq_str m_student_id (student_id s)], []))
         end
     | PARENT =>
         parent_profile <- select_one parents_t
                             [eq_opt_str p_user_id (sub current_user)] ;;
         match parent_profile with
         | None => ret None
         | Some p =>
             child_links <- select_all parent_student_t
                              [eq_str l_parent_id (parent_id p)] None true None ;;
             let child_ids := map l_student_id child_links in
             if negb (truthy_list child_ids) then ret None
             else
               match student_id_q with
               | Some sid =>
                   if truthy_str sid && str_in sid child_ids
                   then ret (Some ([eq_str m_student_id sid], child_ids))
                   else if truthy_str sid
                   then raise (HTTPException 403
                                 "You do not have permission to view this student's marks.")
                   else ret (Some ([], child_ids))
               | None => ret (Some ([], child_ids))
               end
         end
     | _ =>
         ret (Some (match student_id_q with
                    | Some sid => if truthy_str sid then [eq_str m_student_id sid] else []
                    | None => []
                    end, []))
     end) ;;
  match scope with
  | None => ret []
  | Some (fs, child_ids) =>
      let fs := fs
        ++ match exam_id_q with
           | Some x => if truthy_str x then [eq_str m_exam_id x] else []
           | None => []
           end in
      try_except
        (marks_list <- select_all marks_t fs (Some m_created_at) false None ;;
         get_marks_loop
           (UserRole_eqb (role current_user) PARENT
            && negb (truthy_opt_str student_id_q))
           child_ids marks_list)
        (fun e => raise (HTTPException 500
                           ("Failed to retrieve marks: " ++ exn_str e)))
  end.

Definition get_mark (mid : string) (current_user : TokenPayload)
  : M MarksResponse :=
  try_except
    (mark <- select_by_id marks_t mark_id mid ;;
     match mark with
     | None => raise (HTTPException 404 "Mark not found")
     | Some mark =>
         (if UserRole_eqb (role current_user) STUDENT
          then
            student_profile <- select_one students_t
                                 [eq_opt_str s_user_id (sub current_user)] ;;
            match student_profile with
            | None => raise (HTTPException 403 "Access denied")
            | Some s =>
                if negb (m_student_id mark =? student_id s)
                then raise (HTTPException 403 "Access denied")
                else ret tt
            end
          else ret tt) ;;
         (if UserRole_eqb (role current_user) PARENT
          then
            parent_profile <- select_one parents_t
                                [eq_opt_str p_user_id (sub current_user)] ;;
            p <- subscript parent_profile ;;
            child_links <- select_all parent_student_t
                             [eq_str l_parent_id (parent_id p)] None true None ;;
            let child_ids := map l_student_id child_links in
            if negb (str_in (m_student_id mark) child_ids)
            then raise (HTTPException 403 "Access denied")
            else ret tt
          else ret tt) ;;
         enriched <- _enrich_mark_response (Some mark) ;;
         MarksResponse_call mark enriched
     end)
    (reraise_http_or_500 "Failed to retrieve mark: ").

(* --------------------------------------------------------------------- *)
(** *** api/v1/endpoints/attendance.py                                    *)
(* --------------------------------------------------------------------- *)

Record AttendanceCreate : Type := mk_attendance_create {
  ac_student_id : string;
  ac_date : date;
  ac_status : AttendanceStatus;
  ac_remarks : option string
}.

Record AttendanceResponse : Type := mk_attendance_response {
  ar_row : attendance_row;
  ar_student_name : option string
}.

(** The call of [AttendanceResponse] on the columns of a row and the
    student's name: validated when it is built, and the [status] column,
    a text in the store, must be a value of [AttendanceStatus]. *)
Definition AttendanceResponse_call (row : attendance_row)
    (student_name : option string) : M AttendanceResponse :=
  match AttendanceStatus_of_value (a_status row) with
  | Some _ => ret (mk_attendance_response row student_name)
  | None => raise (ValidationError "AttendanceResponse" "status" (a_status row))
  end.

(** [**row] when the row is [None]. *)
Definition unpack {A} (o : option A) : M A :=
  match o with
  | Some a => ret a
  | None => raise (TypeError "argument after ** must be a mapping, not NoneType")
  end.

Definition eq_date {R} (col : R -> date) (v : date) : R -> bool :=
  fun r => (col r =? v)%Z.

Definition mark_attendance (attendance_data : AttendanceCreate)
    (current_user : TokenPayload) : M AttendanceResponse :=
  try_except
    (existing <- table_select attendance_t
                   [eq_str a_student_id (ac_student_id attendance_data);
                    eq_date a_date (ac_date attendance_data)] ;;
     if truthy_list existing
     then raise (HTTPException 400 "Attendance already marked for this date")
     else
       let attendance_dict : draft attendance_row := fun id created =>
         mk_attendance id (ac_student_id attendance_data)
           (ac_date attendance_data)
           (AttendanceStatus_value (ac_status attendance_data))
           (ac_remarks attendance_data) created in
       new_attendance <- insert_one attendance_t attendance_dict ;;
       student <- select_by_id students_t student_id
                    (ac_student_id attendance_data) ;;
       let student_name := option_map s_name student in
       na <- unpack new_attendance ;;
       AttendanceResponse_call na student_name)
    (reraise_http_or_500_fixed "Failed to mark attendance").

(** [POST /attendance/] with its dependency [Depends(require_teacher)]. *)
Definition post_attendance (attendance_data : AttendanceCreate)
    (caller : TokenPayload) : M AttendanceResponse :=
  current_user <- require_teacher caller ;;
  mark_attendance attendance_data current_user.

End Handlers.

(* ===================================================================== *)
(** * Further code of the same modules                                    *)
(* ===================================================================== *)

(** ** The store client, continued *)

(** [.delete().eq(...)]: removes the matching rows and answers with them. *)
Definition table_delete {R} (T : Table R) (fs : filters R) : M (list R) :=
  execute ;;
  fun w =>
    let old := rows T (db w) in
    (Return (filter (matches fs) old),
     set_db (with_rows T (filter (fun r => negb (matches fs r)) old) (db w)) w).

(** [.in_(col, values)], [.gte(col, v)] and [.lte(col, v)]. *)
Definition in_str {R} (col : R -> string) (values : list string) : R -> bool :=
  fun r => str_in (col r) values.

Definition gte_date {R} (col : R -> date) (v : date) : R -> bool :=
  fun r => (v <=? col r)%Z.

Definition lte_date {R} (col : R -> date) (v : date) : R -> bool :=
  fun r => (col r <=? v)%Z.

(** [.select("*", count="exact")] with filters, an order and a window of
    [limit] rows from [offset] on: the window, and the exact number of
    rows the filters select. *)
Definition table_select_window {R} (T : Table R) (fs : filters R)
    (order_by : option (R -> Z)) (desc : bool) (offset limit : nat)
  : M (list R * nat) :=
  execute ;;
  w <- get_world ;;
  let selected := filter (matches fs) (rows T (db w)) in
  let ordered := match order_by with
                 | Some col => order_rows col desc selected
                 | None => selected
                 end in
  ret (firstn limit (skipn offset ordered), length selected).

(** ** db/supabase.py, continued *)

Definition update_many {R} (T : Table R) (fs : filters R) (data : R -> R)
  : M (list R) :=
  try_except
    (table_update T fs data)
    (fun e => raise (Exception ("Failed to update " ++ tname T ++ ": " ++ exn_str e))).

Definition delete_by_id {R} (T : Table R) (id_column : R -> string)
    (id_value : string) : M (list R) :=
  try_except
    (table_delete T [eq_str id_column id_value])
    (fun e => raise (Exception ("Failed to delete from " ++ tname T ++ ": " ++ exn_str e))).

Definition delete_many {R} (T : Table R) (fs : filters R) : M (list R) :=
  try_except
    (table_delete T fs)
    (fun e => raise (Exception ("Failed to delete from " ++ tname T ++ ": " ++ exn_str e))).

Record page_of (R : Type) : Type := mk_page {
  pg_data : list R;
  pg_count : nat;
  pg_page : positive;
  pg_page_size : positive;
  pg_total_pages : nat
}.
Arguments mk_page {R} _ _ _ _ _.
Arguments pg_data {R} _.
Arguments pg_count {R} _.
Arguments pg_page {R} _.
Arguments pg_page_size {R} _.
Arguments pg_total_pages {R} _.

(** [paginate]. [page] and [page_size] are at least 1, as every caller
    declares them ([Query(.., ge=1)]); the rows asked for are those from
    [start] to [end], both included. *)
Definition paginate {R} (T : Table R) (page page_size : positive)
    (fs : filters R) (order_by : option (R -> Z)) (ascending : bool)
  : M (page_of R) :=
  try_except
    (let start := ((Pos.to_nat page - 1) * Pos.to_nat page_size)%nat in
     let end_ := (start + Pos.to_nat page_size - 1)%nat in
     response <- table_select_window T fs order_by (negb ascending)
                   start (end_ - start + 1) ;;
     let total_count := snd response in
     let total_pages :=
       if (0 <? total_count)%nat
       then ((total_count + Pos.to_nat page_size - 1) / Pos.to_nat page_size)%nat
       else 0%nat in
     ret (mk_page (fst response) total_count page page_size total_pages))
    (fun e => raise (Exception ("Failed to paginate " ++ tname T ++ ": " ++ exn_str e))).

Definition count {R} (T : Table R) (fs : filters R) : M nat :=
  try_except
    (response <- table_select_window T fs None false 0 0 ;;
     ret (snd response))
    (fun e => raise (Exception ("Failed to count " ++ tname T ++ ": " ++ exn_str e))).

Definition exists_ {R} (T : Table R) (fs : filters R) : M bool :=
  try_except
    (data <- table_select T fs ;;
     ret (truthy_list (firstn 1 data)))
    (fun e => raise (Exception ("Failed to check existence in " ++ tname T ++ ": "
                                ++ exn_str e))).

(** [d[key]] on a dictionary without the key: a [KeyError], which every
    handler treats like any other exception; its text is the quoted key. *)
Definition KeyError (key : string) : exn := Exception ("'" ++ key ++ "'").

Definition item {A} (key : string) (o : option A) : M A :=
  match o with
  | Some a => ret a
  | None => raise (KeyError key)
  end.

(** [str(x)] of an optional text. *)
Definition str_opt (o : option string) : string :=
  match o with Some s => s | None => "None" end.

(** passlib's [pwd_context.verify]. *)
Class Passlib : Type := {
  verify_password : string -> string -> bool
}.

Section MoreHandlers.

Context {platform : Platform} {passlib : Passlib}.

(* --------------------------------------------------------------------- *)
(** *** core/security.py, continued                                       *)
(* --------------------------------------------------------------------- *)

Definition require_student (current_user : TokenPayload) : M TokenPayload :=
  if negb (UserRole_eqb (role current_user) STUDENT)
  then raise (HTTPException 403 "Student access required")
  else ret current_user.

Definition require_parent (current_user : TokenPayload) : M TokenPayload :=
  if negb (UserRole_eqb (role current_user) PARENT)
  then raise (HTTPException 403 "Parent access required")
  else ret current_user.

(* --------------------------------------------------------------------- *)
(** *** api/v1/endpoints/auth.py, continued                               *)
(* --------------------------------------------------------------------- *)

Record UserLogin : Type := mk_user_login {
  ul_email : string;
  ul_password : string
}.

Definition login (credentials : UserLogin) : M Token :=
  try_except
    (response <- table_select users_t [eq_str u_email (ul_email credentials)] ;;
     match response with
     | [] => raise (HTTPException 401 "Invalid email or password")
     | user :: _ =>
         if negb (u_is_active user)
         then raise (HTTPException 403 "Account is inactive")
         else if negb (verify_password (ul_password credentials) (u_password_hash user))
         then raise (HTTPException 401 "Invalid email or password")
         else
           let token_data := mk_claims (Some (user_id user)) (Some (u_role user))
                               None None in
           access_token <- create_access_token token_data None ;;
           refresh_token <- create_refresh_token token_data ;;
           ret (mk_token access_token refresh_token "bearer"
                  (ACCESS_TOKEN_EXPIRE_MINUTES * 60)%Z)
     end)
    (reraise_http_or_500_fixed "Login failed").

Definition get_current_user_info (current_user : TokenPayload) : M UserResponse :=
  try_except
    (response <- table_select users_t [eq_str user_id (sub current_user)] ;;
     match response with
     | [] => raise (HTTPException 404 "User not found")
     | user :: _ =>
         r <- UserRole_call (u_role user) ;;
         ret (mk_user_response (user_id user) (u_email user) r (u_is_active user)
                (u_created_at user))
     end)
    (reraise_http_or_500_fixed "Failed to get user information").

(** The column written by [change_password]. *)
Definition set_password_hash (h : string) (u : user_row) : user_row :=
  mk_user (user_id u) (u_email u) h (u_role u) (u_is_active u) (u_created_at u).

Definition change_password (old_password new_password : string)
    (current_user : TokenPayload) : M string :=
  try_except
    (response <- table_select users_t [eq_str user_id (sub current_user)] ;;
     match response with
     | [] => raise (HTTPException 404 "User not found")
     | user :: _ =>
         if negb (verify_password old_password (u_password_hash user))
         then raise (HTTPException 401 "Invalid current password")
         else
           let new_hashed_password := hash_password new_password in
           table_update users_t [eq_str user_id (sub current_user)]
             (set_password_hash new_hashed_password) ;;
           ret "Password changed successfully"
     end)
    (reraise_http_or_500_fixed "Failed to change password").

(* --------------------------------------------------------------------- *)
(** *** api/v1/endpoints/fees.py, continued                               *)
(* --------------------------------------------------------------------- *)

Definition get_fee (fid : string) (current_user : TokenPayload) : M FeeResponse :=
  try_except
    (fee <- select_by_id fees_t fee_id fid ;;
     match fee with
     | None => raise (HTTPException 404 "Fee record not found")
     | Some fee =>
         (match role current_user with
          | STUDENT =>
              student <- select_one students_t
                           [eq_opt_str s_user_id (sub current_user)] ;;
              match student with
              | None => raise (HTTPException 403 "Access denied")
              | Some s =>
                  if negb (f_student_id fee =? student_id s)
                  then raise (HTTPException 403 "Access denied")
                  else ret tt
              end
          | PARENT =>
              parent <- select_one parents_t
                          [eq_opt_str p_user_id (sub current_user)] ;;
              match parent with
              | None => raise (HTTPException 403 "Access denied")
              | Some p =>
                  links <- select_all parent_student_t
                             [eq_str l_parent_id (parent_id p)] None true None ;;
                  let student_ids_allowed := map l_student_id links in
                  if negb (str_in (f_student_id fee) student_ids_allowed)
                  then raise (HTTPException 403 "Access denied")
                  else ret tt
              end
          | _ => ret tt
          end) ;;
         enriched <- _enrich_fee_response (Some fee) ;;
         FeeResponse_call fee enriched
     end)
    (reraise_http_or_500 "Failed to retrieve fee record: ").

(** [delete_fee]; the answer is an empty 204 response. *)
Definition delete_fee (fid : string) (current_user : TokenPayload) : M unit :=
  try_except
    (existing_fee <- select_by_id fees_t fee_id fid ;;
     match existing_fee with
     | None => raise (HTTPException 404 "Fee record not found")
     | Some existing_fee =>
         if Qgtb (amount_paid existing_fee) 0
         then raise (HTTPException 400
                       "Cannot delete a fee record that has payments associated with it.")
         else
           delete_by_id fees_t fee_id fid ;;
           ret tt
     end)
    (reraise_http_or_500 "Failed to delete fee: ").

(** [sum(xs)]: the additions start from 0, left to right. *)
Definition py_sum (xs : list Q) : Q := fold_left float_add xs 0.

Definition count_fee_status (st : FeeStatus) (fees : list fee_row) : nat :=
  length (filter (fun f => FeeStatus_eqb (f_status f) st) fees).

Record fee_statistics : Type := mk_fee_statistics {
  total_expected : Q;
  total_collected : Q;
  total_pending : Q;
  collection_rate_percentage : Q;
  paid_count : nat;
  pending_count : nat;
  overdue_count : nat;
  partial_count : nat;
  fs_academic_year : string
}.

Inductive fee_statistics_result : Type :=
| NoFeeData (summary : string)
| FeeStatistics (s : fee_statistics).

Definition get_fee_statistics (academic_year_q : option string)
    (current_user : TokenPayload) : M fee_statistics_result :=
  try_except
    (let query : filters fee_row :=
       match academic_year_q with
       | Some y => if truthy_str y then [eq_str academic_year y] else []
       | None => []
       end in
     fees <- table_select fees_t query ;;
     if negb (truthy_list fees)
     then ret (NoFeeData "No fee data found for the specified criteria.")
     else
       let total_expected := py_sum (map amount fees) in
       let total_collected := py_sum (map amount_paid fees) in
       let total_pending := float_sub total_expected total_collected in
       let collection_rate_rounded :=
         if Qgtb total_expected 0
         then float_round
                (float_mul (float_div total_collected total_expected) (inject_Z 100)) 2
         else 0 in
       ret (FeeStatistics
              (mk_fee_statistics total_expected total_collected total_pending
                 collection_rate_rounded
                 (count_fee_status PAID fees) (count_fee_status PENDING fees)
                 (count_fee_status OVERDUE fees) (count_fee_status PARTIAL fees)
                 (match academic_year_q with
                  | Some y => if truthy_str y then y else "All"
                  | None => "All"
                  end))))
    (fun e => raise (HTTPException 500
                       ("Failed to retrieve fee statistics: " ++ exn_str e))).

(* --------------------------------------------------------------------- *)
(** *** api/v1/endpoints/leave_requests.py, continued                     *)
(* --------------------------------------------------------------------- *)

(** In [get_leave_requests], as in [get_fees], the parameter [status]
    hides the framework's module of that name in the handler. *)
Definition leave_status_attribute_error (status : option LeaveStatus) : exn :=
  AttributeError
    (match status with
     | None => "'NoneType' object has no attribute 'HTTP_500_INTERNAL_SERVER_ERROR'"
     | Some _ => "'LeaveStatus' object has no attribute 'HTTP_500_INTERNAL_SERVER_ERROR'"
     end).

Fixpoint get_leave_requests_loop (post_filter : bool)
    (student_ids_allowed : list string) (requests_list : list leave_row)
  : M (list LeaveRequestResponse) :=
  match requests_list with
  | [] => ret []
  | req :: rest =>
      if post_filter && negb (str_in (lr_student_id req) student_ids_allowed)
      then get_leave_requests_loop post_filter student_ids_allowed rest
      else
        enriched <- _enrich_leave_response (Some req) ;;
        tail <- get_leave_requests_loop post_filter student_ids_allowed rest ;;
        ret (mk_leave_response req enriched :: tail)
  end.

(** [get_leave_requests]; the whole body, the early [return []] and the
    403 included, stands inside the [try]. *)
Definition get_leave_requests (status : option LeaveStatus)
    (student_id_q : option string) (current_user : TokenPayload)
  : M (list LeaveRequestResponse) :=
  try_except
    (scope <-
       (match role current_user with
        | STUDENT =>
            student <- select_one students_t
                         [eq_opt_str s_user_id (sub current_user)] ;;
            match student with
            | None => ret None
            | Some s => ret (Some ([eq_str lr_student_id (student_id s)], []))
            end
        | PARENT =>
            parent <- select_one parents_t
                        [eq_opt_str p_user_id (sub current_user)] ;;
            match parent with
            | None => ret None
            | Some p =>
                links <- select_all parent_student_t
                           [eq_str l_parent_id (parent_id p)] None true None ;;
                let student_ids_allowed := map l_student_id links in
                if negb (truthy_list student_ids_allowed) then ret None
                else
                  match student_id_q with
                  | Some sid =>
                      if truthy_str sid && str_in sid student_ids_allowed
                      then ret (Some ([eq_str lr_student_id sid], student_ids_allowed))
                      else if truthy_str sid
                      then raise (HTTPException 403 "Access denied")
                      else ret (Some ([], student_ids_allowed))
                  | None => ret (Some ([], student_ids_allowed))
                  end
            end
        | _ =>
            ret (Some (match student_id_q with
                       | Some sid =>
                           if truthy_str sid then [eq_str lr_student_id sid] else []
                       | None => []
                       end, []))
        end) ;;
     match scope with
     | None => ret []
     | Some (fs, student_ids_allowed) =>
         let fs := fs
           ++ match status with
              | Some st => [fun r => LeaveStatus_eqb (lr_status r) st]
              | None => []
              end in
         requests_list <- select_all leave_requests_t fs (Some lr_created_at)
                            false None ;;
         get_leave_requests_loop
           (UserRole_eqb (role current_user) PARENT
            && negb (truthy_opt_str student_id_q))
           student_ids_allowed requests_list
     end)
    (fun _ => raise (leave_status_attribute_error status)).

Definition get_leave_request (rid : string) (current_user : TokenPayload)
  : M LeaveRequestResponse :=
  try_except
    (request <- select_by_id leave_requests_t request_id rid ;;
     match request with
     | None => raise (HTTPException 404 "Leave request not found")
     | Some request =>
         (match role current_user with
          | STUDENT =>
              student <- select_one students_t
                           [eq_opt_str s_user_id (sub current_user)] ;;
              match student with
              | None => raise (HTTPException 403 "Access denied")
              | Some s =>
                  if negb (lr_student_id request =? student_id s)
                  then raise (HTTPException 403 "Access denied")
                  else ret tt
              end
          | PARENT =>
              parent <- select_one parents_t
                          [eq_opt_str p_user_id (sub current_user)] ;;
              match parent with
              | None => raise (HTTPException 403 "Access denied")
              | Some p =>
                  links <- select_all parent_student_t
                             [eq_str l_parent_id (parent_id p)] None true None ;;
                  let student_ids_allowed := map l_student_id links in
                  if negb (str_in (lr_student_id request) student_ids_allowed)
                  then raise (HTTPException 403 "Access denied")
                  else ret tt
              end
          | _ => ret tt
          end) ;;
         enriched <- _enrich_leave_response (Some request) ;;
         ret (mk_leave_response request enriched)
     end)
    (reraise_http_or_500 "Failed to retrieve request: ").

Definition delete_leave_request (rid : string) (current_user : TokenPayload)
  : M unit :=
  try_except
    (found <- select_by_id leave_requests_t request_id rid ;;
     match found with
     | None => raise (HTTPException 404 "Leave request not found")
     | Some _ =>
         delete_by_id leave_requests_t request_id rid ;;
         ret tt
     end)
    (reraise_http_or_500 "Failed to delete request: ").

(** [DELETE /{request_id}] with its dependency [Depends(require_admin)]. *)
Definition delete_leave_request_guarded (rid : string) (caller : TokenPayload)
  : M unit :=
  current_user <- require_admin caller ;;
  delete_leave_request rid current_user.

(* --------------------------------------------------------------------- *)
(** *** api/v1/endpoints/marks.py, continued                              *)
(* --------------------------------------------------------------------- *)

(** [MarksUpdate]; a field is [None] when the body leaves it out and
    [Some None] when the body sets it to null. *)
Record MarksUpdate : Type := mk_marks_update {
  mu_marks_scored : option (option Q);
  mu_remarks : option (option string)
}.

(** The columns written by [update_mark]. *)
Definition mark_update_data (score : option Q) (remarks : option (option string))
    (m : mark_row) : mark_row :=
  mk_mark (mark_id m) (m_exam_id m) (m_student_id m)
    (match score with Some q => q | None => marks_scored m end)
    (match remarks with Some r => r | None => m_remarks m end)
    (m_created_at m).

Definition NoneType_not_ordered : exn :=
  TypeError "'>' not supported between instances of 'NoneType' and 'int'".

Definition update_mark (mid : string) (mark_data : MarksUpdate)
    (current_user : TokenPayload) : M MarksResponse :=
  try_except
    (existing_mark <- select_by_id marks_t mark_id mid ;;
     match existing_mark with
     | None => raise (HTTPException 404 "Mark not found")
     | Some existing_mark =>
         match mu_marks_scored mark_data, mu_remarks mark_data with
         | None, None => raise (HTTPException 400 "No fields to update")
         | score, remarks =>
             new_score <-
               (match score with
                | None => ret None
                | Some value =>
                    exam <- select_by_id exams_t exam_id (m_exam_id existing_mark) ;;
                    match exam with
                    | None => raise (HTTPException 404
                                       "Associated exam not found. Cannot validate marks.")
                    | Some exam =>
                        let max_marks := max_marks exam in
                        match value with
                        | None => raise NoneType_not_ordered
                        | Some q =>
                            if Qgtb q (inject_Z max_marks)
                            then raise (HTTPException 400
                                          ("Marks scored (" ++ float_str q
                                           ++ ") cannot be greater than max marks ("
                                           ++ Z_str max_marks ++ ")"))
                            else ret (Some q)
                        end
                    end
                end) ;;
             updated_mark <- update_by_id marks_t mark_id mid
                               (mark_update_data new_score remarks) ;;
             um <- subscript updated_mark ;;
             enriched <- _enrich_mark_response (Some um) ;;
             MarksResponse_call um enriched
         end
     end)
    (reraise_http_or_500 "Failed to update mark: ").

Definition delete_mark (mid : string) (current_user : TokenPayload) : M unit :=
  try_except
    (found <- select_by_id marks_t mark_id mid ;;
     match found with
     | None => raise (HTTPException 404 "Mark not found")
     | Some _ =>
         delete_by_id marks_t mark_id mid ;;
         ret tt
     end)
    (reraise_http_or_500 "Failed to delete mark: ").

(* --------------------------------------------------------------------- *)
(** *** api/v1/endpoints/attendance.py, continued                         *)
(* --------------------------------------------------------------------- *)

(** One entry of [attendance_records]: a dictionary whose [student_id]
    and [status] may be missing, and whose [status] is any text (the
    schema declares [List[Dict[str, Any]]] and nothing checks it). *)
Record bulk_record : Type := mk_bulk_record {
  rec_student_id : option string;
  rec_status : option string;
  rec_remarks : option string
}.

Record AttendanceBulkCreate : Type := mk_attendance_bulk {
  ab_class_id : string;
  ab_date : date;
  attendance_records : list bulk_record
}.

Record bulk_attendance_result : Type := mk_bulk_attendance_result {
  bar_message : string;
  bar_class_id : string;
  bar_date : date;
  records_created : nat
}.

(** The first loop of [mark_bulk_attendance]: every record must name a
    student of the class. *)
Fixpoint validate_class_members (class_id : string) (student_ids : list string)
    (records : list bulk_record) : M unit :=
  match records with
  | [] => ret tt
  | record :: rest =>
      if negb (match rec_student_id record with
               | Some sid => str_in sid student_ids
               | None => false
               end)
      then raise (HTTPException 400
                    ("Student " ++ str_opt (rec_student_id record)
                     ++ " not in class " ++ class_id))
      else validate_class_members class_id student_ids rest
  end.

(** [[r["student_id"] for r in records]]. *)
Fixpoint record_student_ids (records : list bulk_record) : M (list string) :=
  match records with
  | [] => ret []
  | r :: rest =>
      sid <- item "student_id" (rec_student_id r) ;;
      tail <- record_student_ids rest ;;
      ret (sid :: tail)
  end.

(** The second loop: the rows to insert. *)
Fixpoint bulk_attendance_rows (d : date) (records : list bulk_record)
  : M (list (draft attendance_row)) :=
  match records with
  | [] => ret []
  | record :: rest =>
      sid <- item "student_id" (rec_student_id record) ;;
      st <- item "status" (rec_status record) ;;
      tail <- bulk_attendance_rows d rest ;;
      ret ((fun id created =>
              mk_attendance id sid d st (rec_remarks record) created) :: tail)
  end.

Definition nat_str (n : nat) : string := Z_str (Z.of_nat n).

Definition mark_bulk_attendance (bulk_data : AttendanceBulkCreate)
    (current_user : TokenPayload) : M bulk_attendance_result :=
  try_except
    (students <- select_all students_t
                   [eq_opt_str s_class_id (ab_class_id bulk_data)] None true None ;;
     let student_ids := map student_id students in
     validate_class_members (ab_class_id bulk_data) student_ids
       (attendance_records bulk_data) ;;
     submitted <- record_student_ids (attendance_records bulk_data) ;;
     existing <- table_select attendance_t
                   [in_str a_student_id submitted;
                    eq_date a_date (ab_date bulk_data)] ;;
     if truthy_list existing
     then raise (HTTPException 400
                   "Attendance already marked for some students on this date")
     else
       new_rows <- bulk_attendance_rows (ab_date bulk_data)
                     (attendance_records bulk_data) ;;
       result <- insert_many attendance_t new_rows ;;
       ret (mk_bulk_attendance_result
              ("Attendance marked for " ++ nat_str (length result) ++ " students")
              (ab_class_id bulk_data) (ab_date bulk_data) (length result)))
    (reraise_http_or_500_fixed "Failed to mark bulk attendance").

Record attendance_statistics : Type := mk_attendance_statistics {
  total_records : nat;
  present : nat;
  absent : nat;
  late : nat;
  excused : nat;
  attendance_percentage : Q
}.

(** [sum(1 for r in records if r["status"] == value)]. *)
Definition count_attendance_status (value : string)
    (records : list attendance_row) : nat :=
  length (filter (fun r => a_status r =? value) records).

(** [get_attendance_statistics]; the answer also repeats the filters it
    was given, which is left out here. *)
Definition get_attendance_statistics (class_id_q student_id_q : option string)
    (start_date_q end_date_q : option date) (current_user : TokenPayload)
  : M attendance_statistics :=
  try_except
    (let query : filters attendance_row :=
       match student_id_q with
       | Some sid => if truthy_str sid then [eq_str a_student_id sid] else []
       | None => []
       end in
     query <-
       (if truthy_opt_str class_id_q
        then
          students <- select_all students_t
                        [eq_opt_str s_class_id (str_opt class_id_q)] None true None ;;
          let student_ids := map student_id students in
          if truthy_list student_ids
          then ret (query ++ [in_str a_student_id student_ids])
          else ret query
        else ret query) ;;
     let query := query
       ++ match start_date_q with Some d => [gte_date a_date d] | None => [] end
       ++ match end_date_q with Some d => [lte_date a_date d] | None => [] end in
     records <- table_select attendance_t query ;;
     let total := length records in
     let present := count_attendance_status "present" records in
     ret (mk_attendance_statistics total present
            (count_attendance_status "absent" records)
            (count_attendance_status "late" records)
            (count_attendance_status "excused" records)
            (if (0 <? total)%nat
             then float_round
                    (float_mul (float_div (inject_Z (Z.of_nat present))
                                  (inject_Z (Z.of_nat total)))
                       (inject_Z 100)) 2
             else 0)))
    (fun _ => raise (HTTPException 500 "Failed to retrieve attendance statistics")).

(** In [update_attendance] the parameter [status] hides the framework's
    module [status]: both [status.HTTP_404_NOT_FOUND] and
    [status.HTTP_500_INTERNAL_SERVER_ERROR] are attribute lookups on the
    new attendance status, and raise. *)
Definition attendance_status_attribute_error (name : string) : exn :=
  AttributeError ("'AttendanceStatus' object has no attribute '" ++ name ++ "'").

(** The columns written by [update_attendance]. *)
Definition attendance_update_data (status : AttendanceStatus)
    (remarks : option string) (r : attendance_row) : attendance_row :=
  mk_attendance (attendance_id r) (a_student_id r) (a_date r)
    (AttendanceStatus_value status) remarks (a_created_at r).

Definition update_attendance (aid : string) (status : AttendanceStatus)
    (remarks : option string) (current_user : TokenPayload)
  : M AttendanceResponse :=
  try_except
    (existing <- select_by_id attendance_t attendance_id aid ;;
     match existing with
     | None => raise (attendance_status_attribute_error "HTTP_404_NOT_FOUND")
     | Some _ =>
         updated <- update_by_id attendance_t attendance_id aid
                      (attendance_update_data status remarks) ;;
         u <- subscript updated ;;
         student <- select_by_id students_t student_id (a_student_id u) ;;
         AttendanceResponse_call u (option_map s_name student)
     end)
    (fun e =>
       if is_HTTPException e then raise e
       else raise (attendance_status_attribute_error "HTTP_500_INTERNAL_SERVER_ERROR")).

Definition delete_attendance (aid : string) (current_user : TokenPayload) : M unit :=
  try_except
    (existing <- select_by_id attendance_t attendance_id aid ;;
     match existing with
     | None => raise (HTTPException 404 "Attendance record not found")
     | Some _ =>
         delete_by_id attendance_t attendance_id aid ;;
         ret tt
     end)
    (reraise_http_or_500_fixed "Failed to delete attendance").

End MoreHandlers.

(* ===================================================================== *)
(** * Vocabulary of the properties                                        *)
(* ===================================================================== *)

(** A store call answers or raises a plain exception, and by itself
    leaves the tables, the id supply and the clock alone; it can only
    use up entries of the fault script. *)
Definition same_store (w w' : World) : Prop :=
  db w' = db w /\ next_id w' = next_id w /\ clock w' = clock w
  /\ incl (faults w') (faults w).

(** Computations that only read the store. *)
Definition reads_only {A} (c : M A) : Prop :=
  forall w, same_store w (snd (c w)).

(** The profile [get_fees] finds for a user, and the children linked to
    a profile. *)
Definition parent_of (d : DB) (uid : string) : option parent_row :=
  find (matches [eq_opt_str p_user_id uid]) (parents d).

Definition children_of (d : DB) (p : parent_row) : list string :=
  map l_student_id
    (filter (matches [eq_str l_parent_id (parent_id p)]) (parent_student d)).

Definition same_pair (sid : string) (d : date) (r : attendance_row) : bool :=
  (a_student_id r =? sid) && (a_date r =? d)%Z.

(** Number of stored attendance records for a (student, date) pair. *)
Definition pair_count (sid : string) (d : date) (l : list attendance_row) : nat :=
  length (filter (same_pair sid d) l).

Definition attendance_unique (st : DB) : Prop :=
  forall sid d, (pair_count sid d (attendance st) <= 1)%nat.

(** A sequence of [mark_attendance] calls, each with its own body and
    caller, run one after the other. *)
Fixpoint mark_attendance_calls {platform : Platform}
    (calls : list (AttendanceCreate * TokenPayload)) (w : World) : World :=
  match calls with
  | [] => w
  | (attendance_data, current_user) :: rest =>
      mark_attendance_calls rest (snd (mark_attendance attendance_data current_user w))
  end.

Definition same_exam_student (eid sid : string) (m : mark_row) : bool :=
  (m_exam_id m =? eid) && (m_student_id m =? sid).

(** At most one mark per (exam, student). *)
Definition marks_unique (st : DB) : Prop :=
  forall eid sid,
    (length (filter (same_exam_student eid sid) (marks st)) <= 1)%nat.

(** No mark above the [max_marks] of the exam it refers to. *)
Definition marks_bounded (st : DB) : Prop :=
  forall m e,
    In m (marks st) ->
    find (fun x => exam_id x =? m_exam_id m) (exams st) = Some e ->
    (marks_scored m <= inject_Z (max_marks e))%Q.

(** The store calls of a run from [w] to [w'], read off the script: every
    call the run made was answered ([ran_clean]), or the last call it
    made failed with the text [m] and the calls before it were answered
    ([store_failed]). *)
Definition ran_clean (w w' : World) : Prop :=
  exists pre,
    Forall (fun x => x = None) pre /\ faults w = (pre ++ faults w')%list.

Definition store_failed (w w' : World) (m : string) : Prop :=
  exists pre,
    Forall (fun x => x = None) pre
    /\ faults w = (pre ++ Some m :: faults w')%list.

(** A computation that stops at the first store call that fails, with
    the exception of the gateway: a message that ends with the text of
    the failure. *)
Definition traced {A} (c : M A) : Prop :=
  forall w,
    ran_clean w (snd (c w))
    \/ exists op m,
         store_failed w (snd (c w)) m
         /\ fst (c w) = Raise (Exception (op ++ m)%string).


(** Fee ids are a key of [fees]. *)
Definition fee_ids_unique (d : DB) : Prop := NoDup (map fee_id (fees d)).

(** No fee is paid beyond its amount. *)
Definition fees_within (d : DB) : Prop :=
  forall f, In f (fees d) -> (amount_paid f <= amount f)%Q.

(** The stored fees of the students [ids] have the positive amount that
    [FeeCreate] and [FeeUpdate] ask for. *)
Definition fees_positive (d : DB) (ids : list string) : Prop :=
  forall f, In f (fees d) -> In (f_student_id f) ids -> (0 < amount f)%Q.

(** The records of student [sid] are the caller's to see: a student has
    a profile with that id, a parent has a profile linked to it; staff
    see every student. *)
Definition may_see (d : DB) (u : TokenPayload) (sid : string) : Prop :=
  match role u with
  | STUDENT =>
      exists s, In s (students d) /\ s_user_id s = Some (sub u) /\ student_id s = sid
  | PARENT =>
      exists p l,
        In p (parents d) /\ p_user_id p = Some (sub u)
        /\ In l (parent_student d) /\ l_parent_id l = parent_id p
        /\ l_student_id l = sid
  | _ => True
  end.

(** Mark ids are a key of [marks]. *)
Definition mark_ids_unique (d : DB) : Prop := NoDup (map mark_id (marks d)).

(** A write to the attendance table through one of its handlers, and a
    sequence of such writes run one after the other. *)
Inductive attendance_write : Type :=
| MarkAttendance (attendance_data : AttendanceCreate) (current_user : TokenPayload)
| MarkBulkAttendance (bulk_data : AttendanceBulkCreate) (current_user : TokenPayload)
| UpdateAttendance (aid : string) (status : AttendanceStatus)
    (remarks : option string) (current_user : TokenPayload)
| DeleteAttendance (aid : string) (current_user : TokenPayload).

Definition run_attendance_write {platform : Platform} (c : attendance_write)
    (w : World) : World :=
  match c with
  | MarkAttendance attendance_data current_user =>
      snd (mark_attendance attendance_data current_user w)
  | MarkBulkAttendance bulk_data current_user =>
      snd (mark_bulk_attendance bulk_data current_user w)
  | UpdateAttendance aid status remarks current_user =>
      snd (update_attendance aid status remarks current_user w)
  | DeleteAttendance aid current_user => snd (delete_attendance aid current_user w)
  end.

Fixpoint run_attendance_writes {platform : Platform}
    (calls : list attendance_write) (w : World) : World :=
  match calls with
  | [] => w
  | c :: rest => run_attendance_writes rest (run_attendance_write c w)
  end.

(** The students a bulk request names, and whether it names each of
    them once. *)
Definition named_students (records : list bulk_record) : list string :=
  flat_map (fun r => match rec_student_id r with Some s => [s] | None => [] end)
    records.

Fixpoint distinct (l : list string) : bool :=
  match l with
  | [] => true
  | x :: rest => negb (str_in x rest) && distinct rest
  end.

Definition names_each_once (c : attendance_write) : bool :=
  match c with
  | MarkBulkAttendance bulk_data _ =>
      distinct (named_students (attendance_records bulk_data))
  | _ => true
  end.

(** The rows [paginate] answers with for a page ([[]] when it fails),
    and the number of pages it reports. *)
Definition page_rows {R} (T : Table R) (page page_size : positive)
    (fs : filters R) (order_by : option (R -> Z)) (ascending : bool) (w : World)
  : list R :=
  match fst (paginate T page page_size fs order_by ascending w) with
  | Return pg => pg_data pg
  | Raise _ => []
  end.

Definition pages_reported {R} (T : Table R) (page page_size : positive)
    (fs : filters R) (order_by : option (R -> Z)) (ascending : bool) (w : World)
  : nat :=
  match fst (paginate T page page_size fs order_by ascending w) with
  | Return pg => pg_total_pages pg
  | Raise _ => 0
  end.

(** A write to the marks table through one of its handlers, and a
    sequence of such writes run one after the other. *)
Inductive marks_write : Type :=
| CreateMark (mark_data : MarksCreate) (current_user : TokenPayload)
| CreateBulkMarks (marks_list : list MarksCreate) (current_user : TokenPayload)
| DeleteMark (mid : string) (current_user : TokenPayload).

Definition run_marks_write {platform : Platform} (c : marks_write) (w : World)
  : World :=
  match c with
  | CreateMark mark_data current_user => snd (create_mark mark_data current_user w)
  | CreateBulkMarks marks_list current_user =>
      snd (create_bulk_marks marks_list current_user w)
  | DeleteMark mid current_user => snd (delete_mark mid current_user w)
  end.

Fixpoint run_marks_writes {platform : Platform} (calls : list marks_write)
    (w : World) : World :=
  match calls with
  | [] => w
  | c :: rest => run_marks_writes rest (run_marks_write c w)
  end.

Definition is_bulk (c : marks_write) : bool :=
  match c with CreateBulkMarks _ _ => true | _ => false end.

(* ===================================================================== *)
(** * A sample school                                                     *)
(* ===================================================================== *)

(** A platform with exact arithmetic, used to run the handlers. *)
Definition Q_str (q : Q) : string :=
  (Z_str (Qnum q) ++ "/" ++ Z_str (Zpos (Qden q)))%string.

(** The year of a timestamp in the proleptic Gregorian calendar. *)
Definition year_of_timestamp (ts : Z) : Z :=
  let z := (ts / 86400 + 719468)%Z in
  let era := (z / 146097)%Z in
  let doe := (z - era * 146097)%Z in
  let yoe := ((doe - doe / 1460 + doe / 36524 - doe / 146096) / 365)%Z in
  let doy := (doe - (365 * yoe + yoe / 4 - yoe / 100))%Z in
  let mp := ((5 * doy + 2) / 153)%Z in
  if (mp <? 10)%Z then (yoe + era * 400)%Z else (yoe + era * 400 + 1)%Z.

(** [datetime] holds the years 1 to 9999. *)
Definition year_out_of_range (ts : Z) : option string :=
  let y := year_of_timestamp ts in
  if ((1 <=? y) && (y <=? 9999))%Z then None
  else Some ("year " ++ Z_str y ++ " is out of range")%string.

Definition exact_platform : Platform :=
  {| SECRET_KEY := "09d25e094faa6ca2556c818166b7a9563b93f7099f6f0f4caa6cf63b88e8d3e7";
     ALGORITHM := "HS256";
     ACCESS_TOKEN_EXPIRE_MINUTES := 60;
     REFRESH_TOKEN_EXPIRE_DAYS := 7;
     hash_password := fun p => ("$2b$12$" ++ p)%string;
     float_add := fun a b => Qred (a + b);
     float_sub := fun a b => Qred (a - b);
     float_mul := fun a b => Qred (a * b);
     float_div := fun a b => Qred (a / b);
     float_round := fun q _ => q;
     float_str := Q_str;
     fromtimestamp_fails := year_out_of_range;
     validation_text := fun model field value =>
       ("1 validation error for " ++ model ++ ": " ++ field ++ " = " ++ value)%string
  |}.

Definition ann : student_row := mk_student "s1" (Some "u-ann") "Ann" None.

Definition bob : student_row := mk_student "s2" (Some "u-bob") "Bob" None.

Definition cat : student_row := mk_student "s3" None "Cat" None.

Definition mrs_lee : parent_row := mk_parent "p1" (Some "u-lee") "Lee".

Definition fee_ann : fee_row :=
  mk_fee "f1" "s1" 100 "tuition" 20%Z PENDING "2024" 40 None None None 0%Z.

Definition fee_bob : fee_row :=
  mk_fee "f2" "s2" 80 "tuition" 30%Z PENDING "2024" 0 None None None 0%Z.

Definition fee_cat : fee_row :=
  mk_fee "f3" "s3" 90 "tuition" 25%Z PENDING "2024" 0 None None None 0%Z.

Definition leave_ann : leave_row :=
  mk_leave "r1" "s1" 10%Z 12%Z "flu" APPROVED None 5%Z None.

Definition mark_ann : mark_row := mk_mark "m1" "e1" "s1" 70 None 3%Z.

Definition head_teacher : user_row :=
  mk_user "u-adm" "head@school.example" "$2b$12$x" "admin" true 0%Z.

Definition school : DB :=
  mk_db [head_teacher] [ann; bob; cat] [mrs_lee]
    [mk_link "p1" "s1"; mk_link "p1" "s2"]
    [mk_exam "e1" "Algebra" 100%Z] [mark_ann]
    [fee_ann; fee_bob; fee_cat] [] [leave_ann].

Definition calm : World := mk_world school [] 0%nat 1000%Z.

(** The same store when the next store call fails with [text]. *)
Definition failing (text : string) : World :=
  mk_world school [Some text] 0%nat 1000%Z.

Definition an_admin : TokenPayload := mk_payload "u-adm" ADMIN 5000%Z.

Definition a_teacher : TokenPayload := mk_payload "u-tea" TEACHER 5000%Z.

Definition lee : TokenPayload := mk_payload "u-lee" PARENT 5000%Z.

Definition orphan_parent : TokenPayload := mk_payload "u-nobody" PARENT 5000%Z.

Definition approved_request : LeaveRequestCreate :=
  parse_LeaveRequestCreate "s1" 40%Z 41%Z "trip" (Some APPROVED).

Definition approved_row : leave_row :=
  mk_leave "id-0" "s1" 40%Z 41%Z "trip" APPROVED None 1000%Z None.

Definition eve : UserCreate := mk_user_create "eve@school.example" ADMIN true "password1".

Definition a_payment : FeePayment := mk_fee_payment "f1" 10 "cash" None.

Definition ann_present : AttendanceCreate :=
  mk_attendance_create "s1" 77%Z PRESENT None.

(** The store after the same attendance was submitted twice. *)
Definition marked_twice : World :=
  mark_attendance_calls (platform := exact_platform)
    [(ann_present, a_teacher); (ann_present, a_teacher)] calm.

Definition bob_55 : MarksCreate := mk_marks_create "e1" "s2" 55 None.

Definition bob_60 : MarksCreate := mk_marks_create "e1" "s2" 60 None.

Definition ann_10 : MarksCreate := mk_marks_create "e1" "s1" 10 None.

Definition exam_student (m : mark_row) : string * string :=
  (m_exam_id m, m_student_id m).

(** passlib for the sample platform: a hash verifies exactly the
    password it was made from. *)
Definition plain_passlib : Passlib :=
  {| verify_password := fun p h => (h =? "$2b$12$" ++ p)%string |}.

Definition head_login : UserLogin := mk_user_login "head@school.example" "x".

Definition dan : student_row := mk_student "s4" None "Dan" (Some "c1").

Definition attendance_ann : attendance_row :=
  mk_attendance "a1" "s1" 77%Z "present" None 5%Z.

(** The school in term: Dan has joined class c1, and Ann was present on
    day 77. *)
Definition school_in_term : DB :=
  mk_db [head_teacher] [ann; bob; cat; dan] [mrs_lee]
    [mk_link "p1" "s1"; mk_link "p1" "s2"]
    [mk_exam "e1" "Algebra" 100%Z] [mark_ann]
    [fee_ann; fee_bob; fee_cat] [attendance_ann] [leave_ann].

Definition term : World := mk_world school_in_term [] 0%nat 1000%Z.

Definition dan_present : bulk_record := mk_bulk_record (Some "s4") (Some "present") None.

Definition dan_absent : bulk_record := mk_bulk_record (Some "s4") (Some "absent") None.

Definition class_c1_day_78 : AttendanceBulkCreate :=
  mk_attendance_bulk "c1" 78%Z [dan_present].

Definition a_year_of_writes : list attendance_write :=
  [MarkAttendance ann_present a_teacher;
   MarkBulkAttendance class_c1_day_78 a_teacher;
   UpdateAttendance "a1" ABSENT None a_teacher;
   DeleteAttendance "a1" a_teacher].

Definition rescore_ann : MarksUpdate := mk_marks_update (Some (Some 80)) None.

(** Python's [float] is the IEEE 754 binary64 format: the result of an
    operation is the exact result rounded to 53 significant bits, to the
    nearest and to the even neighbour on a tie.  [binary64 q] is that
    rounding for the numbers of the finite range (below the smallest
    normal number the spacing stays at 2^-1074). *)
Definition round_half_even (q : Q) : Z :=
  let f := Qfloor q in
  match Qcompare (q - inject_Z f) (1 # 2) with
  | Lt => f
  | Gt => (f + 1)%Z
  | Eq => if Z.even f then f else (f + 1)%Z
  end.

Definition binary64 (q : Q) : Q :=
  if Qeq_bool q 0 then 0
  else
    let a := Qabs q in
    let e0 := (Z.log2 (Qnum a) - Z.log2 (Zpos (Qden a)))%Z in
    let e := if Qle_bool (Qpower 2 e0) a then e0 else (e0 - 1)%Z in
    let ulp := Qpower 2 (Z.max (e - 52) (-1074)) in
    let n := round_half_even (a / ulp) in
    Qred ((if Qle_bool 0 q then 1 else -1) * inject_Z n * ulp).

(** The sample platform with Python's arithmetic in place of the exact
    one; [round(x, n)] rounds the decimal expansion half to even. *)
Definition binary64_platform : Platform :=
  {| SECRET_KEY := SECRET_KEY (Platform := exact_platform);
     ALGORITHM := ALGORITHM (Platform := exact_platform);
     ACCESS_TOKEN_EXPIRE_MINUTES := 60;
     REFRESH_TOKEN_EXPIRE_DAYS := 7;
     hash_password := hash_password (Platform := exact_platform);
     float_add := fun a b => binary64 (a + b);
     float_sub := fun a b => binary64 (a - b);
     float_mul := fun a b => binary64 (a * b);
     float_div := fun a b => binary64 (a / b);
     float_round := fun q n =>
       binary64 (inject_Z (round_half_even (q * Qpower 10 n)) / Qpower 10 n);
     float_str := Q_str;
     fromtimestamp_fails := year_out_of_range;
     validation_text := validation_text (Platform := exact_platform)
  |}.

(** A fee of 2^53 + 2, of which 2^53 is paid: from 2^53 on, neighbouring
    floats are 2 apart. *)
Definition fee_endowment : fee_row :=
  mk_fee "f9" "s3" 9007199254740994 "endowment" 40%Z PARTIAL "2024"
    9007199254740992 None None None 0%Z.

Definition endowed : World :=
  mk_world
    (mk_db [head_teacher] [ann; bob; cat] [mrs_lee]
       [mk_link "p1" "s1"; mk_link "p1" "s2"]
       [mk_exam "e1" "Algebra" 100%Z] [mark_ann]
       [fee_ann; fee_bob; fee_cat; fee_endowment] [] [leave_ann])
    [] 0%nat 1000%Z.

(** A payment of 2.5 against it, which leaves a balance of 2. *)
Definition a_payment_of_two_and_a_half : FeePayment :=
  mk_fee_payment "f9" (5 # 2) "transfer" None.

(** A fee of amount 0 for Ann, as a row written to the store directly
    can be. *)
Definition fee_waived : fee_row :=
  mk_fee "f4" "s1" 0 "trip" 15%Z PAID "2024" 0 None None None 0%Z.

Definition waiver : World :=
  mk_world
    (mk_db [head_teacher] [ann; bob; cat] [mrs_lee]
       [mk_link "p1" "s1"; mk_link "p1" "s2"]
       [mk_exam "e1" "Algebra" 100%Z] [mark_ann]
       [fee_ann; fee_bob; fee_cat; fee_waived] [] [leave_ann])
    [] 0%nat 1000%Z.

(** Dan's record as a bulk request may carry it: no value of the status
    enumeration. *)
Definition dan_on_holiday : bulk_record :=
  mk_bulk_record (Some "s4") (Some "holiday") None.

(* ===================================================================== *)
(** * Properties                                                          *)
(* ===================================================================== *)

(** ** Lists and filters *)

Lemma hd_error_filter_find {A} (p : A -> bool) (l : list A) :
  hd_error (filter p l) = find p l.
Proof.
  induction l as [|x l IH]; simpl; [reflexivity|].
  destruct (p x); simpl; auto.
Qed.

Lemma hd_error_firstn_1 {A} (l : list A) : hd_error (firstn 1 l) = hd_error l.
Proof. destruct l; reflexivity. Qed.

Lemma matches_single {R} (f : R -> bool) (r : R) : matches [f] r = f r.
Proof. unfold matches; simpl. apply andb_true_r. Qed.

Lemma filter_matches_single {R} (f : R -> bool) (l : list R) :
  filter (matches [f]) l = filter f l.
Proof. apply filter_ext. intro r. apply matches_single. Qed.

Lemma filter_matches_nil {R} (l : list R) : filter (matches []) l = l.
Proof. induction l; simpl; congruence. Qed.

Lemma str_in_In (x : string) (l : list string) : str_in x l = true <-> In x l.
Proof.
  unfold str_in. rewrite existsb_exists. split.
  - intros [y [Hy E]]. apply String.eqb_eq in E. subst. exact Hy.
  - intro H. exists x. split; [exact H | apply String.eqb_refl].
Qed.

Lemma Qgtb_true_iff (a b : Q) : Qgtb a b = true <-> (b < a)%Q.
Proof.
  unfold Qgtb. rewrite negb_true_iff. split.
  - intro H. apply Qnot_le_lt. intro L. apply Qle_bool_iff in L. congruence.
  - intro H. destruct (Qle_bool a b) eqn:E; [|reflexivity].
    apply Qle_bool_iff in E. exfalso. apply (Qlt_not_le _ _ H E).
Qed.

Lemma Qgtb_false_iff (a b : Q) : Qgtb a b = false <-> (a <= b)%Q.
Proof.
  unfold Qgtb. rewrite negb_false_iff. apply Qle_bool_iff.
Qed.

(** Sorting keeps the rows. *)
Lemma insert_sorted_perm {R} (le : R -> R -> bool) (x : R) (l : list R) :
  Permutation (insert_sorted le x l) (x :: l).
Proof.
  induction l as [|y l IH]; simpl; [apply Permutation_refl|].
  destruct (le x y); [apply Permutation_refl|].
  eapply perm_trans; [apply perm_skip, IH | apply perm_swap].
Qed.

Lemma sort_rows_perm {R} (le : R -> R -> bool) (l : list R) :
  Permutation (sort_rows le l) l.
Proof.
  induction l as [|x l IH]; simpl; [apply perm_nil|].
  eapply perm_trans; [apply insert_sorted_perm | apply perm_skip, IH].
Qed.

Lemma order_perm {R} (col : R -> Z) (desc : bool) (l : list R) :
  Permutation (order_rows col desc l) l.
Proof. apply sort_rows_perm. Qed.

Lemma filter_perm {A} (p : A -> bool) (l l' : list A) :
  Permutation l l' -> Permutation (filter p l) (filter p l').
Proof.
  induction 1; simpl.
  - apply perm_nil.
  - destruct (p x); [apply perm_skip|]; assumption.
  - destruct (p x), (p y); try apply Permutation_refl.
    apply perm_swap.
  - eapply perm_trans; eassumption.
Qed.

(** ** The store client *)

Lemma set_faults_same w : set_faults (faults w) w = w.
Proof. destruct w; reflexivity. Qed.

Lemma execute_quiet w : faults w = [] -> execute w = (Return tt, w).
Proof. intro H. unfold execute. rewrite H. reflexivity. Qed.

Lemma execute_next_ok w :
  hd None (faults w) = None ->
  execute w = (Return tt, set_faults (tl (faults w)) w).
Proof.
  intro H. unfold execute. destruct (faults w) as [|[m|] fs] eqn:E; simpl in *.
  - rewrite <- E. rewrite set_faults_same. reflexivity.
  - discriminate.
  - reflexivity.
Qed.

Lemma execute_next_fail w m fs :
  faults w = Some m :: fs ->
  execute w = (Raise (Exception m), set_faults fs w).
Proof. intro H. unfold execute. rewrite H. reflexivity. Qed.

Lemma same_store_refl w : same_store w w.
Proof. repeat split. apply incl_refl. Qed.

Lemma same_store_trans w1 w2 w3 :
  same_store w1 w2 -> same_store w2 w3 -> same_store w1 w3.
Proof.
  unfold same_store. intros (A1 & B1 & C1 & D1) (A2 & B2 & C2 & D2).
  repeat split; try congruence. eapply incl_tran; eassumption.
Qed.

Lemma execute_cases w :
  exists w', same_store w w' /\
    (execute w = (Return tt, w')
     \/ exists m, execute w = (Raise (Exception m), w') /\ In (Some m) (faults w)).
Proof.
  unfold execute. destruct (faults w) as [|[m|] fs] eqn:F.
  - exists w. split; [apply same_store_refl | left; reflexivity].
  - exists (set_faults fs w).
    split; [|right; exists m; split; [reflexivity | left; reflexivity]].
    unfold same_store. simpl. rewrite F. repeat split. apply incl_tl, incl_refl.
  - exists (set_faults fs w). split; [|left; reflexivity].
    unfold same_store. simpl. rewrite F. repeat split. apply incl_tl, incl_refl.
Qed.

Lemma reads_only_ret {A} (a : A) : reads_only (ret a).
Proof. intro w. apply same_store_refl. Qed.

Lemma reads_only_raise {A} (e : exn) : reads_only (@raise A e).
Proof. intro w. apply same_store_refl. Qed.

Lemma reads_only_bind {A B} (c : M A) (k : A -> M B) :
  reads_only c -> (forall a, reads_only (k a)) -> reads_only (bind c k).
Proof.
  intros Hc Hk w. unfold bind. specialize (Hc w).
  destruct (c w) as [[a|e] w1]; simpl in *; [|exact Hc].
  eapply same_store_trans; [exact Hc | apply Hk].
Qed.

Lemma reads_only_try_except {A} (c : M A) (h : exn -> M A) :
  reads_only c -> (forall e, reads_only (h e)) -> reads_only (try_except c h).
Proof.
  intros Hc Hh w. unfold try_except. specialize (Hc w).
  destruct (c w) as [[a|e] w1]; simpl in *; [exact Hc|].
  eapply same_store_trans; [exact Hc | apply Hh].
Qed.

Lemma reads_only_execute : reads_only execute.
Proof.
  intro w. destruct (execute_cases w) as [w' [S [E|[m [E _]]]]]; rewrite E; exact S.
Qed.

Lemma reads_only_get_world : reads_only get_world.
Proof. intro w. apply same_store_refl. Qed.

Lemma reads_only_now : reads_only now.
Proof. intro w. apply same_store_refl. Qed.

Lemma reads_only_subscript {A} (o : option A) : reads_only (subscript o).
Proof. destruct o; [apply reads_only_ret | apply reads_only_raise]. Qed.

Lemma reads_only_unpack {A} (o : option A) : reads_only (unpack o).
Proof. destruct o; [apply reads_only_ret | apply reads_only_raise]. Qed.

Lemma reads_only_reraise {A} (prefix : string) (e : exn) :
  reads_only (@reraise_http_or_500 A prefix e).
Proof. unfold reraise_http_or_500. destruct (is_HTTPException e); apply reads_only_raise. Qed.

Lemma reads_only_reraise_fixed {A} (d : string) (e : exn) :
  reads_only (@reraise_http_or_500_fixed A d e).
Proof.
  unfold reraise_http_or_500_fixed.
  destruct (is_HTTPException e); apply reads_only_raise.
Qed.

Create HintDb reads discriminated.
#[local] Hint Resolve reads_only_ret reads_only_raise reads_only_execute
  reads_only_get_world reads_only_now reads_only_subscript reads_only_unpack
  reads_only_reraise reads_only_reraise_fixed : reads.

(** Solves [reads_only c] by following the structure of [c]. *)
Ltac reads :=
  repeat first
    [ progress intros
    | apply reads_only_bind
    | apply reads_only_try_except
    | solve [auto with reads]
    | match goal with
      | |- reads_only (match ?x with _ => _ end) => destruct x
      | |- reads_only (if ?x then _ else _) => destruct x
      | |- reads_only (let '(_, _) := ?x in _) => destruct x
      end ].

Lemma reads_only_table_select {R} (T : Table R) fs : reads_only (table_select T fs).
Proof. unfold table_select. reads. Qed.
#[local] Hint Resolve reads_only_table_select : reads.

Lemma reads_only_select_all {R} (T : Table R) fs ob asc lim :
  reads_only (select_all T fs ob asc lim).
Proof. unfold select_all. reads. Qed.

Lemma reads_only_select_by_id {R} (T : Table R) col v :
  reads_only (select_by_id T col v).
Proof. unfold select_by_id. reads. Qed.

Lemma reads_only_select_one {R} (T : Table R) fs : reads_only (select_one T fs).
Proof. unfold select_one. reads. Qed.
#[local] Hint Resolve reads_only_select_all reads_only_select_by_id
  reads_only_select_one : reads.

Lemma reads_only_FeeResponse_call {platform : Platform} fee enriched :
  reads_only (FeeResponse_call fee enriched).
Proof. unfold FeeResponse_call. reads. Qed.

Lemma reads_only_MarksResponse_call {platform : Platform} m e :
  reads_only (MarksResponse_call m e).
Proof. unfold MarksResponse_call. reads. Qed.
Lemma reads_only_AttendanceResponse_call {platform : Platform} row name :
  reads_only (AttendanceResponse_call row name).
Proof. unfold AttendanceResponse_call. reads. Qed.
#[local] Hint Resolve reads_only_FeeResponse_call reads_only_MarksResponse_call
  reads_only_AttendanceResponse_call : reads.

(** A response model that was built is the row with its enrichment. *)
Lemma FeeResponse_call_inv {platform : Platform} fee enriched w r w' :
  FeeResponse_call fee enriched w = (Return r, w') ->
  r = mk_fee_response fee (fst enriched) (snd enriched) /\ w' = w
  /\ Qgtb (amount fee) 0 = true.
Proof.
  unfold FeeResponse_call. destruct (Qgtb (amount fee) 0); intro H; inversion H.
  repeat split.
Qed.

Lemma MarksResponse_call_inv {platform : Platform} m e w r w' :
  MarksResponse_call m e w = (Return r, w') ->
  r = mark_response m e /\ w' = w /\ Qle_bool 0 (marks_scored m) = true.
Proof.
  unfold MarksResponse_call. destruct (Qle_bool 0 (marks_scored m)); intro H;
    inversion H.
  repeat split.
Qed.

(** The gateway when no call fails. *)
Lemma table_select_quiet {R} (T : Table R) fs w :
  faults w = [] ->
  table_select T fs w = (Return (filter (matches fs) (rows T (db w))), w).
Proof.
  intro H. unfold table_select. unfold bind, get_world, ret.
  rewrite (execute_quiet w H). reflexivity.
Qed.

Lemma select_by_id_quiet {R} (T : Table R) (col : R -> string) v w :
  faults w = [] ->
  select_by_id T col v w = (Return (find (fun r => col r =? v) (rows T (db w))), w).
Proof.
  intro H. unfold select_by_id. unfold try_except, bind, ret.
  rewrite (table_select_quiet T _ w H).
  rewrite filter_matches_single, hd_error_filter_find. reflexivity.
Qed.

Lemma select_one_quiet {R} (T : Table R) fs w :
  faults w = [] ->
  select_one T fs w = (Return (find (matches fs) (rows T (db w))), w).
Proof.
  intro H. unfold select_one. unfold try_except, bind, ret.
  rewrite (table_select_quiet T _ w H).
  rewrite hd_error_firstn_1, hd_error_filter_find. reflexivity.
Qed.

Lemma select_all_quiet {R} (T : Table R) fs ob asc lim w :
  faults w = [] ->
  select_all T fs ob asc lim w =
    (Return (apply_limit lim
               match ob with
               | Some col => order_rows col (negb asc) (filter (matches fs) (rows T (db w)))
               | None => filter (matches fs) (rows T (db w))
               end), w).
Proof.
  intro H. unfold select_all. unfold try_except, bind, ret.
  rewrite (table_select_quiet T _ w H). reflexivity.
Qed.

Lemma insert_one_quiet {R} (T : Table R) (d : draft R) w :
  faults w = [] ->
  insert_one T d w =
    (Return (Some (d (uuid (next_id w)) (clock w))),
     set_next_id (next_id w + 1)
       (set_db (with_rows T (rows T (db w) ++ [d (uuid (next_id w)) (clock w)])
                  (db w)) w)).
Proof.
  intro H. unfold insert_one, table_insert. unfold try_except, bind, ret.
  rewrite (execute_quiet w H). reflexivity.
Qed.

Lemma update_by_id_quiet {R} (T : Table R) (col : R -> string) v (upd : R -> R) w :
  faults w = [] ->
  update_by_id T col v upd w =
    (Return (option_map upd (find (fun r => col r =? v) (rows T (db w)))),
     set_db (with_rows T
               (map (fun r => if col r =? v then upd r else r) (rows T (db w)))
               (db w)) w).
Proof.
  intro H. unfold update_by_id, table_update. unfold try_except, bind, ret.
  rewrite (execute_quiet w H). cbv beta iota zeta.
  rewrite filter_matches_single.
  f_equal.
  - f_equal. rewrite <- hd_error_filter_find.
    destruct (filter _ _); reflexivity.
  - f_equal. f_equal. apply map_ext. intro r. rewrite matches_single. reflexivity.
Qed.

(** The gateway in general: what a call can answer and do. *)
Lemma select_by_id_next_ok {R} (T : Table R) (col : R -> string) (v : string) w :
  hd None (faults w) = None ->
  select_by_id T col v w =
    (Return (find (fun r => col r =? v) (rows T (db w))),
     set_faults (tl (faults w)) w).
Proof.
  intro H. unfold select_by_id, table_select. unfold try_except, bind, get_world, ret.
  rewrite (execute_next_ok w H). simpl.
  rewrite filter_matches_single, hd_error_filter_find. reflexivity.
Qed.

Lemma select_by_id_next_fail {R} (T : Table R) (col : R -> string) v w m fs :
  faults w = Some m :: fs ->
  select_by_id T col v w =
    (Raise (Exception ("Failed to select from " ++ tname T ++ ": " ++ m)),
     set_faults fs w).
Proof.
  intro H. unfold select_by_id, table_select. unfold try_except, bind, get_world, ret.
  rewrite (execute_next_fail w m fs H). reflexivity.
Qed.

Lemma select_all_next_fail {R} (T : Table R) fs' ob asc lim w m fs :
  faults w = Some m :: fs ->
  select_all T fs' ob asc lim w =
    (Raise (Exception ("Failed to select from " ++ tname T ++ ": " ++ m)),
     set_faults fs w).
Proof.
  intro H. unfold select_all, table_select. unfold try_except, bind, get_world, ret.
  rewrite (execute_next_fail w m fs H). reflexivity.
Qed.

Lemma insert_one_cases {R} (T : Table R) (d : draft R) w :
  (exists w', insert_one T d w = (Return (Some (d (uuid (next_id w)) (clock w))), w')
     /\ db w' = with_rows T (rows T (db w) ++ [d (uuid (next_id w)) (clock w)]) (db w))
  \/ (exists m w',
        insert_one T d w =
          (Raise (Exception ("Failed to insert into " ++ tname T ++ ": " ++ m)), w')
        /\ same_store w w' /\ In (Some m) (faults w)).
Proof.
  unfold insert_one, table_insert. unfold try_except, bind, ret.
  destruct (execute_cases w) as [w1 [[S1 [S2 [S3 S4]]] [E|[m [E Hin]]]]]; rewrite E.
  - left. eexists. split; [rewrite S2, S3; reflexivity|]. simpl. rewrite S1. reflexivity.
  - right. do 2 eexists. split; [reflexivity|]. split; [|exact Hin].
    repeat split; assumption.
Qed.

Lemma table_select_cases {R} (T : Table R) fs w :
  exists w', same_store w w' /\
    (table_select T fs w = (Return (filter (matches fs) (rows T (db w))), w')
     \/ exists m, table_select T fs w = (Raise (Exception m), w')
                  /\ In (Some m) (faults w)).
Proof.
  unfold table_select. unfold bind, get_world, ret.
  destruct (execute_cases w) as [w1 [S [E|[m [E Hin]]]]]; rewrite E; exists w1;
    (split; [exact S|]).
  - left. destruct S as [S _]. rewrite S. reflexivity.
  - right. exists m. split; [reflexivity | exact Hin].
Qed.

Lemma select_by_id_cases {R} (T : Table R) (col : R -> string) v w :
  exists w', same_store w w' /\
    (select_by_id T col v w = (Return (find (fun r => col r =? v) (rows T (db w))), w')
     \/ exists m,
          select_by_id T col v w =
            (Raise (Exception ("Failed to select from " ++ tname T ++ ": " ++ m)), w')
          /\ In (Some m) (faults w)).
Proof.
  unfold select_by_id. unfold try_except, bind, ret.
  destruct (table_select_cases T [eq_str col v] w) as [w1 [S [E|[m [E Hin]]]]];
    rewrite E; exists w1; (split; [exact S|]).
  - left. rewrite filter_matches_single, hd_error_filter_find. reflexivity.
  - right. exists m. split; [reflexivity | exact Hin].
Qed.

Lemma select_one_cases {R} (T : Table R) fs w :
  exists w', same_store w w' /\
    (select_one T fs w = (Return (find (matches fs) (rows T (db w))), w')
     \/ exists m,
          select_one T fs w =
            (Raise (Exception ("Failed to select from " ++ tname T ++ ": " ++ m)), w')
          /\ In (Some m) (faults w)).
Proof.
  unfold select_one. unfold try_except, bind, ret.
  destruct (table_select_cases T fs w) as [w1 [S [E|[m [E Hin]]]]];
    rewrite E; exists w1; (split; [exact S|]).
  - left. rewrite hd_error_firstn_1, hd_error_filter_find. reflexivity.
  - right. exists m. split; [reflexivity | exact Hin].
Qed.

Lemma select_all_cases {R} (T : Table R) fs ob asc lim w :
  exists w', same_store w w' /\
    (select_all T fs ob asc lim w =
       (Return (apply_limit lim
                  match ob with
                  | Some col => order_rows col (negb asc)
                                  (filter (matches fs) (rows T (db w)))
                  | None => filter (matches fs) (rows T (db w))
                  end), w')
     \/ exists m,
          select_all T fs ob asc lim w =
            (Raise (Exception ("Failed to select from " ++ tname T ++ ": " ++ m)), w')
          /\ In (Some m) (faults w)).
Proof.
  unfold select_all. unfold try_except, bind, ret.
  destruct (table_select_cases T fs w) as [w1 [S [E|[m [E Hin]]]]];
    rewrite E; exists w1; (split; [exact S|]).
  - left. reflexivity.
  - right. exists m. split; [reflexivity | exact Hin].
Qed.

Lemma update_by_id_cases {R} (T : Table R) (col : R -> string) v (upd : R -> R) w :
  (exists w',
      update_by_id T col v upd w =
        (Return (option_map upd (find (fun r => col r =? v) (rows T (db w)))), w')
      /\ incl (faults w') (faults w))
  \/ (exists m w',
        update_by_id T col v upd w =
          (Raise (Exception ("Failed to update " ++ tname T ++ ": " ++ m)), w')
        /\ same_store w w' /\ In (Some m) (faults w)).
Proof.
  unfold update_by_id, table_update. unfold try_except, bind, ret.
  destruct (execute_cases w) as [w1 [[S1 [S2 [S3 S4]]] [E|[m [E Hin]]]]]; rewrite E.
  - left. eexists. split.
    + cbv beta iota zeta. rewrite filter_matches_single, S1.
      apply f_equal2; [|reflexivity]. f_equal.
      rewrite <- hd_error_filter_find. destruct (filter _ _); reflexivity.
    + simpl. exact S4.
  - right. do 2 eexists. split; [reflexivity|]. split; [|exact Hin].
    repeat split; assumption.
Qed.

Lemma find_none_iff {A} (p : A -> bool) (l : list A) :
  find p l = None <-> forall x, In x l -> p x = false.
Proof.
  split.
  - intros H x Hx. apply (find_none p l H x Hx).
  - induction l as [|y l IH]; intro H; simpl; [reflexivity|].
    rewrite (H y (or_introl eq_refl)). apply IH. intros x Hx. apply H. right. exact Hx.
Qed.

Lemma filter_nil_iff {A} (p : A -> bool) (l : list A) :
  filter p l = [] <-> forall x, In x l -> p x = false.
Proof.
  induction l as [|y l IH]; simpl.
  - split; [intros _ x []|reflexivity].
  - destruct (p y) eqn:E; split.
    + discriminate.
    + intro H. specialize (H y (or_introl eq_refl)). congruence.
    + intros H x [->|Hx]; [exact E|]. apply IH; assumption.
    + intro H. apply IH. intros x Hx. apply H. right. exact Hx.
Qed.

(** Both closing idioms always raise. *)
Lemma reraise_raises {A} prefix e w :
  exists e', @reraise_http_or_500 A prefix e w = (Raise e', w).
Proof.
  unfold reraise_http_or_500. destruct (is_HTTPException e); eexists; reflexivity.
Qed.

Lemma reraise_fixed_raises {A} d e w :
  exists e', @reraise_http_or_500_fixed A d e w = (Raise e', w).
Proof.
  unfold reraise_http_or_500_fixed. destruct (is_HTTPException e); eexists; reflexivity.
Qed.

(** ** Inversion of the monad operations *)

Lemma bind_return_inv {A B} (c : M A) (k : A -> M B) w b w' :
  bind c k w = (Return b, w') ->
  exists a w1, c w = (Return a, w1) /\ k a w1 = (Return b, w').
Proof.
  unfold bind. destruct (c w) as [[a|e] w1]; intro H; [|discriminate].
  exists a, w1. split; [reflexivity | exact H].
Qed.

Lemma try_except_return_inv {A} (c : M A) (h : exn -> M A) w a w' :
  (forall e w1, exists e', h e w1 = (Raise e', w1)) ->
  try_except c h w = (Return a, w') ->
  c w = (Return a, w').
Proof.
  intros Hh. unfold try_except. destruct (c w) as [[x|e] w1]; intro H; [exact H|].
  destruct (Hh e w1) as [e' E]. rewrite E in H. discriminate.
Qed.

Lemma ret_inv {A} (a b : A) w w' : ret a w = (Return b, w') -> a = b /\ w = w'.
Proof. unfold ret. intro H. inversion H. split; reflexivity. Qed.

Lemma reads_only_run {A} (c : M A) w o w' :
  reads_only c -> c w = (o, w') -> same_store w w'.
Proof. intros H E. specialize (H w). rewrite E in H. exact H. Qed.

Lemma try_except_bind {A B} (c : M A) (k : A -> M B) (h : exn -> M B) w :
  try_except (bind c k) h w =
    match c w with
    | (Return a, w1) => try_except (k a) h w1
    | (Raise e, w1) => h e w1
    end.
Proof. unfold try_except, bind. destruct (c w) as [[a|e] w1]; reflexivity. Qed.

Lemma table_select_next_ok {R} (T : Table R) fs w :
  hd None (faults w) = None ->
  table_select T fs w =
    (Return (filter (matches fs) (rows T (db w))), set_faults (tl (faults w)) w).
Proof.
  intro H. unfold table_select. unfold bind, get_world, ret.
  rewrite (execute_next_ok w H). reflexivity.
Qed.

Lemma bind_raise_inv {A B} (c : M A) (k : A -> M B) w e w' :
  bind c k w = (Raise e, w') ->
  c w = (Raise e, w')
  \/ exists a w1, c w = (Return a, w1) /\ k a w1 = (Raise e, w').
Proof.
  unfold bind. destruct (c w) as [[a|e1] w1]; intro H.
  - right. exists a, w1. split; [reflexivity | exact H].
  - left. inversion H. reflexivity.
Qed.

Section Claims.

Context {platform : Platform}.

Lemma reads_only_enrich_leave r : reads_only (_enrich_leave_response r).
Proof. unfold _enrich_leave_response. reads. Qed.

Lemma reads_only_enrich_fee f : reads_only (_enrich_fee_response f).
Proof. unfold _enrich_fee_response. reads. Qed.

Lemma reads_only_enrich_mark m : reads_only (_enrich_mark_response m).
Proof. unfold _enrich_mark_response. reads. Qed.

(* --------------------------------------------------------------------- *)
(** ** Fee payments                                                       *)
(* --------------------------------------------------------------------- *)

(** C1, as amended. A payment against an existing fee whose stored
    [amount_paid] plus the payment, as the handler computes the sum in
    floating point, exceeds the fee's [amount] is rejected with status
    400; the only store call made is the lookup, so no update is issued
    and the stored fee (its [amount_paid] and [status]) is unchanged.
    The payment is not clamped to the balance. *)
Theorem record_payment_rejects_overpayment :
  forall (payment_data : FeePayment) (current_user : TokenPayload)
         (w : World) (fee : fee_row),
    hd None (faults w) = None ->
    find (fun f => fee_id f =? fp_fee_id payment_data) (fees (db w)) = Some fee ->
    (amount fee < float_add (amount_paid fee) (fp_amount_paid payment_data))%Q ->
    fst (record_payment payment_data current_user w) =
      Raise (HTTPException 400
               (overpayment_detail (fp_amount_paid payment_data)
                  (float_sub (amount fee) (amount_paid fee))))
    /\ db (snd (record_payment payment_data current_user w)) = db w
    /\ faults (snd (record_payment payment_data current_user w)) = tl (faults w).
Proof.
  intros pd cu w fee Hok Hfind Hover.
  unfold record_payment. unfold try_except, bind.
  rewrite (select_by_id_next_ok fees_t fee_id _ w Hok). simpl.
  rewrite Hfind.
  apply Qgtb_true_iff in Hover. rewrite Hover. simpl.
  repeat split.
Qed.

(* --------------------------------------------------------------------- *)
(** ** Registration                                                       *)
(* --------------------------------------------------------------------- *)

(** The later definition of [register_user], which no request reaches:
    when no user has the e-mail and the store answers, it appends exactly
    one row to [users]; the stored role is "student" and the returned
    role is [STUDENT], whatever role the client sent. *)
Lemma register_user_forces_student :
  forall (user_data : UserCreate) (w : World),
    faults w = [] ->
    (forall u, In u (users (db w)) -> u_email u <> uc_email user_data) ->
    let new_row :=
      mk_user (uuid (next_id w)) (uc_email user_data)
        (hash_password (uc_password user_data)) "student"
        (uc_is_active user_data) (clock w) in
    fst (register_user user_data w) =
      Return (mk_user_response (uuid (next_id w)) (uc_email user_data) STUDENT
                (uc_is_active user_data) (clock w))
    /\ users (db (snd (register_user user_data w))) = users (db w) ++ [new_row]
    /\ u_role new_row = UserRole_value STUDENT.
Proof.
  intros ud w Hq Hnew new_row.
  assert (Hnone : filter (matches [eq_str u_email (uc_email ud)]) (users (db w)) = []).
  { apply filter_nil_iff. intros u Hu. rewrite matches_single. unfold eq_str.
    apply String.eqb_neq. apply Hnew. exact Hu. }
  unfold register_user. unfold try_except, bind.
  rewrite (table_select_quiet users_t _ w Hq).
  change (rows users_t (db w)) with (users (db w)).
  rewrite Hnone. cbv beta iota delta [truthy_list].
  rewrite (insert_one_quiet users_t _ w Hq). simpl.
  repeat split.
Qed.

(** The earlier definition of the same name, the one that serves
    [POST /register], stores and returns the role of the request. *)
Lemma register_user_earlier_keeps_role :
  forall (user_data : UserCreate) (w : World),
    faults w = [] ->
    (forall u, In u (users (db w)) -> u_email u <> uc_email user_data) ->
    fst (register_user_earlier user_data w) =
      Return (mk_user_response (uuid (next_id w)) (uc_email user_data)
                (uc_role user_data) (uc_is_active user_data) (clock w))
    /\ map u_role (users (db (snd (register_user_earlier user_data w))))
       = map u_role (users (db w)) ++ [UserRole_value (uc_role user_data)].
Proof.
  intros ud w Hq Hnew.
  assert (Hnone : filter (matches [eq_str u_email (uc_email ud)]) (users (db w)) = []).
  { apply filter_nil_iff. intros u Hu. rewrite matches_single. unfold eq_str.
    apply String.eqb_neq. apply Hnew. exact Hu. }
  unfold register_user_earlier. unfold try_except, bind.
  rewrite (table_select_quiet users_t _ w Hq).
  change (rows users_t (db w)) with (users (db w)).
  rewrite Hnone. cbv beta iota delta [truthy_list].
  rewrite (insert_one_quiet users_t _ w Hq). simpl.
  destruct (uc_role ud); simpl; (split; [reflexivity|]);
    rewrite map_app; reflexivity.
Qed.

(* --------------------------------------------------------------------- *)
(** ** Tokens                                                             *)
(* --------------------------------------------------------------------- *)

(** C9, as amended. [verify_token] accepts every token signed with the
    server key that carries a subject, a role that is a value of the
    enum, and an expiry that [datetime] can represent and that has not
    passed; the [type] claim is never looked at.  Hence [refresh_token]
    answers any such token, an access token as well as a refresh token,
    with a fresh access token and a fresh refresh token. *)
Theorem verify_token_ignores_type :
  forall (s r : string) (ro : UserRole) (e : Z) (ty : option string) (w : World),
    UserRole_of_value r = Some ro ->
    (clock w <= e)%Z ->
    fromtimestamp_fails e = None ->
    let t := Signed SECRET_KEY ALGORITHM (mk_claims (Some s) (Some r) (Some e) ty) in
    let data := fun (x : Z) (kind : string) =>
      mk_claims (Some s) (Some (UserRole_value ro)) (Some (clock w + x)%Z) (Some kind) in
    verify_token t w = (Return (mk_payload s ro e), w)
    /\ refresh_token t w =
         (Return (mk_token
                    (Signed SECRET_KEY ALGORITHM
                       (data (ACCESS_TOKEN_EXPIRE_MINUTES * 60)%Z "access"))
                    (Signed SECRET_KEY ALGORITHM
                       (data (REFRESH_TOKEN_EXPIRE_DAYS * 86400)%Z "refresh"))
                    "bearer" (ACCESS_TOKEN_EXPIRE_MINUTES * 60)%Z), w).
Proof.
  intros s r ro e ty w Hrole Hexp Hrange t data.
  assert (Hv : verify_token t w = (Return (mk_payload s ro e), w)).
  { unfold verify_token, t, jwt_decode. unfold try_except, bind, now.
    assert (Hlt : (e <? clock w)%Z = false) by (apply Z.ltb_ge; exact Hexp).
    unfold str_in. simpl. rewrite !String.eqb_refl. simpl.
    rewrite Hlt. simpl. unfold UserRole_call. rewrite Hrole. simpl.
    rewrite Hrange. reflexivity. }
  split; [exact Hv|].
  unfold refresh_token. unfold try_except, bind. rewrite Hv. reflexivity.
Qed.

(* --------------------------------------------------------------------- *)
(** ** Marks: reading one mark                                            *)
(* --------------------------------------------------------------------- *)

(** C10. In [get_mark], a caller with role parent and no row in [parents]
    makes the authorization branch subscript the missing profile: once
    the mark exists the request ends in the generic 500 handler, never in
    the 403 branch; when no store call fails the detail is the text of
    the [TypeError]. *)
Theorem get_mark_parent_without_profile :
  forall (mid : string) (current_user : TokenPayload) (w : World) (mark : mark_row),
    role current_user = PARENT ->
    (forall p, In p (parents (db w)) -> p_user_id p <> Some (sub current_user)) ->
    find (fun m => mark_id m =? mid) (marks (db w)) = Some mark ->
    (exists detail,
        fst (get_mark mid current_user w) = Raise (HTTPException 500 detail))
    /\ (faults w = [] ->
        get_mark mid current_user w =
          (Raise (HTTPException 500
                    ("Failed to retrieve mark: "
                     ++ "'NoneType' object is not subscriptable")), w)).
Proof.
  intros mid cu w mark Hrole Hnop Hmark.
  assert (Hnone : forall w', db w' = db w ->
            find (matches [eq_opt_str p_user_id (sub cu)]) (rows parents_t (db w')) = None).
  { intros w' E. rewrite E. apply find_none_iff. intros p Hp.
    rewrite matches_single. unfold eq_opt_str.
    specialize (Hnop p Hp). destruct (p_user_id p) as [u|]; [|reflexivity].
    apply String.eqb_neq. congruence. }
  split.
  - unfold get_mark. unfold try_except, bind. rewrite Hrole.
    destruct (select_by_id_cases marks_t mark_id mid w) as [w1 [S1 [E1|[m [E1 _]]]]];
      rewrite E1; [|eexists; reflexivity].
    change (rows marks_t (db w)) with (marks (db w)).
    rewrite Hmark. cbv beta iota delta [UserRole_eqb ret].
    destruct (select_one_cases parents_t [eq_opt_str p_user_id (sub cu)] w1)
      as [w2 [S2 [E2|[m [E2 _]]]]]; rewrite E2; [|eexists; reflexivity].
    rewrite (Hnone w1 (proj1 S1)). simpl. eexists; reflexivity.
  - intro Hq. unfold get_mark. unfold try_except, bind. rewrite Hrole.
    rewrite (select_by_id_quiet marks_t mark_id mid w Hq).
    change (rows marks_t (db w)) with (marks (db w)).
    rewrite Hmark. cbv beta iota delta [UserRole_eqb ret].
    rewrite (select_one_quiet parents_t _ w Hq).
    rewrite (Hnone w eq_refl). reflexivity.
Qed.

(* --------------------------------------------------------------------- *)
(** ** Leave requests                                                     *)
(* --------------------------------------------------------------------- *)

(** C2 (as the code has it). A successful [create_leave_request] appends
    one row whose status is the status of the request body, and pending
    only when the body leaves the status out. *)
Theorem create_leave_request_keeps_supplied_status :
  forall (sid : string) (sd ed : date) (why : string)
         (status : option LeaveStatus) (current_user : TokenPayload)
         (w w' : World) (resp : LeaveRequestResponse),
    create_leave_request (parse_LeaveRequestCreate sid sd ed why status)
      current_user w = (Return resp, w') ->
    leave_requests (db w') = leave_requests (db w) ++ [lrr_row resp]
    /\ lr_status (lrr_row resp) =
         match status with Some s => s | None => LEAVE_PENDING end.
Proof.
  intros sid sd ed why status cu w w' resp H.
  unfold create_leave_request in H.
  apply try_except_return_inv in H; [|intros; apply reraise_raises].
  apply bind_return_inv in H as (sid' & w1 & Hauth & H).
  assert (S1 : same_store w w1).
  { eapply reads_only_run; [|exact Hauth]. reads. }
  apply bind_return_inv in H as (nr & w2 & Hins & H).
  destruct (insert_one_cases leave_requests_t
              (fun id created =>
                 mk_leave id sid' (lc_start_date (parse_LeaveRequestCreate sid sd ed why status))
                   (lc_end_date (parse_LeaveRequestCreate sid sd ed why status))
                   (lc_reason (parse_LeaveRequestCreate sid sd ed why status))
                   (lc_status (parse_LeaveRequestCreate sid sd ed why status))
                   None created None) w1)
    as [(w2' & E & Hdb) | (m & w2' & E & _ & _)]; rewrite E in Hins; [|discriminate].
  inversion Hins; subst nr w2'; clear Hins.
  apply bind_return_inv in H as (row & w3 & Hsub & H).
  apply ret_inv in Hsub as [<- <-].
  apply bind_return_inv in H as (en & w4 & Hen & H).
  assert (S4 : same_store w2 w4).
  { eapply reads_only_run; [|exact Hen]. apply reads_only_enrich_leave. }
  apply ret_inv in H as [<- <-].
  destruct S1 as [S1 _]. destruct S4 as [S4 _].
  split.
  - rewrite S4, Hdb. simpl. rewrite S1. reflexivity.
  - simpl. reflexivity.
Qed.

(** C3 (as the code has it). With no store failure and an existing
    request, [PUT /{request_id}] by a teacher, admin or master writes the
    supplied status over the stored one whatever the stored one is, so no
    status is terminal; every other role gets a 403 and nothing changes. *)
Theorem put_leave_request_sets_any_status :
  forall (rid : string) (update_data : LeaveRequestUpdate)
         (caller : TokenPayload) (w : World) (r : leave_row),
    faults w = [] ->
    find (fun x => request_id x =? rid) (leave_requests (db w)) = Some r ->
    let out := put_leave_request rid update_data caller w in
    let written := leave_update_dict update_data (clock w) in
    if role_in (role caller) [TEACHER; ADMIN; MASTER]
    then (exists name, fst out = Return (mk_leave_response (written r) name))
         /\ leave_requests (db (snd out)) =
              map (fun x => if request_id x =? rid then written x else x)
                (leave_requests (db w))
         /\ lr_status (written r) = lu_status update_data
    else out = (Raise (HTTPException 403 "Teacher access required"), w).
Proof.
  intros rid ud caller w r Hq Hfind out written. subst out.
  unfold put_leave_request, require_teacher. unfold bind at 1.
  destruct (role_in (role caller) [TEACHER; ADMIN; MASTER]); [|reflexivity].
  cbv beta iota delta [negb ret].
  unfold update_leave_request_status. unfold try_except, bind.
  rewrite (select_by_id_quiet leave_requests_t request_id rid w Hq).
  change (rows leave_requests_t (db w)) with (leave_requests (db w)).
  rewrite Hfind. cbv beta iota delta [now].
  rewrite (update_by_id_quiet leave_requests_t request_id rid _ w Hq).
  change (rows leave_requests_t (db w)) with (leave_requests (db w)).
  rewrite Hfind. cbv beta iota delta [option_map].
  set (w2 := set_db _ w).
  assert (Hq2 : faults w2 = []) by exact Hq.
  unfold _enrich_leave_response.
  destruct (truthy_str (lr_student_id (leave_update_dict ud (clock w) r))).
  - unfold bind. rewrite (select_by_id_quiet students_t student_id _ w2 Hq2).
    simpl. split; [eexists; reflexivity|]. split; reflexivity.
  - simpl. split; [eexists; reflexivity|]. split; reflexivity.
Qed.

(* --------------------------------------------------------------------- *)
(** ** Fees: the list as a parent sees it                                 *)
(* --------------------------------------------------------------------- *)

Lemma enrich_fee_quiet (f : fee_row) (w : World) :
  faults w = [] ->
  exists name,
    _enrich_fee_response (Some f) w =
      (Return (name, float_sub (amount f) (amount_paid f)), w).
Proof.
  intro Hq. unfold _enrich_fee_response.
  destruct (truthy_str (f_student_id f)).
  - unfold bind. rewrite (select_by_id_quiet students_t student_id _ w Hq).
    eexists. reflexivity.
  - eexists. reflexivity.
Qed.

Lemma get_fees_loop_cons (allowed : list string) (f : fee_row) (fl : list fee_row) :
  get_fees_loop PARENT (Some allowed) (f :: fl) =
    if truthy_list allowed && negb (str_in (f_student_id f) allowed)
    then get_fees_loop PARENT (Some allowed) fl
    else
      (enriched <- _enrich_fee_response (Some f) ;;
       response <- FeeResponse_call f enriched ;;
       tail <- get_fees_loop PARENT (Some allowed) fl ;;
       ret (response :: tail)).
Proof. reflexivity. Qed.

Lemma Qgtb_pos (a : Q) : (0 < a)%Q -> Qgtb a 0 = true.
Proof.
  intro H. unfold Qgtb. apply negb_true_iff.
  destruct (Qle_bool a 0) eqn:E; [|reflexivity].
  apply Qle_bool_iff in E. exfalso. exact (Qlt_not_le _ _ H E).
Qed.

Lemma Qgtb_pos_inv (a : Q) : Qgtb a 0 = true -> (0 < a)%Q.
Proof.
  unfold Qgtb. intro H. apply negb_true_iff in H.
  apply Qnot_le_lt. intro L. apply Qle_bool_iff in L. congruence.
Qed.

Lemma get_fees_loop_parent_quiet (allowed : list string) (fl : list fee_row) w :
  faults w = [] ->
  allowed <> [] ->
  (forall f, In f fl -> In (f_student_id f) allowed -> (0 < amount f)%Q) ->
  exists l,
    get_fees_loop PARENT (Some allowed) fl w = (Return l, w)
    /\ map fr_row l = filter (fun f => str_in (f_student_id f) allowed) fl.
Proof.
  intros Hq Hne. induction fl as [|f fl IH]; intro Hpos.
  - exists []. split; reflexivity.
  - destruct IH as [l [El Hl]].
    { intros g Hg. apply Hpos. right. exact Hg. }
    rewrite get_fees_loop_cons.
    assert (Ht : truthy_list allowed = true) by (destruct allowed; [congruence | reflexivity]).
    rewrite Ht. simpl filter.
    destruct (str_in (f_student_id f) allowed) eqn:Es; cbv beta iota delta [negb andb].
    + destruct (enrich_fee_quiet f w Hq) as [name En].
      unfold bind. rewrite En. unfold FeeResponse_call.
      rewrite (Qgtb_pos (amount f)).
      2:{ apply Hpos; [left; reflexivity | apply str_in_In; exact Es]. }
      unfold ret at 1. rewrite El.
      eexists. split; [reflexivity|]. simpl. rewrite Hl. reflexivity.
    + exists l. split; assumption.
Qed.

(** The same scenario with the optional status and year filters: the
    answer is the ordered selection, restricted to the children. *)
Lemma get_fees_parent_rows :
  forall (status : option FeeStatus) (academic_year_q : option string)
         (current_user : TokenPayload) (w : World) (p : parent_row),
    role current_user = PARENT ->
    faults w = [] ->
    parent_of (db w) (sub current_user) = Some p ->
    children_of (db w) p <> [] ->
    fees_positive (db w) (children_of (db w) p) ->
    let fs : filters fee_row :=
      match status with
      | Some st => [fun f => FeeStatus_eqb (f_status f) st]
      | None => []
      end
      ++ match academic_year_q with
         | Some y => if truthy_str y then [eq_str academic_year y] else []
         | None => []
         end in
    exists l,
      get_fees None status academic_year_q current_user w = (Return l, w)
      /\ map fr_row l =
           filter (fun f => str_in (f_student_id f) (children_of (db w) p))
             (order_rows due_date true (filter (matches fs) (fees (db w)))).
Proof.
  intros status ay cu w p Hrole Hq Hp Hne Hpos fs.
  unfold get_fees. rewrite Hrole. unfold bind at 1. unfold bind at 1.
  rewrite (select_one_quiet parents_t _ w Hq).
  change (find _ (rows parents_t (db w))) with (parent_of (db w) (sub cu)).
  rewrite Hp. unfold bind at 1.
  rewrite (select_all_quiet parent_student_t _ None true None w Hq).
  cbv beta iota delta [apply_limit].
  change (map l_student_id (filter _ (rows parent_student_t (db w))))
    with (children_of (db w) p).
  assert (Ht : truthy_list (children_of (db w) p) = true).
  { destruct (children_of (db w) p); [congruence | reflexivity]. }
  rewrite Ht. cbv beta iota delta [negb ret].
  unfold try_except, bind.
  rewrite (select_all_quiet fees_t _ (Some due_date) false None w Hq).
  cbv beta iota delta [apply_limit negb].
  change (rows fees_t (db w)) with (fees (db w)).
  change ([] ++ ?x) with x.
  fold fs.
  destruct (get_fees_loop_parent_quiet (children_of (db w) p)
              (order_rows due_date true (filter (matches fs) (fees (db w)))) w Hq Hne)
    as [l [El Hl]].
  { intros f Hf. apply Hpos.
    apply (Permutation_in _ (order_perm due_date true _)) in Hf.
    apply filter_In in Hf. apply Hf. }
  rewrite El. exists l. split; [reflexivity | exact Hl].
Qed.

(** C6, as amended. A parent with a profile and linked children, whose
    children's stored fees all have a positive amount, who lists the fees
    with no [student_id] filter (and no other filter) gets exactly the
    fee records whose [student_id] is one of the children: all of them,
    and no record of any other student. *)
Theorem get_fees_parent_children_only :
  forall (current_user : TokenPayload) (w : World) (p : parent_row),
    role current_user = PARENT ->
    faults w = [] ->
    parent_of (db w) (sub current_user) = Some p ->
    children_of (db w) p <> [] ->
    fees_positive (db w) (children_of (db w) p) ->
    exists l,
      get_fees None None None current_user w = (Return l, w)
      /\ Permutation (map fr_row l)
           (filter (fun f => str_in (f_student_id f) (children_of (db w) p))
              (fees (db w)))
      /\ (forall f, In f (map fr_row l) <->
                    In f (fees (db w))
                    /\ In (f_student_id f) (children_of (db w) p)).
Proof.
  intros cu w p Hrole Hq Hp Hne Hpos.
  destruct (get_fees_parent_rows None None cu w p Hrole Hq Hp Hne Hpos) as [l [El Hl]].
  simpl in Hl. rewrite filter_matches_nil in Hl.
  assert (HP : Permutation (map fr_row l)
                 (filter (fun f => str_in (f_student_id f) (children_of (db w) p))
                    (fees (db w)))).
  { rewrite Hl. apply filter_perm. apply order_perm. }
  exists l. split; [exact El|]. split; [exact HP|].
  intro f. split.
  - intro Hin. apply (Permutation_in _ HP) in Hin.
    apply filter_In in Hin as [Hin Hs]. split; [exact Hin|].
    apply str_in_In. exact Hs.
  - intros [Hin Hs]. apply (Permutation_in _ (Permutation_sym HP)).
    apply filter_In. split; [exact Hin|]. apply str_in_In. exact Hs.
Qed.

(* --------------------------------------------------------------------- *)
(** ** Attendance: one record per student and day                         *)
(* --------------------------------------------------------------------- *)

Lemma matches_pair (sid : string) (d : date) (r : attendance_row) :
  matches [eq_str a_student_id sid; eq_date a_date d] r = same_pair sid d r.
Proof.
  unfold matches, same_pair, eq_str, eq_date. simpl. rewrite andb_true_r. reflexivity.
Qed.

Lemma filter_matches_pair (sid : string) (d : date) (l : list attendance_row) :
  filter (matches [eq_str a_student_id sid; eq_date a_date d]) l
  = filter (same_pair sid d) l.
Proof. apply filter_ext. intro r. apply matches_pair. Qed.

Lemma pair_count_app sid d l1 l2 :
  pair_count sid d (l1 ++ l2) = (pair_count sid d l1 + pair_count sid d l2)%nat.
Proof. unfold pair_count. rewrite filter_app, length_app. reflexivity. Qed.

Lemma same_pair_eq sid d sid' d' r :
  same_pair sid d r = true -> same_pair sid' d' r = true -> sid = sid' /\ d = d'.
Proof.
  unfold same_pair. rewrite !andb_true_iff. intros [A B] [C D].
  apply String.eqb_eq in A, C. apply Z.eqb_eq in B, D. split; congruence.
Qed.

(** What one call does to the store: nothing, or it appends one record
    for a pair that had none. *)
Lemma mark_attendance_effect (a : AttendanceCreate) (u : TokenPayload) (w : World) :
  db (snd (mark_attendance a u w)) = db w
  \/ (pair_count (ac_student_id a) (ac_date a) (attendance (db w)) = 0%nat
      /\ exists row,
           same_pair (ac_student_id a) (ac_date a) row = true
           /\ db (snd (mark_attendance a u w)) =
                with_rows attendance_t (attendance (db w) ++ [row]) (db w)).
Proof.
  unfold mark_attendance. rewrite try_except_bind.
  destruct (table_select_cases attendance_t
              [eq_str a_student_id (ac_student_id a); eq_date a_date (ac_date a)] w)
    as [w1 [S1 [E|[m [E _]]]]]; rewrite E.
  - change (rows attendance_t (db w)) with (attendance (db w)).
    rewrite filter_matches_pair.
    destruct (filter (same_pair (ac_student_id a) (ac_date a)) (attendance (db w)))
      as [|x xs] eqn:Ex; cbv beta iota delta [truthy_list].
    + rewrite try_except_bind.
      match goal with
      | |- context [insert_one attendance_t ?d w1] =>
          destruct (insert_one_cases attendance_t d w1)
            as [(w2 & E2 & Hdb) | (m & w2 & E2 & S2 & _)]; rewrite E2
      end.
      * right. split; [unfold pair_count; rewrite Ex; reflexivity|].
        eexists. split; [|].
        2:{ match goal with
            | |- db (snd (try_except ?c ?h w2)) = _ =>
                assert (R : reads_only (try_except c h)) by reads;
                destruct (R w2) as [Rdb _]; rewrite Rdb
            end.
            rewrite Hdb. destruct S1 as [S1 _]. rewrite S1. reflexivity. }
        unfold same_pair. simpl. rewrite String.eqb_refl, Z.eqb_refl. reflexivity.
      * left.
        match goal with
        | |- db (snd (?h ?e w2)) = _ =>
            assert (R : reads_only (h e)) by reads;
            destruct (R w2) as [Rdb _]; rewrite Rdb
        end.
        destruct S2 as [S2 _]. destruct S1 as [S1 _]. congruence.
    + left. simpl. apply S1.
  - left. simpl. apply S1.
Qed.

Lemma mark_attendance_preserves_unique (a : AttendanceCreate) (u : TokenPayload) w :
  attendance_unique (db w) ->
  attendance_unique (db (snd (mark_attendance a u w))).
Proof.
  intro Hu. destruct (mark_attendance_effect a u w) as [E | [H0 [row [Hrow E]]]];
    rewrite E; [exact Hu|].
  intros sid d. simpl. rewrite pair_count_app.
  unfold pair_count at 2. simpl.
  destruct (same_pair sid d row) eqn:Es; simpl.
  - destruct (same_pair_eq _ _ _ _ _ Es Hrow) as [-> ->]. rewrite H0. lia.
  - specialize (Hu sid d). lia.
Qed.

(** C8. From a store with at most one attendance record per (student,
    date), any sequence of [mark_attendance] calls leaves at most one
    record per pair; and a further create for a pair already present
    inserts nothing and, once the lookup answers, is rejected with the
    conflict error (status 400, "already marked"). *)
Theorem mark_attendance_at_most_one_per_day :
  forall (calls : list (AttendanceCreate * TokenPayload)) (w : World),
    attendance_unique (db w) ->
    let w' := mark_attendance_calls calls w in
    attendance_unique (db w')
    /\ forall (a : AttendanceCreate) (u : TokenPayload),
         (0 < pair_count (ac_student_id a) (ac_date a) (attendance (db w')))%nat ->
         db (snd (mark_attendance a u w')) = db w'
         /\ (hd None (faults w') = None ->
             fst (mark_attendance a u w') =
               Raise (HTTPException 400 "Attendance already marked for this date")).
Proof.
  intros calls. induction calls as [|[a0 u0] calls IH]; intros w Hu; simpl.
  - split; [exact Hu|]. intros a u Hpos. split.
    + destruct (mark_attendance_effect a u w) as [E | [H0 _]]; [exact E | lia].
    + intro Hok. unfold mark_attendance. rewrite try_except_bind.
      rewrite (table_select_next_ok attendance_t _ w Hok).
      change (rows attendance_t (db w)) with (attendance (db w)).
      rewrite filter_matches_pair.
      unfold pair_count in Hpos.
      destruct (filter (same_pair (ac_student_id a) (ac_date a)) (attendance (db w)));
        [simpl in Hpos; lia | reflexivity].
  - apply IH. apply mark_attendance_preserves_unique. exact Hu.
Qed.

(* --------------------------------------------------------------------- *)
(** ** What the client is told when a store call fails                    *)
(* --------------------------------------------------------------------- *)

Lemma string_app_assoc (a b c : string) :
  ((a ++ b) ++ c = a ++ b ++ c)%string.
Proof. induction a as [|x a IH]; simpl; [reflexivity | rewrite IH; reflexivity]. Qed.

Lemma ran_clean_refl w : ran_clean w w.
Proof. exists []. split; [constructor | reflexivity]. Qed.

Lemma ran_clean_same w w' : faults w' = faults w -> ran_clean w w'.
Proof. intro E. exists []. split; [constructor | rewrite E; reflexivity]. Qed.

Lemma ran_clean_trans w w1 w2 :
  ran_clean w w1 -> ran_clean w1 w2 -> ran_clean w w2.
Proof.
  intros (p1 & F1 & E1) (p2 & F2 & E2). exists (p1 ++ p2)%list. split.
  - apply Forall_app. split; assumption.
  - rewrite E1, E2, app_assoc. reflexivity.
Qed.

Lemma ran_clean_then_failed w w1 w2 m :
  ran_clean w w1 -> store_failed w1 w2 m -> store_failed w w2 m.
Proof.
  intros (p1 & F1 & E1) (p2 & F2 & E2). exists (p1 ++ p2)%list. split.
  - apply Forall_app. split; assumption.
  - rewrite E1, E2, app_assoc. reflexivity.
Qed.

Lemma store_failed_same w w1 w2 m :
  store_failed w w1 m -> faults w2 = faults w1 -> store_failed w w2 m.
Proof. intros (p & F & E) E2. exists p. split; [exact F | rewrite E2; exact E]. Qed.



Lemma traced_still {A} (c : M A) :
  (forall w, faults (snd (c w)) = faults w) -> traced c.
Proof. intros H w. left. apply ran_clean_same, H. Qed.

Lemma traced_ret {A} (a : A) : traced (ret a).
Proof. apply traced_still. reflexivity. Qed.

Lemma traced_raise {A} (e : exn) : traced (@raise A e).
Proof. apply traced_still. reflexivity. Qed.

Lemma traced_now : traced now.
Proof. apply traced_still. reflexivity. Qed.

Lemma traced_get_world : traced get_world.
Proof. apply traced_still. reflexivity. Qed.

Lemma traced_execute : traced execute.
Proof.
  intro w. unfold execute. destruct (faults w) as [|[m|] fs] eqn:F; simpl.
  - left. apply ran_clean_refl.
  - right. exists ""%string, m. split; [|reflexivity].
    exists []. split; [constructor | exact F].
  - left. exists [None]. split; [repeat constructor | exact F].
Qed.

Lemma traced_bind {A B} (c : M A) (k : A -> M B) :
  traced c -> (forall a, traced (k a)) -> traced (bind c k).
Proof.
  intros Hc Hk w. unfold bind. specialize (Hc w).
  destruct (c w) as [[a|e] w1]; simpl in Hc.
  - destruct Hc as [C | (op & m & _ & E)]; [|discriminate E].
    destruct (Hk a w1) as [C2 | (op & m & F2 & E2)].
    + left. eapply ran_clean_trans; eassumption.
    + right. exists op, m. split; [eapply ran_clean_then_failed; eassumption | exact E2].
  - destruct Hc as [C | (op & m & F & E)]; [left; exact C|].
    right. exists op, m. split; [exact F|]. simpl. inversion E. reflexivity.
Qed.

(** The gateway's wrapping of a store error keeps its text at the end. *)
Lemma traced_wrapped {A} (c : M A) (a b : string) :
  traced c ->
  traced (try_except c
            (fun e => raise (Exception (a ++ b ++ ": " ++ exn_str e)))).
Proof.
  intros Hc w. unfold try_except. specialize (Hc w).
  destruct (c w) as [[x|e] w1]; simpl in Hc; [exact Hc|].
  unfold raise. simpl. destruct Hc as [C | (op & m & F & E)]; [left; exact C|].
  right. inversion E; subst e. exists (a ++ b ++ ": " ++ op)%string, m.
  split; [exact F|]. simpl. rewrite !string_app_assoc. reflexivity.
Qed.

Create HintDb traces discriminated.
#[local] Hint Resolve traced_ret traced_raise traced_now traced_get_world
  traced_execute : traces.

Ltac traces :=
  repeat first
    [ progress intros
    | apply traced_bind
    | apply traced_wrapped
    | solve [auto with traces]
    | solve [apply traced_still; intro; reflexivity]
    | match goal with
      | |- traced (match ?x with _ => _ end) => destruct x
      | |- traced (if ?x then _ else _) => destruct x
      | |- traced (let _ := _ in _) => cbv zeta
      end ].

Lemma traced_table_select {R} (T : Table R) fs : traced (table_select T fs).
Proof. unfold table_select. traces. Qed.

Lemma traced_table_update {R} (T : Table R) fs upd : traced (table_update T fs upd).
Proof. unfold table_update. traces. Qed.
#[local] Hint Resolve traced_table_select traced_table_update : traces.

Lemma traced_select_all {R} (T : Table R) fs ob asc lim :
  traced (select_all T fs ob asc lim).
Proof. unfold select_all. traces. Qed.

Lemma traced_select_by_id {R} (T : Table R) col v : traced (select_by_id T col v).
Proof. unfold select_by_id. traces. Qed.

Lemma traced_select_one {R} (T : Table R) fs : traced (select_one T fs).
Proof. unfold select_one. traces. Qed.

Lemma traced_update_by_id {R} (T : Table R) col v upd :
  traced (update_by_id T col v upd).
Proof. unfold update_by_id. traces. Qed.
#[local] Hint Resolve traced_select_all traced_select_by_id traced_select_one
  traced_update_by_id : traces.

Lemma traced_subscript {A} (o : option A) : traced (subscript o).
Proof. unfold subscript. traces. Qed.

Lemma traced_FeeResponse_call fee enriched : traced (FeeResponse_call fee enriched).
Proof. unfold FeeResponse_call. traces. Qed.

Lemma traced_MarksResponse_call m e : traced (MarksResponse_call m e).
Proof. unfold MarksResponse_call. traces. Qed.

Lemma traced_enrich_fee fee : traced (_enrich_fee_response fee).
Proof. unfold _enrich_fee_response. traces. Qed.

Lemma traced_enrich_mark mark : traced (_enrich_mark_response mark).
Proof. unfold _enrich_mark_response. traces. Qed.
#[local] Hint Resolve traced_subscript traced_FeeResponse_call
  traced_MarksResponse_call traced_enrich_fee traced_enrich_mark : traces.

Lemma traced_get_marks_loop (pf : bool) (ids : list string) (ml : list mark_row) :
  traced (get_marks_loop pf ids ml).
Proof.
  induction ml as [|m ml IH]; simpl; [apply traced_ret|].
  destruct (pf && negb (str_in (m_student_id m) ids)); [exact IH|]. traces.
Qed.
#[local] Hint Resolve traced_get_marks_loop : traces.





(* --------------------------------------------------------------------- *)
(** ** Marks: what the two create paths preserve                          *)
(* --------------------------------------------------------------------- *)

Lemma matches_exam_student (eid sid : string) (l : list mark_row) :
  find (matches [eq_str m_exam_id eid; eq_str m_student_id sid]) l
  = find (same_exam_student eid sid) l.
Proof.
  induction l as [|m l IH]; simpl; [reflexivity|].
  unfold matches at 1, same_exam_student at 1, eq_str. simpl.
  rewrite andb_true_r.
  destruct ((m_exam_id m =? eid) && (m_student_id m =? sid)); [reflexivity | exact IH].
Qed.

(** Rewrites the store of the rest of a run that only reads. *)
Ltac read_tail :=
  match goal with
  | |- context [snd (?c ?w')] =>
      let R := fresh "R" in
      let R1 := fresh "R" in
      assert (R : reads_only c) by reads;
      destruct (R w') as [R1 _]; rewrite R1; clear R R1
  end.

(** What [create_mark] does to the store: nothing, or it appends one
    mark that is within the exam's maximum and whose (exam, student) pair
    had no mark. *)
Lemma create_mark_effect (mark_data : MarksCreate) (u : TokenPayload) (w : World) :
  db (snd (create_mark mark_data u w)) = db w
  \/ exists e row,
       find (fun x => exam_id x =? mc_exam_id mark_data) (exams (db w)) = Some e
       /\ (mc_marks_scored mark_data <= inject_Z (max_marks e))%Q
       /\ find (same_exam_student (mc_exam_id mark_data) (mc_student_id mark_data))
            (marks (db w)) = None
       /\ m_exam_id row = mc_exam_id mark_data
       /\ m_student_id row = mc_student_id mark_data
       /\ marks_scored row = mc_marks_scored mark_data
       /\ db (snd (create_mark mark_data u w))
          = with_rows marks_t (marks (db w) ++ [row]) (db w).
Proof.
  unfold create_mark. rewrite try_except_bind.
  destruct (select_by_id_cases exams_t exam_id (mc_exam_id mark_data) w)
    as [w1 [(D1 & _) [E|[m [E _]]]]]; rewrite E;
    [|left; read_tail; exact D1].
  change (rows exams_t (db w)) with (exams (db w)).
  destruct (find _ (exams (db w))) as [e|] eqn:Fe; [|left; read_tail; exact D1].
  rewrite try_except_bind.
  destruct (select_by_id_cases students_t student_id (mc_student_id mark_data) w1)
    as [w2 [(D2 & _) [E2|[m [E2 _]]]]]; rewrite E2;
    [|left; read_tail; congruence].
  destruct (find _ (rows students_t (db w1))); [|left; read_tail; congruence].
  rewrite try_except_bind.
  destruct (select_one_cases marks_t
              [eq_str m_exam_id (mc_exam_id mark_data);
               eq_str m_student_id (mc_student_id mark_data)] w2)
    as [w3 [(D3 & _) [E3|[m [E3 _]]]]]; rewrite E3;
    [|left; read_tail; congruence].
  rewrite matches_exam_student, D2, D1.
  change (rows marks_t (db w)) with (marks (db w)).
  destruct (find (same_exam_student _ _) (marks (db w))) eqn:Fm;
    [left; read_tail; congruence|].
  destruct (Qgtb (mc_marks_scored mark_data) (inject_Z (max_marks e))) eqn:G;
    [left; read_tail; congruence|].
  apply Qgtb_false_iff in G.
  rewrite try_except_bind.
  destruct (insert_one_cases marks_t (mark_dict mark_data) w3)
    as [(w4 & E4 & D4) | (m & w4 & E4 & (D4 & _) & _)]; rewrite E4;
    [|left; read_tail; congruence].
  right. exists e. eexists. split; [reflexivity|]. split; [exact G|].
  split; [reflexivity|].
  split; [|split; [|split]]; [| | |read_tail; rewrite D4, D3, D2, D1; reflexivity];
    reflexivity.
Qed.

Lemma marks_unique_app (st : list mark_row) (row : mark_row) :
  (forall eid sid, (length (filter (same_exam_student eid sid) st) <= 1)%nat) ->
  find (same_exam_student (m_exam_id row) (m_student_id row)) st = None ->
  forall eid sid,
    (length (filter (same_exam_student eid sid) (st ++ [row])) <= 1)%nat.
Proof.
  intros Hu Hnone eid sid. rewrite filter_app, length_app. simpl.
  destruct (same_exam_student eid sid row) eqn:Es; simpl.
  - unfold same_exam_student in Es. apply andb_true_iff in Es as [A B].
    apply String.eqb_eq in A, B. subst eid sid.
    rewrite <- hd_error_filter_find in Hnone.
    destruct (filter _ st); [simpl; lia | discriminate].
  - specialize (Hu eid sid). lia.
Qed.

(** The single create keeps both invariants of the marks table. *)
Lemma create_mark_preserves_invariants (mark_data : MarksCreate)
    (u : TokenPayload) (w : World) :
  marks_unique (db w) -> marks_bounded (db w) ->
  marks_unique (db (snd (create_mark mark_data u w)))
  /\ marks_bounded (db (snd (create_mark mark_data u w))).
Proof.
  intros Hu Hb.
  destruct (create_mark_effect mark_data u w)
    as [E | (e & row & Fe & Hle & Fm & Re & Rs & Rm & E)]; rewrite E;
    [split; assumption|].
  split.
  - intros eid sid. simpl. apply marks_unique_app; [exact Hu|].
    rewrite Re, Rs. exact Fm.
  - intros m e' Hin Hf. simpl in Hin, Hf. apply in_app_or in Hin as [Hin|[<-|[]]].
    + apply (Hb m e' Hin Hf).
    + rewrite Re in Hf. rewrite Fe in Hf. inversion Hf. subst e'.
      rewrite Rm. exact Hle.
Qed.

(** The bulk create checks each record against the exam's maximum... *)
Lemma bulk_validate_bounded (first_exam_id : string) (mx : Z)
    (marks_list : list MarksCreate) :
  forall i id t d,
    In d (snd (bulk_validate first_exam_id mx i marks_list)) ->
    m_exam_id (d id t) = first_exam_id
    /\ (marks_scored (d id t) <= inject_Z mx)%Q.
Proof.
  induction marks_list as [|md l IH]; intros i id t d; simpl; [intros []|].
  destruct (bulk_validate first_exam_id mx (S i) l) as [errs recs] eqn:B.
  specialize (IH (S i) id t d). rewrite B in IH. simpl in IH.
  destruct (negb (mc_exam_id md =? first_exam_id)) eqn:Ex; [exact IH|].
  destruct (Qgtb (mc_marks_scored md) (inject_Z mx)) eqn:G; [exact IH|].
  simpl. intros [<-|Hin]; [|exact (IH Hin)].
  apply negb_false_iff, String.eqb_eq in Ex. apply Qgtb_false_iff in G.
  split; assumption.
Qed.

Lemma materialise_In {R} (ds : list (draft R)) :
  forall n t r, In r (materialise ds n t) -> exists d id, In d ds /\ r = d id t.
Proof.
  induction ds as [|d ds IH]; intros n t r; simpl; [intros []|].
  intros [<-|Hin].
  - exists d, (uuid n). split; [left; reflexivity | reflexivity].
  - destruct (IH _ _ _ Hin) as (d' & id & Hd & E).
    exists d', id. split; [right; exact Hd | exact E].
Qed.

Lemma insert_many_cases {R} (T : Table R) (ds : list (draft R)) w :
  (exists w', insert_many T ds w = (Return (materialise ds (next_id w) (clock w)), w')
     /\ db w' = with_rows T (rows T (db w) ++ materialise ds (next_id w) (clock w))
                  (db w))
  \/ (exists e w', insert_many T ds w = (Raise e, w') /\ db w' = db w).
Proof.
  unfold insert_many, table_insert. unfold try_except, bind.
  destruct (execute_cases w) as [w1 [(S1 & S2 & S3 & _) [E|[m [E _]]]]]; rewrite E.
  - left. eexists. split; [rewrite S2, S3; reflexivity|]. simpl. rewrite S1. reflexivity.
  - right. do 2 eexists. split; [reflexivity | exact S1].
Qed.

(** ... so it keeps the bound, though not the uniqueness. *)
Lemma create_bulk_marks_preserves_bound (marks_list : list MarksCreate)
    (u : TokenPayload) (w : World) :
  marks_bounded (db w) ->
  marks_bounded (db (snd (create_bulk_marks marks_list u w))).
Proof.
  intro Hb. unfold create_bulk_marks.
  destruct marks_list as [|first rest]; [exact Hb|].
  unfold bind at 1.
  destruct (select_by_id_cases exams_t exam_id (mc_exam_id first) w)
    as [w1 [(D1 & _) [E|[m [E _]]]]]; rewrite E; [|simpl; rewrite D1; exact Hb].
  change (rows exams_t (db w)) with (exams (db w)).
  destruct (find _ (exams (db w))) as [e|] eqn:Fe; [|simpl; rewrite D1; exact Hb].
  pose proof (bulk_validate_bounded (mc_exam_id first) (max_marks e) (first :: rest) 0)
    as Hv.
  destruct (bulk_validate (mc_exam_id first) (max_marks e) 0 (first :: rest))
    as [errors recs].
  simpl snd in Hv. unfold bind at 1.
  destruct (truthy_list recs); [|simpl; rewrite D1; exact Hb].
  unfold try_except, bind.
  destruct (insert_many_cases marks_t recs w1)
    as [(w2 & E2 & D2) | (x & w2 & E2 & D2)]; rewrite E2; simpl;
    [|rewrite D2, D1; exact Hb].
  rewrite D2, D1. intros m e' Hin Hf. simpl in Hin, Hf.
  apply in_app_or in Hin as [Hin|Hin]; [exact (Hb m e' Hin Hf)|].
  apply materialise_In in Hin as (d & id & Hd & ->).
  destruct (Hv id (clock w1) d Hd) as [Hex Hle].
  rewrite Hex, Fe in Hf. inversion Hf. subst e'. exact Hle.
Qed.

End Claims.

(* ===================================================================== *)
(** * Further properties                                                  *)
(* ===================================================================== *)

Section Further.

Context {platform : Platform} {passlib : Passlib}.

(* --------------------------------------------------------------------- *)
(** ** Tokens and guards                                                  *)
(* --------------------------------------------------------------------- *)

Lemma str_in_single (a : string) : str_in a [a] = true.
Proof. unfold str_in. simpl. rewrite String.eqb_refl. reflexivity. Qed.

(** What [verify_token] does with a token signed by this service. *)
Lemma verify_token_signed (c : claims) (w : World) :
  verify_token (Signed SECRET_KEY ALGORITHM c) w =
    match c_exp c with
    | Some e =>
        if (e <? clock w)%Z
        then (Raise (HTTPException 401 "Could not validate credentials"), w)
        else
          match c_sub c, c_role c with
          | Some s, Some r =>
              match UserRole_of_value r with
              | Some ro =>
                  match fromtimestamp_fails e with
                  | Some text => (Raise (ValueError text), w)
                  | None => (Return (mk_payload s ro e), w)
                  end
              | None => (Raise (ValueError ("'" ++ r ++ "' is not a valid UserRole")), w)
              end
          | _, _ => (Raise (HTTPException 401 "Invalid token payload"), w)
          end
    | None =>
        match c_sub c, c_role c with
        | Some s, Some r =>
            match UserRole_of_value r with
            | Some ro =>
                (Raise (TypeError "'NoneType' object cannot be interpreted as an integer"), w)
            | None => (Raise (ValueError ("'" ++ r ++ "' is not a valid UserRole")), w)
            end
        | _, _ => (Raise (HTTPException 401 "Invalid token payload"), w)
        end
    end.
Proof.
  unfold verify_token, jwt_decode. rewrite str_in_single, String.eqb_refl.
  cbv beta iota delta [negb]. unfold try_except, bind, now.
  destruct c as [s r e ty]. simpl.
  destruct e as [e|]; simpl.
  - destruct (e <? clock w)%Z; simpl; [reflexivity|].
    destruct s as [s|], r as [r|]; simpl; try reflexivity.
    unfold UserRole_call. destruct (UserRole_of_value r); simpl; [|reflexivity].
    destruct (fromtimestamp_fails e); reflexivity.
  - destruct s as [s|], r as [r|]; simpl; try reflexivity.
    unfold UserRole_call. destruct (UserRole_of_value r); reflexivity.
Qed.

(** X1. A token issued for a subject and a role of the enum is accepted,
    with that subject and role, as long as the clock has not passed its
    expiry, and is refused with a 401 afterwards: 60 s times
    [ACCESS_TOKEN_EXPIRE_MINUTES] for an access token, 86400 s times
    [REFRESH_TOKEN_EXPIRE_DAYS] for a refresh token.  (An expiry that
    [datetime] cannot represent ends in the exception of
    [fromtimestamp] instead of the acceptance.) *)
Theorem issued_tokens_live_until_expiry :
  forall (s r : string) (ro : UserRole) (w later : World),
    UserRole_of_value r = Some ro ->
    let data := mk_claims (Some s) (Some r) None None in
    let access_exp := (clock w + ACCESS_TOKEN_EXPIRE_MINUTES * 60)%Z in
    let refresh_exp := (clock w + REFRESH_TOKEN_EXPIRE_DAYS * 86400)%Z in
    exists access refresh,
      create_access_token data None w = (Return access, w)
      /\ create_refresh_token data w = (Return refresh, w)
      /\ verify_token access later =
           (if (access_exp <? clock later)%Z
            then Raise (HTTPException 401 "Could not validate credentials")
            else match fromtimestamp_fails access_exp with
                 | Some text => Raise (ValueError text)
                 | None => Return (mk_payload s ro access_exp)
                 end, later)
      /\ verify_token refresh later =
           (if (refresh_exp <? clock later)%Z
            then Raise (HTTPException 401 "Could not validate credentials")
            else match fromtimestamp_fails refresh_exp with
                 | Some text => Raise (ValueError text)
                 | None => Return (mk_payload s ro refresh_exp)
                 end, later).
Proof.
  intros s r ro w later Hr data access_exp refresh_exp.
  do 2 eexists. split; [reflexivity|]. split; [reflexivity|].
  unfold jwt_encode. rewrite !verify_token_signed. simpl.
  rewrite Hr. fold access_exp refresh_exp.
  split.
  - destruct (access_exp <? clock later)%Z; [reflexivity|].
    destruct (fromtimestamp_fails access_exp); reflexivity.
  - destruct (refresh_exp <? clock later)%Z; [reflexivity|].
    destruct (fromtimestamp_fails refresh_exp); reflexivity.
Qed.

(** X2. A text that is no token, a token signed with another key and a
    token under another algorithm are all refused with the same 401. *)
Theorem verify_token_refuses_forged :
  forall (t : token) (w : World),
    (match t with
     | Malformed _ => True
     | Signed key alg _ => key <> SECRET_KEY \/ alg <> ALGORITHM
     end) ->
    verify_token t w =
      (Raise (HTTPException 401 "Could not validate credentials"), w).
Proof.
  intros t w H. unfold verify_token, jwt_decode. unfold try_except, bind.
  destruct t as [txt | key alg c]; [reflexivity|].
  destruct (str_in alg [ALGORITHM]) eqn:Ea; simpl; [|reflexivity].
  destruct (key =? SECRET_KEY) eqn:Ek; simpl; [|reflexivity].
  apply String.eqb_eq in Ek. apply str_in_In in Ea as [Ea|[]].
  destruct H as [H|H]; [contradiction | congruence].
Qed.

Lemma verify_token_world (t : token) (w : World) : snd (verify_token t w) = w.
Proof.
  unfold verify_token, jwt_decode. unfold try_except, bind, now.
  destruct t as [txt | key alg c]; [reflexivity|].
  destruct (negb (str_in alg [ALGORITHM])); [reflexivity|].
  destruct (negb (key =? SECRET_KEY)); [reflexivity|].
  destruct c as [s r e ty]. simpl.
  destruct e as [e|]; simpl.
  - destruct (e <? clock w)%Z; simpl; [reflexivity|].
    destruct s as [s|], r as [r|]; simpl; try reflexivity.
    unfold UserRole_call. destruct (UserRole_of_value r); simpl; [|reflexivity].
    destruct (fromtimestamp_fails e); reflexivity.
  - destruct s as [s|], r as [r|]; simpl; try reflexivity.
    unfold UserRole_call. destruct (UserRole_of_value r); reflexivity.
Qed.

(** X3. [refresh_token] answers with a pair of tokens or with the 401
    "Invalid refresh token", whatever it is given: no other exception
    leaves it, and the world is as before. *)
Theorem refresh_token_answers_or_401 :
  forall (t : token) (w : World),
    (exists fresh, refresh_token t w = (Return fresh, w))
    \/ refresh_token t w = (Raise (HTTPException 401 "Invalid refresh token"), w).
Proof.
  intros t w. unfold refresh_token. rewrite try_except_bind.
  pose proof (verify_token_world t w) as Hw.
  destruct (verify_token t w) as [[p|e] w1]; simpl in Hw; subst w1.
  - left. eexists. reflexivity.
  - right. reflexivity.
Qed.

Lemma UserRole_value_round_trip (ro : UserRole) :
  UserRole_of_value (UserRole_value ro) = Some ro.
Proof. destruct ro; reflexivity. Qed.

(** X4. A token signed by this service and not expired whose role is
    no value of the enum is not answered with a 401 by [verify_token]:
    the conversion of the role raises a [ValueError]; likewise a signed
    token without an expiry ends in a [TypeError]. *)
Theorem verify_token_conversion_errors :
  forall (s r : string) (ty : option string) (ro : UserRole) (w : World) (e : Z),
    (clock w <= e)%Z ->
    UserRole_of_value r = None ->
    verify_token
      (Signed SECRET_KEY ALGORITHM (mk_claims (Some s) (Some r) (Some e) ty)) w
    = (Raise (ValueError ("'" ++ r ++ "' is not a valid UserRole")), w)
    /\ verify_token
         (Signed SECRET_KEY ALGORITHM
            (mk_claims (Some s) (Some (UserRole_value ro)) None ty)) w
       = (Raise (TypeError "'NoneType' object cannot be interpreted as an integer"), w).
Proof.
  intros s r ty ro w e He Hr. split.
  - rewrite verify_token_signed. simpl.
    assert (Hlt : (e <? clock w)%Z = false) by (apply Z.ltb_ge; exact He).
    rewrite Hlt, Hr. reflexivity.
  - rewrite verify_token_signed. simpl. rewrite UserRole_value_round_trip. reflexivity.
Qed.

(** X5. The guards nest: whoever passes [require_master] passes
    [require_admin], and whoever passes [require_admin] passes
    [require_teacher]; a student or a parent passes none of the three,
    and [require_student] and [require_parent] admit exactly their role. *)
Theorem guards_nest :
  forall (u : TokenPayload) (w : World),
    (require_master u w = (Return u, w) -> require_admin u w = (Return u, w))
    /\ (require_admin u w = (Return u, w) -> require_teacher u w = (Return u, w))
    /\ (role u = STUDENT \/ role u = PARENT ->
        require_teacher u w = (Raise (HTTPException 403 "Teacher access required"), w)
        /\ require_admin u w = (Raise (HTTPException 403 "Admin access required"), w)
        /\ require_master u w = (Raise (HTTPException 403 "Master access required"), w))
    /\ (require_student u w = (Return u, w) <-> role u = STUDENT)
    /\ (require_parent u w = (Return u, w) <-> role u = PARENT).
Proof.
  intros u w.
  unfold require_master, require_admin, require_teacher, require_student,
    require_parent, role_in.
  destruct (role u); simpl; repeat split; intros;
    try reflexivity; try discriminate;
    try match goal with H : _ \/ _ |- _ => destruct H; discriminate end.
Qed.


(* --------------------------------------------------------------------- *)
(** ** Signing in                                                         *)
(* --------------------------------------------------------------------- *)

(** The user [login] and [change_password] work on. *)
Lemma users_select_quiet (col : user_row -> string) (v : string) (w : World) :
  faults w = [] ->
  exists l,
    table_select users_t [eq_str col v] w = (Return l, w)
    /\ hd_error l = find (fun u => col u =? v) (users (db w)).
Proof.
  intro Hq. rewrite (table_select_quiet users_t _ w Hq).
  eexists. split; [reflexivity|].
  rewrite filter_matches_single. apply hd_error_filter_find.
Qed.

Lemma login_quiet (credentials : UserLogin) (w : World) :
  faults w = [] ->
  login credentials w =
    (match find (fun u => u_email u =? ul_email credentials) (users (db w)) with
     | None => Raise (HTTPException 401 "Invalid email or password")
     | Some user =>
         if negb (u_is_active user)
         then Raise (HTTPException 403 "Account is inactive")
         else if negb (verify_password (ul_password credentials) (u_password_hash user))
         then Raise (HTTPException 401 "Invalid email or password")
         else
           Return
             (mk_token
                (Signed SECRET_KEY ALGORITHM
                   (mk_claims (Some (user_id user)) (Some (u_role user))
                      (Some (clock w + ACCESS_TOKEN_EXPIRE_MINUTES * 60)%Z)
                      (Some "access")))
                (Signed SECRET_KEY ALGORITHM
                   (mk_claims (Some (user_id user)) (Some (u_role user))
                      (Some (clock w + REFRESH_TOKEN_EXPIRE_DAYS * 86400)%Z)
                      (Some "refresh")))
                "bearer" (ACCESS_TOKEN_EXPIRE_MINUTES * 60)%Z)
     end, w).
Proof.
  intro Hq. unfold login. rewrite try_except_bind.
  destruct (users_select_quiet u_email (ul_email credentials) w Hq) as [l [E Hl]].
  rewrite E, <- Hl.
  destruct l as [|user rest]; [reflexivity|]. simpl hd_error. cbv iota.
  destruct (u_is_active user); [|reflexivity].
  destruct (verify_password _ _); reflexivity.
Qed.

(** X6. A successful [login] hands out tokens that identify the user:
    [get_current_user] on the access token answers the user's id and
    role, and [refresh_token] accepts the refresh token.  (An expiry
    that [datetime] cannot represent ends in the exception of
    [fromtimestamp], which [refresh_token] turns into its 401.) *)
Theorem login_tokens_identify_user :
  forall (credentials : UserLogin) (w : World) (user : user_row) (ro : UserRole),
    faults w = [] ->
    find (fun u => u_email u =? ul_email credentials) (users (db w)) = Some user ->
    u_is_active user = true ->
    verify_password (ul_password credentials) (u_password_hash user) = true ->
    UserRole_of_value (u_role user) = Some ro ->
    (0 <= ACCESS_TOKEN_EXPIRE_MINUTES)%Z ->
    (0 <= REFRESH_TOKEN_EXPIRE_DAYS)%Z ->
    exists issued,
      login credentials w = (Return issued, w)
      /\ get_current_user (tk_access_token issued) w
         = (match fromtimestamp_fails (clock w + ACCESS_TOKEN_EXPIRE_MINUTES * 60)%Z with
            | Some text => Raise (ValueError text)
            | None =>
                Return (mk_payload (user_id user) ro
                          (clock w + ACCESS_TOKEN_EXPIRE_MINUTES * 60)%Z)
            end, w)
      /\ match fromtimestamp_fails (clock w + REFRESH_TOKEN_EXPIRE_DAYS * 86400)%Z with
         | Some _ =>
             refresh_token (tk_refresh_token issued) w
             = (Raise (HTTPException 401 "Invalid refresh token"), w)
         | None =>
             exists fresh,
               refresh_token (tk_refresh_token issued) w = (Return fresh, w)
         end.
Proof.
  intros c w user ro Hq Hf Ha Hv Hr Hm Hd.
  rewrite (login_quiet c w Hq), Hf, Ha, Hv. cbv beta iota delta [negb].
  eexists. split; [reflexivity|]. simpl tk_access_token. simpl tk_refresh_token.
  unfold get_current_user. split.
  - rewrite verify_token_signed. simpl. rewrite Hr.
    assert (E : (clock w + ACCESS_TOKEN_EXPIRE_MINUTES * 60 <? clock w)%Z = false)
      by (apply Z.ltb_ge; lia).
    rewrite E. destruct (fromtimestamp_fails _); reflexivity.
  - unfold refresh_token. rewrite try_except_bind, verify_token_signed. simpl.
    rewrite Hr.
    assert (E : (clock w + REFRESH_TOKEN_EXPIRE_DAYS * 86400 <? clock w)%Z = false)
      by (apply Z.ltb_ge; lia).
    rewrite E. destruct (fromtimestamp_fails _); [reflexivity|].
    eexists. reflexivity.
Qed.

Lemma reads_only_login (credentials : UserLogin) : reads_only (login credentials).
Proof.
  unfold login, create_access_token, create_refresh_token. reads.
Qed.

(** X7. [login] never writes to the store.  When the store answers, an
    unknown e-mail and a wrong password get the same 401, and an
    inactive account gets a 403 whether or not the password is right. *)
Theorem login_refusals :
  forall (credentials : UserLogin) (w : World),
    db (snd (login credentials w)) = db w
    /\ (faults w = [] ->
        match find (fun u => u_email u =? ul_email credentials) (users (db w)) with
        | None =>
            login credentials w
            = (Raise (HTTPException 401 "Invalid email or password"), w)
        | Some user =>
            (u_is_active user = false ->
             login credentials w = (Raise (HTTPException 403 "Account is inactive"), w))
            /\ (u_is_active user = true ->
                verify_password (ul_password credentials) (u_password_hash user) = false ->
                login credentials w
                = (Raise (HTTPException 401 "Invalid email or password"), w))
        end).
Proof.
  intros c w. split; [apply (reads_only_login c w)|].
  intro Hq. rewrite (login_quiet c w Hq).
  destruct (find _ (users (db w))) as [user|]; [|reflexivity].
  split.
  - intros ->. reflexivity.
  - intros -> ->. reflexivity.
Qed.

Lemma find_app_none {A} (p : A -> bool) (l l' : list A) :
  find p l = None -> find p (l ++ l') = find p l'.
Proof.
  induction l as [|x l IH]; simpl; [reflexivity|].
  destruct (p x); [discriminate | exact IH].
Qed.

Lemma find_map_same {A} (p : A -> bool) (f : A -> A) (l : list A) :
  (forall x, p (f x) = p x) ->
  find p (map f l) = option_map f (find p l).
Proof.
  intro H. induction l as [|x l IH]; simpl; [reflexivity|].
  rewrite H. destruct (p x); [reflexivity | exact IH].
Qed.

(** X8. [change_password] with the right old password stores the hash of
    the new one on the caller's row and on no other row, after which
    [login] with the new password succeeds; with a wrong old password it
    answers 401 and the store is unchanged. *)
Theorem change_password_then_login :
  forall (old_password new_password : string) (current_user : TokenPayload)
         (w : World) (user : user_row),
    faults w = [] ->
    find (fun u => user_id u =? sub current_user) (users (db w)) = Some user ->
    find (fun u => u_email u =? u_email user) (users (db w)) = Some user ->
    u_is_active user = true ->
    verify_password new_password (hash_password new_password) = true ->
    if verify_password old_password (u_password_hash user)
    then
      exists w',
        change_password old_password new_password current_user w
        = (Return "Password changed successfully", w')
        /\ users (db w') =
             map (fun u => if user_id u =? sub current_user
                           then set_password_hash (hash_password new_password) u
                           else u)
               (users (db w))
        /\ exists issued,
             login (mk_user_login (u_email user) new_password) w' = (Return issued, w')
    else
      change_password old_password new_password current_user w
      = (Raise (HTTPException 401 "Invalid current password"), w).
Proof.
  intros old new cu w user Hq Hid Hem Ha Hv.
  unfold change_password. rewrite try_except_bind.
  destruct (users_select_quiet user_id (sub cu) w Hq) as [l [E Hl]].
  rewrite E. rewrite Hid in Hl.
  destruct l as [|u0 rest]; [discriminate|]. simpl in Hl. inversion Hl. subst u0.
  cbv iota.
  destruct (verify_password old (u_password_hash user)); [|reflexivity].
  cbv beta iota delta [negb].
  unfold table_update. unfold try_except, bind.
  rewrite (execute_quiet w Hq). cbv beta iota zeta.
  eexists. split; [reflexivity|]. split.
  - simpl. apply map_ext. intro u. unfold eq_str.
    destruct (user_id u =? sub cu); reflexivity.
  - set (w' := set_db _ w).
    assert (Hq' : faults w' = []) by exact Hq.
    rewrite (login_quiet _ w' Hq'). simpl ul_email. simpl ul_password.
    assert (Hf : find (fun u => u_email u =? u_email user) (users (db w'))
                 = Some (set_password_hash (hash_password new) user)).
    { unfold w'. simpl.
      rewrite (find_map_same (fun u => u_email u =? u_email user)).
      - rewrite Hem. simpl. unfold eq_str.
        apply find_some in Hid as [_ Hid]. rewrite Hid. reflexivity.
      - intro x. destruct (eq_str user_id (sub cu) x); reflexivity. }
    rewrite Hf. simpl. rewrite Ha, Hv. eexists. reflexivity.
Qed.

Lemma post_register_world (user_data : UserCreate) (w : World) :
  faults w = [] ->
  (forall u, In u (users (db w)) -> u_email u <> uc_email user_data) ->
  let w' := snd (post_register user_data w) in
  users (db w') =
    users (db w) ++
      [mk_user (uuid (next_id w)) (uc_email user_data)
         (hash_password (uc_password user_data)) (UserRole_value (uc_role user_data))
         (uc_is_active user_data) (clock w)]
  /\ faults w' = [] /\ clock w' = clock w.
Proof.
  intros Hq Hnew w'.
  assert (Hnone : filter (matches [eq_str u_email (uc_email user_data)]) (users (db w))
                  = []).
  { apply filter_nil_iff. intros u Hu. rewrite matches_single. unfold eq_str.
    apply String.eqb_neq. apply Hnew. exact Hu. }
  unfold w', post_register, register_user_earlier. unfold try_except, bind.
  rewrite (table_select_quiet users_t _ w Hq).
  change (rows users_t (db w)) with (users (db w)).
  rewrite Hnone. cbv beta iota delta [truthy_list].
  rewrite (insert_one_quiet users_t _ w Hq). cbv beta iota delta [subscript ret].
  cbn [u_role]. unfold UserRole_call. rewrite UserRole_value_round_trip.
  cbn [snd db users faults clock set_next_id set_db with_rows users_t rows].
  repeat split. exact Hq.
Qed.

(** X9. Registering through [POST /register] and then signing in with
    the same e-mail and password yields an access token whose role is
    the role the registration asked for, admin included; an account
    registered as inactive cannot sign in. *)
Theorem register_then_login :
  forall (user_data : UserCreate) (w : World),
    faults w = [] ->
    (forall u, In u (users (db w)) -> u_email u <> uc_email user_data) ->
    verify_password (uc_password user_data) (hash_password (uc_password user_data))
      = true ->
    (0 <= ACCESS_TOKEN_EXPIRE_MINUTES)%Z ->
    fromtimestamp_fails (clock w + ACCESS_TOKEN_EXPIRE_MINUTES * 60)%Z = None ->
    let w' := snd (post_register user_data w) in
    let credentials := mk_user_login (uc_email user_data) (uc_password user_data) in
    if uc_is_active user_data
    then
      exists issued,
        login credentials w' = (Return issued, w')
        /\ get_current_user (tk_access_token issued) w'
           = (Return (mk_payload (uuid (next_id w)) (uc_role user_data)
                        (clock w + ACCESS_TOKEN_EXPIRE_MINUTES * 60)%Z), w')
    else login credentials w' = (Raise (HTTPException 403 "Account is inactive"), w').
Proof.
  intros ud w Hq Hnew Hv Hm Hrange w' c.
  destruct (post_register_world ud w Hq Hnew) as (Hu & Hq' & Hc).
  fold w' in Hu, Hq', Hc.
  assert (Hf : find (fun u => u_email u =? uc_email ud) (users (db w'))
               = Some (mk_user (uuid (next_id w)) (uc_email ud)
                         (hash_password (uc_password ud))
                         (UserRole_value (uc_role ud))
                         (uc_is_active ud) (clock w))).
  { rewrite Hu. rewrite find_app_none.
    - simpl. rewrite String.eqb_refl. reflexivity.
    - apply find_none_iff. intros u Hin. apply String.eqb_neq. apply Hnew, Hin. }
  rewrite (login_quiet c w' Hq'). unfold c. simpl ul_email. simpl ul_password.
  rewrite Hf. cbn [u_is_active u_password_hash user_id u_role].
  destruct (uc_is_active ud); cbn [negb]; [|reflexivity].
  rewrite Hv. cbn [negb]. eexists. split; [reflexivity|].
  cbn [tk_access_token].
  unfold get_current_user. rewrite verify_token_signed.
  cbn [c_exp c_sub c_role]. rewrite Hc, UserRole_value_round_trip, Hrange.
  assert (E : (clock w + ACCESS_TOKEN_EXPIRE_MINUTES * 60 <? clock w)%Z = false)
    by (apply Z.ltb_ge; lia).
  rewrite E. reflexivity.
Qed.


(** Rewrites the store of the rest of a run that only reads. *)
Ltac read_rest :=
  match goal with
  | |- context [snd (?c ?w')] =>
      let R := fresh "R" in
      let R1 := fresh "R" in
      assert (R : reads_only c) by reads;
      destruct (R w') as [R1 _]; rewrite R1; clear R R1
  end.

(* --------------------------------------------------------------------- *)
(** ** Writes of the gateway                                              *)
(* --------------------------------------------------------------------- *)

Lemma update_by_id_effect {R} (T : Table R) (col : R -> string) v (upd : R -> R) w :
  (exists w',
      update_by_id T col v upd w =
        (Return (option_map upd (find (fun r => col r =? v) (rows T (db w)))), w')
      /\ db w' = with_rows T
                   (map (fun r => if col r =? v then upd r else r) (rows T (db w)))
                   (db w))
  \/ (exists e w', update_by_id T col v upd w = (Raise e, w') /\ db w' = db w).
Proof.
  unfold update_by_id, table_update. unfold try_except, bind, ret.
  destruct (execute_cases w) as [w1 [[S1 _] [E|[m [E _]]]]]; rewrite E.
  - left. eexists. split.
    + cbv beta iota zeta. rewrite filter_matches_single, S1.
      apply f_equal2; [|reflexivity]. f_equal.
      rewrite <- hd_error_filter_find. destruct (filter _ _); reflexivity.
    + cbn [db set_db]. f_equal. apply map_ext. intro r.
      rewrite matches_single. reflexivity.
  - right. do 2 eexists. split; [reflexivity | exact S1].
Qed.

Lemma delete_by_id_effect {R} (T : Table R) (col : R -> string) v w :
  (exists w',
      delete_by_id T col v w =
        (Return (filter (fun r => col r =? v) (rows T (db w))), w')
      /\ db w' = with_rows T
                   (filter (fun r => negb (col r =? v)) (rows T (db w))) (db w))
  \/ (exists e w', delete_by_id T col v w = (Raise e, w') /\ db w' = db w).
Proof.
  unfold delete_by_id, table_delete. unfold try_except, bind, ret.
  destruct (execute_cases w) as [w1 [[S1 _] [E|[m [E _]]]]]; rewrite E.
  - left. eexists. split.
    + cbv beta iota zeta. rewrite filter_matches_single, S1. reflexivity.
    + cbn [db set_db]. f_equal. apply filter_ext. intro r.
      rewrite matches_single. reflexivity.
  - right. do 2 eexists. split; [reflexivity | exact S1].
Qed.

Lemma find_key_unique {R} (key : R -> string) (l : list R) (v : string) (x r : R) :
  NoDup (map key l) ->
  find (fun r => key r =? v) l = Some x ->
  In r l -> key r = v -> r = x.
Proof.
  induction l as [|y l IH]; simpl; [intros _ H; discriminate|].
  intros Hnd Hf Hin Hk. inversion Hnd as [|? ? Hni Hnd']. subst.
  destruct (key y =? key r) eqn:E.
  - inversion Hf. subst x. destruct Hin as [->|Hin]; [reflexivity|].
    exfalso. apply Hni. apply String.eqb_eq in E. rewrite E.
    apply in_map. exact Hin.
  - destruct Hin as [->|Hin].
    + rewrite String.eqb_refl in E. discriminate.
    + apply IH; auto.
Qed.

Lemma eq_opt_str_true {R} (col : R -> option string) (v : string) (r : R) :
  eq_opt_str col v r = true -> col r = Some v.
Proof.
  unfold eq_opt_str. destruct (col r) as [x|]; [|discriminate].
  intro H. apply String.eqb_eq in H. congruence.
Qed.

(* --------------------------------------------------------------------- *)
(** ** Fees: payments, deletion, reading                                  *)
(* --------------------------------------------------------------------- *)

(** What [record_payment] does to the store: nothing, or it rewrites the
    rows with the given id, found with a payment that fits. *)
Lemma record_payment_effect (p : FeePayment) (u : TokenPayload) (w : World) :
  db (snd (record_payment p u w)) = db w
  \/ exists fee st t,
       find (fun r => fee_id r =? fp_fee_id p) (fees (db w)) = Some fee
       /\ (float_add (amount_paid fee) (fp_amount_paid p) <= amount fee)%Q
       /\ (st = PAID \/ st = PARTIAL)
       /\ db (snd (record_payment p u w))
          = with_rows fees_t
              (map (fun r =>
                      if fee_id r =? fp_fee_id p
                      then payment_update_data
                             (float_add (amount_paid fee) (fp_amount_paid p)) st t p r
                      else r)
                 (fees (db w)))
              (db w).
Proof.
  unfold record_payment. rewrite try_except_bind.
  destruct (select_by_id_cases fees_t fee_id (fp_fee_id p) w)
    as [w1 [(D1 & _) [E|[m [E _]]]]]; rewrite E;
    [|left; read_rest; exact D1].
  change (rows fees_t (db w)) with (fees (db w)).
  destruct (find _ (fees (db w))) as [fee|] eqn:F; [|left; read_rest; exact D1].
  destruct (Qgtb (float_add (amount_paid fee) (fp_amount_paid p)) (amount fee)) eqn:G;
    [left; read_rest; exact D1|].
  apply Qgtb_false_iff in G.
  rewrite try_except_bind. cbv beta iota delta [now].
  rewrite try_except_bind.
  match goal with
  | |- context [update_by_id fees_t fee_id ?x1 ?x2 w1] =>
      destruct (update_by_id_effect fees_t fee_id x1 x2 w1)
        as [(w2 & E2 & D2) | (x & w2 & E2 & D2)]; rewrite E2
  end; [|left; read_rest; congruence].
  rewrite D1. change (rows fees_t (db w)) with (fees (db w)).
  rewrite F. cbv beta iota delta [option_map].
  right. exists fee. do 2 eexists. split; [reflexivity|]. split; [exact G|].
  split; [|read_rest; rewrite D2, D1; reflexivity].
  destruct (Qeq_bool _ 0); [left | right]; reflexivity.
Qed.

(** X10. [record_payment] keeps every fee within its amount when fee ids
    are unique: whatever the store does, afterwards no fee is paid
    beyond its amount, the fee ids are the same, and fees with another
    id are untouched. *)
Theorem record_payment_keeps_fees_within :
  forall (payment_data : FeePayment) (current_user : TokenPayload) (w : World),
    fee_ids_unique (db w) ->
    fees_within (db w) ->
    let d' := db (snd (record_payment payment_data current_user w)) in
    fees_within d'
    /\ map fee_id (fees d') = map fee_id (fees (db w))
    /\ (forall f, In f (fees (db w)) -> fee_id f <> fp_fee_id payment_data ->
                  In f (fees d')).
Proof.
  intros p u w Hu Hw d'. unfold d'.
  destruct (record_payment_effect p u w)
    as [E | (fee & st & t & F & Hle & _ & E)]; rewrite E;
    [split; [exact Hw | split; [reflexivity | auto]]|].
  simpl. split; [|split].
  - intros f' Hin. simpl in Hin. apply in_map_iff in Hin as (r & <- & Hr).
    destruct (fee_id r =? fp_fee_id p) eqn:Ei; [|apply Hw, Hr].
    apply String.eqb_eq in Ei.
    rewrite (find_key_unique fee_id _ _ fee r Hu F Hr Ei). simpl. exact Hle.
  - rewrite map_map. apply map_ext. intro r.
    destruct (fee_id r =? fp_fee_id p); reflexivity.
  - intros f Hin Hne. apply in_map_iff. exists f. split; [|exact Hin].
    apply String.eqb_neq in Hne. rewrite Hne. reflexivity.
Qed.

Lemma delete_fee_effect (fid : string) (u : TokenPayload) (w : World) :
  db (snd (delete_fee fid u w)) = db w
  \/ exists fee,
       find (fun r => fee_id r =? fid) (fees (db w)) = Some fee
       /\ (amount_paid fee <= 0)%Q
       /\ db (snd (delete_fee fid u w))
          = with_rows fees_t (filter (fun r => negb (fee_id r =? fid)) (fees (db w)))
              (db w).
Proof.
  unfold delete_fee. rewrite try_except_bind.
  destruct (select_by_id_cases fees_t fee_id fid w)
    as [w1 [(D1 & _) [E|[m [E _]]]]]; rewrite E;
    [|left; read_rest; exact D1].
  change (rows fees_t (db w)) with (fees (db w)).
  destruct (find _ (fees (db w))) as [fee|] eqn:F; [|left; read_rest; exact D1].
  destruct (Qgtb (amount_paid fee) 0) eqn:G; [left; read_rest; exact D1|].
  apply Qgtb_false_iff in G.
  rewrite try_except_bind.
  destruct (delete_by_id_effect fees_t fee_id fid w1)
    as [(w2 & E2 & D2) | (x & w2 & E2 & D2)]; rewrite E2;
    [|left; read_rest; congruence].
  right. exists fee. split; [reflexivity|]. split; [exact G|].
  read_rest. rewrite D2, D1. reflexivity.
Qed.

(** X11. [delete_fee] never removes a fee that has payments, nor a fee
    with another id, when fee ids are unique. *)
Theorem delete_fee_spares_paid_fees :
  forall (fid : string) (current_user : TokenPayload) (w : World) (f : fee_row),
    fee_ids_unique (db w) ->
    In f (fees (db w)) ->
    fee_id f <> fid \/ (0 < amount_paid f)%Q ->
    In f (fees (db (snd (delete_fee fid current_user w)))).
Proof.
  intros fid u w f Hu Hin Hor.
  destruct (delete_fee_effect fid u w) as [E | (fee & F & Hle & E)]; rewrite E;
    [exact Hin|].
  simpl. apply filter_In. split; [exact Hin|].
  apply negb_true_iff, String.eqb_neq. intro Heq.
  destruct Hor as [Hne | Hpos]; [exact (Hne Heq)|].
  rewrite (find_key_unique fee_id _ _ fee f Hu F Hin Heq) in Hpos.
  apply (Qlt_not_le _ _ Hpos Hle).
Qed.

(** The two ownership checks the handlers share. *)
Lemma student_check_inv (sid : string) (u : TokenPayload) (e1 e2 : exn) w w' :
  (student <- select_one students_t [eq_opt_str s_user_id (sub u)] ;;
   match student with
   | None => raise e1
   | Some s => if negb (sid =? student_id s) then raise e2 else ret tt
   end) w = (Return tt, w') ->
  db w' = db w
  /\ exists s, In s (students (db w)) /\ s_user_id s = Some (sub u)
               /\ student_id s = sid.
Proof.
  intro H. apply bind_return_inv in H as (st & w1 & E1 & H).
  destruct (select_one_cases students_t [eq_opt_str s_user_id (sub u)] w)
    as [w1' [(D1 & _) [E|[m [E _]]]]]; rewrite E in E1; inversion E1; subst; clear E1.
  change (rows students_t (db w)) with (students (db w)) in H.
  destruct (find _ (students (db w))) as [s|] eqn:F; [|discriminate].
  destruct (sid =? student_id s) eqn:Es; [|discriminate].
  apply ret_inv in H as [_ <-]. split; [exact D1|].
  apply find_some in F as [Hin Hm]. rewrite matches_single in Hm.
  exists s. split; [exact Hin|]. split; [apply eq_opt_str_true, Hm|].
  apply String.eqb_eq in Es. auto.
Qed.

Lemma parent_check_inv (sid : string) (u : TokenPayload) (e1 e2 : exn) w w' :
  (parent <- select_one parents_t [eq_opt_str p_user_id (sub u)] ;;
   match parent with
   | None => raise e1
   | Some p =>
       links <- select_all parent_student_t [eq_str l_parent_id (parent_id p)]
                  None true None ;;
       let student_ids_allowed := map l_student_id links in
       if negb (str_in sid student_ids_allowed) then raise e2 else ret tt
   end) w = (Return tt, w') ->
  db w' = db w
  /\ exists p l,
       In p (parents (db w)) /\ p_user_id p = Some (sub u)
       /\ In l (parent_student (db w)) /\ l_parent_id l = parent_id p
       /\ l_student_id l = sid.
Proof.
  intro H. apply bind_return_inv in H as (pa & w1 & E1 & H).
  destruct (select_one_cases parents_t [eq_opt_str p_user_id (sub u)] w)
    as [w1' [(D1 & _) [E|[m [E _]]]]]; rewrite E in E1; inversion E1; subst; clear E1.
  change (rows parents_t (db w)) with (parents (db w)) in H.
  destruct (find _ (parents (db w))) as [p|] eqn:F; [|discriminate].
  apply bind_return_inv in H as (links & w2 & E2 & H).
  destruct (select_all_cases parent_student_t [eq_str l_parent_id (parent_id p)]
              None true None w1)
    as [w2' [(D2 & _) [E'|[m [E' _]]]]]; rewrite E' in E2; inversion E2; subst;
    clear E2.
  cbv zeta in H.
  destruct (str_in sid _) eqn:Es; [|discriminate].
  apply ret_inv in H as [_ <-]. split; [congruence|].
  apply find_some in F as [Hin Hm]. rewrite matches_single in Hm.
  apply str_in_In, in_map_iff in Es as (l & El & Hl).
  unfold apply_limit in Hl. rewrite D1 in Hl.
  apply filter_In in Hl as [Hl Hml]. rewrite matches_single in Hml.
  exists p, l. split; [exact Hin|]. split; [apply eq_opt_str_true, Hm|].
  split; [exact Hl|]. split; [apply String.eqb_eq, Hml | exact El].
Qed.

(** X12. When [get_fee] answers, the fee is the stored one with that id
    and its student is the caller's to see: a student gets only a fee of
    their own profile, a parent only a fee of a linked child. *)
Theorem get_fee_respects_ownership :
  forall (fid : string) (current_user : TokenPayload) (w w' : World)
         (r : FeeResponse),
    get_fee fid current_user w = (Return r, w') ->
    In (fr_row r) (fees (db w))
    /\ fee_id (fr_row r) = fid
    /\ may_see (db w) current_user (f_student_id (fr_row r)).
Proof.
  intros fid u w w' r H. unfold get_fee in H.
  apply try_except_return_inv in H; [|intros; apply reraise_raises].
  apply bind_return_inv in H as (fe & w1 & E1 & H).
  destruct (select_by_id_cases fees_t fee_id fid w)
    as [w1' [(D1 & _) [E|[m [E _]]]]]; rewrite E in E1; inversion E1; subst; clear E1.
  change (rows fees_t (db w)) with (fees (db w)) in H.
  destruct (find _ (fees (db w))) as [fee|] eqn:F; [|discriminate].
  apply bind_return_inv in H as ([] & w2 & Hauth & H).
  apply bind_return_inv in H as (en & w3 & _ & H).
  apply FeeResponse_call_inv in H as (-> & _ & _). simpl fr_row.
  apply find_some in F as [Hin Hid]. apply String.eqb_eq in Hid.
  split; [exact Hin|]. split; [exact Hid|].
  unfold may_see. destruct (role u); try exact I.
  - apply student_check_inv in Hauth as [_ Hs]. rewrite D1 in Hs. exact Hs.
  - apply parent_check_inv in Hauth as [_ Hp]. rewrite D1 in Hp. exact Hp.
Qed.

Lemma fst_bind_raise {A B} (c : M A) (k : A -> M B) w e :
  fst (bind c k w) = Raise e ->
  (exists w1, c w = (Raise e, w1))
  \/ exists a w1, c w = (Return a, w1) /\ fst (k a w1) = Raise e.
Proof.
  unfold bind. destruct (c w) as [[a|e1] w1]; intro H.
  - right. exists a, w1. split; [reflexivity | exact H].
  - left. exists w1. simpl in H. inversion H. reflexivity.
Qed.

Lemma select_one_raises {R} (T : Table R) fs w e w' :
  select_one T fs w = (Raise e, w') -> exists m, e = Exception m.
Proof.
  destruct (select_one_cases T fs w) as [w1 [_ [E|[m [E _]]]]]; rewrite E;
    intro H; inversion H. eexists. reflexivity.
Qed.

Lemma select_all_raises {R} (T : Table R) fs ob asc lim w e w' :
  select_all T fs ob asc lim w = (Raise e, w') -> exists m, e = Exception m.
Proof.
  destruct (select_all_cases T fs ob asc lim w) as [w1 [_ [E|[m [E _]]]]];
    rewrite E; intro H; inversion H. eexists. reflexivity.
Qed.

(** X13. [get_fees] can fail in three ways only: the 403 of a parent
    asking for a student who is not their child, the gateway's exception
    of a failed profile or link lookup, and an [AttributeError]: a
    failure inside its [try] block never becomes the 500 response the
    handler spells out, because the parameter [status] hides the
    framework's [status]. *)
Theorem get_fees_failures :
  forall (student_id_q : option string) (status : option FeeStatus)
         (academic_year_q : option string) (current_user : TokenPayload)
         (w : World) (e : exn),
    fst (get_fees student_id_q status academic_year_q current_user w) = Raise e ->
    e = HTTPException 403 "Access denied to this student's records"
    \/ (exists m, e = Exception m)
    \/ e = status_attribute_error status.
Proof.
  intros sid st y u w e H. unfold get_fees in H.
  apply fst_bind_raise in H as [[w1 H] | (sc & w1 & _ & H)].
  - destruct (role u); try (inversion H; fail).
    + apply bind_raise_inv in H as [H | (s & w0 & _ & H)].
      * right. left. exact (select_one_raises _ _ _ _ _ H).
      * destruct s; inversion H.
    + apply bind_raise_inv in H as [H | (p & w0 & _ & H)].
      * right. left. exact (select_one_raises _ _ _ _ _ H).
      * destruct p as [p|]; [|inversion H].
        apply bind_raise_inv in H as [H | (links & w2 & _ & H)].
        -- right. left. exact (select_all_raises _ _ _ _ _ _ _ _ H).
        -- cbv zeta in H.
           destruct (negb (truthy_list (map l_student_id links)));
             [inversion H|].
           destruct sid as [sid|]; [|inversion H].
           destruct (truthy_str sid && str_in sid (map l_student_id links));
             [inversion H|].
           destruct (truthy_str sid); inversion H.
           left. reflexivity.
  - destruct sc as [[fs allowed]|]; [|simpl in H; discriminate].
    cbv zeta in H. unfold try_except in H.
    match type of H with
    | fst (match ?c with _ => _ end) = _ => destruct c as [[a|e1] w2]
    end; simpl in H; [discriminate|].
    inversion H. right. right. reflexivity.
Qed.

Lemma get_fees_loop_step (ro : UserRole) (allowed : option (list string))
    (f : fee_row) (fl : list fee_row) :
  get_fees_loop ro allowed (f :: fl) =
    if match allowed with
       | Some al =>
           UserRole_eqb ro PARENT && truthy_list al
           && negb (str_in (f_student_id f) al)
       | None => false
       end
    then get_fees_loop ro allowed fl
    else
      (enriched <- _enrich_fee_response (Some f) ;;
       response <- FeeResponse_call f enriched ;;
       tail <- get_fees_loop ro allowed fl ;;
       ret (response :: tail)).
Proof. reflexivity. Qed.

(** The rows [get_fees_loop] answers with are fetched rows it did not
    skip. *)
Lemma get_fees_loop_return (ro : UserRole) (allowed : option (list string))
    (fl : list fee_row) :
  forall w rs w',
    get_fees_loop ro allowed fl w = (Return rs, w') ->
    forall r, In r rs ->
      In (fr_row r) fl
      /\ match allowed with
         | Some al =>
             UserRole_eqb ro PARENT && truthy_list al
             && negb (str_in (f_student_id (fr_row r)) al)
         | None => false
         end = false.
Proof.
  induction fl as [|f fl IH]; intros w rs w' H r Hr.
  - apply ret_inv in H as [<- _]. destruct Hr.
  - rewrite get_fees_loop_step in H.
    match type of H with
    | (if ?b then _ else _) _ = _ => destruct b eqn:Sk
    end.
    + destruct (IH _ _ _ H r Hr) as [Hin Hs]. split; [right; exact Hin | exact Hs].
    + apply bind_return_inv in H as (en & w1 & _ & H).
      apply bind_return_inv in H as (re & w1' & Ere & H).
      apply FeeResponse_call_inv in Ere as (-> & _ & _).
      apply bind_return_inv in H as (tl & w2 & Etl & H).
      apply ret_inv in H as [<- _]. destruct Hr as [<-|Hr].
      * split; [left; reflexivity | exact Sk].
      * destruct (IH _ _ _ Etl r Hr) as [Hin Hs].
        split; [right; exact Hin | exact Hs].
Qed.

Lemma in_selected {R} (col : R -> Z) (desc : bool) (fs : filters R) (l : list R) x :
  In x (apply_limit None (order_rows col desc (filter (matches fs) l))) ->
  In x l /\ matches fs x = true.
Proof.
  unfold apply_limit. intro H.
  apply (Permutation_in _ (order_perm col desc _)) in H.
  apply filter_In in H. exact H.
Qed.

Lemma matches_cons {R} (f : R -> bool) (fs : filters R) (r : R) :
  matches (f :: fs) r = f r && matches fs r.
Proof. reflexivity. Qed.

Lemma matches_app {R} (fs gs : filters R) (r : R) :
  matches (fs ++ gs) r = matches fs r && matches gs r.
Proof. unfold matches. apply forallb_app. Qed.

(** X14. Every fee [get_fees] answers with is a stored fee whose
    student is the caller's to see, whatever the query parameters and
    whatever the store does: a student gets fees of their own profile
    only, a parent fees of linked children only. *)
Theorem get_fees_respects_ownership :
  forall (student_id_q : option string) (status : option FeeStatus)
         (academic_year_q : option string) (current_user : TokenPayload)
         (w w' : World) (rs : list FeeResponse) (r : FeeResponse),
    get_fees student_id_q status academic_year_q current_user w = (Return rs, w') ->
    In r rs ->
    In (fr_row r) (fees (db w))
    /\ may_see (db w) current_user (f_student_id (fr_row r)).
Proof.
  intros sid st y u w w' rs r H Hr. unfold get_fees in H.
  apply bind_return_inv in H as (sc & w1 & Esc & H).
  destruct sc as [[fs allowed]|]; [|apply ret_inv in H as [<- _]; destruct Hr].
  cbv zeta in H.
  apply try_except_return_inv in H; [|intros; eexists; reflexivity].
  apply bind_return_inv in H as (fl & w2 & Efl & H).
  destruct (get_fees_loop_return _ _ _ _ _ _ H r Hr) as [Hin Hsk].
  assert (Hsel : db w1 = db w ->
                 In (fr_row r) (fees (db w))
                 /\ matches fs (fr_row r) = true).
  { intro D1.
    match type of Efl with
    | select_all fees_t ?g _ _ _ _ = _ =>
        destruct (select_all_cases fees_t g (Some due_date) false None w1)
          as [w2' [_ [E|[m [E _]]]]]; rewrite E in Efl; inversion Efl; subst fl
    end.
    apply in_selected in Hin as [Hin Hm]. rewrite D1 in Hin.
    rewrite matches_app in Hm. apply andb_true_iff in Hm as [Hm _].
    split; [exact Hin | exact Hm]. }
  unfold may_see. destruct (role u) eqn:Ro.
  - apply ret_inv in Esc as [_ <-]. destruct (Hsel eq_refl) as [Hf _].
    split; [exact Hf | exact I].
  - apply ret_inv in Esc as [_ <-]. destruct (Hsel eq_refl) as [Hf _].
    split; [exact Hf | exact I].
  - apply bind_return_inv in Esc as (s & w0 & E0 & Esc).
    destruct (select_one_cases students_t [eq_opt_str s_user_id (sub u)] w)
      as [w0' [(D0 & _) [E|[m [E _]]]]]; rewrite E in E0; inversion E0; subst;
      clear E0.
    change (rows students_t (db w)) with (students (db w)) in Esc.
    destruct (find _ (students (db w))) as [s|] eqn:F;
      apply ret_inv in Esc as [Esc <-]; [|discriminate].
    inversion Esc. subst fs allowed.
    destruct (Hsel D0) as [Hf Hm]. split; [exact Hf|].
    rewrite matches_single in Hm. apply String.eqb_eq in Hm.
    apply find_some in F as [Hs Hms]. rewrite matches_single in Hms.
    exists s. split; [exact Hs|]. split; [apply eq_opt_str_true, Hms | auto].
  - apply bind_return_inv in Esc as (p & w0 & E0 & Esc).
    destruct (select_one_cases parents_t [eq_opt_str p_user_id (sub u)] w)
      as [w0' [(D0 & _) [E|[m [E _]]]]]; rewrite E in E0; inversion E0; subst;
      clear E0.
    change (rows parents_t (db w)) with (parents (db w)) in Esc.
    destruct (find _ (parents (db w))) as [p|] eqn:F;
      [|apply ret_inv in Esc as [Esc _]; discriminate].
    apply bind_return_inv in Esc as (links & w3 & E3 & Esc).
    destruct (select_all_cases parent_student_t [eq_str l_parent_id (parent_id p)]
                None true None w0)
      as [w3' [(D3 & _) [E'|[m [E' _]]]]]; rewrite E' in E3; inversion E3; subst;
      clear E3.
    cbv zeta in Esc.
    match type of Esc with
    | context [map l_student_id ?ls] => set (al := map l_student_id ls) in *
    end.
    destruct (truthy_list al) eqn:Tr; cbn [negb] in Esc;
      [|apply ret_inv in Esc as [Esc _]; discriminate].
    assert (Hal : allowed = Some al /\ db w1 = db w).
    { destruct sid as [sid|].
      - destruct (truthy_str sid && str_in sid al).
        + apply ret_inv in Esc as [Esc <-]. inversion Esc.
          split; [reflexivity | congruence].
        + destruct (truthy_str sid); [discriminate|].
          apply ret_inv in Esc as [Esc <-]. inversion Esc.
          split; [reflexivity | congruence].
      - apply ret_inv in Esc as [Esc <-]. inversion Esc.
        split; [reflexivity | congruence]. }
    destruct Hal as [-> D1]. destruct (Hsel D1) as [Hf _]. split; [exact Hf|].
    rewrite Tr in Hsk. simpl in Hsk. apply negb_false_iff in Hsk.
    apply str_in_In in Hsk. unfold al in Hsk.
    apply in_map_iff in Hsk as (l & El & Hl).
    unfold apply_limit in Hl. rewrite D0 in Hl.
    apply filter_In in Hl as [Hl Hml]. rewrite matches_single in Hml.
    apply find_some in F as [Hp Hmp]. rewrite matches_single in Hmp.
    exists p, l. split; [exact Hp|]. split; [apply eq_opt_str_true, Hmp|].
    split; [exact Hl|]. split; [apply String.eqb_eq, Hml | exact El].
  - apply ret_inv in Esc as [_ <-]. destruct (Hsel eq_refl) as [Hf _].
    split; [exact Hf | exact I].
Qed.

Lemma count_fee_status_partition (l : list fee_row) :
  (count_fee_status PAID l + count_fee_status PENDING l
   + count_fee_status OVERDUE l + count_fee_status PARTIAL l)%nat = length l.
Proof.
  unfold count_fee_status. induction l as [|f l IH]; [reflexivity|].
  simpl. destruct (f_status f); simpl; lia.
Qed.

(** X15. When the store answers, [get_fee_statistics] counts every
    selected fee under exactly one of the four statuses: the counts add
    up to the number of fees of the year asked for (of all fees without
    a year); with no such fee it answers the no-data summary. *)
Theorem get_fee_statistics_counts :
  forall (academic_year_q : option string) (current_user : TokenPayload) (w : World),
    faults w = [] ->
    let selected :=
      filter (fun f => match academic_year_q with
                       | Some y => if truthy_str y then academic_year f =? y else true
                       | None => true
                       end) (fees (db w)) in
    match fst (get_fee_statistics academic_year_q current_user w) with
    | Return (FeeStatistics s) =>
        selected <> []
        /\ (paid_count s + pending_count s + overdue_count s + partial_count s)%nat
           = length selected
    | Return (NoFeeData _) => selected = []
    | Raise _ => False
    end.
Proof.
  intros y u w Hq selected. unfold get_fee_statistics. rewrite try_except_bind.
  rewrite (table_select_quiet fees_t _ w Hq).
  change (rows fees_t (db w)) with (fees (db w)).
  assert (Hs : filter (matches match y with
                                | Some y0 => if truthy_str y0
                                             then [eq_str academic_year y0] else []
                                | None => []
                                end) (fees (db w)) = selected).
  { unfold selected. apply filter_ext. intro f.
    destruct y as [y0|]; [destruct (truthy_str y0)|]; try reflexivity.
    apply (matches_single (eq_str academic_year y0) f). }
  rewrite Hs. destruct selected as [|f l] eqn:Sel; [reflexivity|].
  cbv beta iota delta [truthy_list negb]. unfold try_except, ret.
  cbn [fst paid_count pending_count overdue_count partial_count].
  split; [discriminate | apply count_fee_status_partition].
Qed.

(* --------------------------------------------------------------------- *)
(** ** Leave requests: reading and deleting                               *)
(* --------------------------------------------------------------------- *)

(** X16. When [get_leave_request] answers, the request is the stored
    one with that id and its student is the caller's to see. *)
Theorem get_leave_request_respects_ownership :
  forall (rid : string) (current_user : TokenPayload) (w w' : World)
         (r : LeaveRequestResponse),
    get_leave_request rid current_user w = (Return r, w') ->
    In (lrr_row r) (leave_requests (db w))
    /\ request_id (lrr_row r) = rid
    /\ may_see (db w) current_user (lr_student_id (lrr_row r)).
Proof.
  intros rid u w w' r H. unfold get_leave_request in H.
  apply try_except_return_inv in H; [|intros; apply reraise_raises].
  apply bind_return_inv in H as (rq & w1 & E1 & H).
  destruct (select_by_id_cases leave_requests_t request_id rid w)
    as [w1' [(D1 & _) [E|[m [E _]]]]]; rewrite E in E1; inversion E1; subst; clear E1.
  change (rows leave_requests_t (db w)) with (leave_requests (db w)) in H.
  destruct (find _ (leave_requests (db w))) as [req|] eqn:F; [|discriminate].
  apply bind_return_inv in H as ([] & w2 & Hauth & H).
  apply bind_return_inv in H as (en & w3 & _ & H).
  apply ret_inv in H as [<- _]. simpl lrr_row.
  apply find_some in F as [Hin Hid]. apply String.eqb_eq in Hid.
  split; [exact Hin|]. split; [exact Hid|].
  unfold may_see. destruct (role u); try exact I.
  - apply student_check_inv in Hauth as [_ Hs]. rewrite D1 in Hs. exact Hs.
  - apply parent_check_inv in Hauth as [_ Hp]. rewrite D1 in Hp. exact Hp.
Qed.

Lemma get_leave_requests_loop_step (pf : bool) (allowed : list string)
    (req : leave_row) (rest : list leave_row) :
  get_leave_requests_loop pf allowed (req :: rest) =
    if pf && negb (str_in (lr_student_id req) allowed)
    then get_leave_requests_loop pf allowed rest
    else
      (enriched <- _enrich_leave_response (Some req) ;;
       tail <- get_leave_requests_loop pf allowed rest ;;
       ret (mk_leave_response req enriched :: tail)).
Proof. reflexivity. Qed.

Lemma get_leave_requests_loop_return (pf : bool) (allowed : list string)
    (l : list leave_row) :
  forall w rs w',
    get_leave_requests_loop pf allowed l w = (Return rs, w') ->
    forall r, In r rs ->
      In (lrr_row r) l
      /\ pf && negb (str_in (lr_student_id (lrr_row r)) allowed) = false.
Proof.
  induction l as [|q l IH]; intros w rs w' H r Hr.
  - apply ret_inv in H as [<- _]. destruct Hr.
  - rewrite get_leave_requests_loop_step in H.
    destruct (pf && negb (str_in (lr_student_id q) allowed)) eqn:Sk.
    + destruct (IH _ _ _ H r Hr) as [Hin Hs]. split; [right; exact Hin | exact Hs].
    + apply bind_return_inv in H as (en & w1 & _ & H).
      apply bind_return_inv in H as (tl & w2 & Etl & H).
      apply ret_inv in H as [<- _]. destruct Hr as [<-|Hr].
      * split; [left; reflexivity | exact Sk].
      * destruct (IH _ _ _ Etl r Hr) as [Hin Hs].
        split; [right; exact Hin | exact Hs].
Qed.

(** X17. Every request [get_leave_requests] answers with is a stored
    request whose student is the caller's to see, whatever the query
    parameters and whatever the store does. *)
Theorem get_leave_requests_respects_ownership :
  forall (status : option LeaveStatus) (student_id_q : option string)
         (current_user : TokenPayload) (w w' : World)
         (rs : list LeaveRequestResponse) (r : LeaveRequestResponse),
    get_leave_requests status student_id_q current_user w = (Return rs, w') ->
    In r rs ->
    In (lrr_row r) (leave_requests (db w))
    /\ may_see (db w) current_user (lr_student_id (lrr_row r)).
Proof.
  intros st sid u w w' rs r H Hr. unfold get_leave_requests in H.
  apply try_except_return_inv in H; [|intros; eexists; reflexivity].
  apply bind_return_inv in H as (sc & w1 & Esc & H).
  destruct sc as [[fs allowed]|]; [|apply ret_inv in H as [<- _]; destruct Hr].
  cbv zeta in H.
  apply bind_return_inv in H as (fl & w2 & Efl & H).
  destruct (get_leave_requests_loop_return _ _ _ _ _ _ H r Hr) as [Hin Hsk].
  assert (Hsel : db w1 = db w ->
                 In (lrr_row r) (leave_requests (db w))
                 /\ matches fs (lrr_row r) = true).
  { intro D1.
    match type of Efl with
    | select_all leave_requests_t ?g _ _ _ _ = _ =>
        destruct (select_all_cases leave_requests_t g (Some lr_created_at) false
                    None w1)
          as [w2' [_ [E|[m [E _]]]]]; rewrite E in Efl; inversion Efl; subst fl
    end.
    apply in_selected in Hin as [Hin Hm]. rewrite D1 in Hin.
    rewrite matches_app in Hm. apply andb_true_iff in Hm as [Hm _].
    split; [exact Hin | exact Hm]. }
  unfold may_see. destruct (role u) eqn:Ro.
  - apply ret_inv in Esc as [_ <-]. destruct (Hsel eq_refl) as [Hf _].
    split; [exact Hf | exact I].
  - apply ret_inv in Esc as [_ <-]. destruct (Hsel eq_refl) as [Hf _].
    split; [exact Hf | exact I].
  - apply bind_return_inv in Esc as (s & w0 & E0 & Esc).
    destruct (select_one_cases students_t [eq_opt_str s_user_id (sub u)] w)
      as [w0' [(D0 & _) [E|[m [E _]]]]]; rewrite E in E0; inversion E0; subst;
      clear E0.
    change (rows students_t (db w)) with (students (db w)) in Esc.
    destruct (find _ (students (db w))) as [s|] eqn:F;
      apply ret_inv in Esc as [Esc <-]; [|discriminate].
    inversion Esc. subst fs allowed.
    destruct (Hsel D0) as [Hf Hm]. split; [exact Hf|].
    rewrite matches_single in Hm. apply String.eqb_eq in Hm.
    apply find_some in F as [Hs Hms]. rewrite matches_single in Hms.
    exists s. split; [exact Hs|]. split; [apply eq_opt_str_true, Hms | auto].
  - apply bind_return_inv in Esc as (p & w0 & E0 & Esc).
    destruct (select_one_cases parents_t [eq_opt_str p_user_id (sub u)] w)
      as [w0' [(D0 & _) [E|[m [E _]]]]]; rewrite E in E0; inversion E0; subst;
      clear E0.
    change (rows parents_t (db w)) with (parents (db w)) in Esc.
    destruct (find _ (parents (db w))) as [p|] eqn:F;
      [|apply ret_inv in Esc as [Esc _]; discriminate].
    apply bind_return_inv in Esc as (links & w3 & E3 & Esc).
    destruct (select_all_cases parent_student_t [eq_str l_parent_id (parent_id p)]
                None true None w0)
      as [w3' [(D3 & _) [E'|[m [E' _]]]]]; rewrite E' in E3; inversion E3; subst;
      clear E3.
    cbv zeta in Esc.
    match type of Esc with
    | context [map l_student_id ?ls] => set (al := map l_student_id ls) in *
    end.
    destruct (truthy_list al) eqn:Tr; cbn [negb] in Esc;
      [|apply ret_inv in Esc as [Esc _]; discriminate].
    assert (Hal : db w1 = db w
                  /\ allowed = al
                  /\ (str_in (lr_student_id (lrr_row r)) al = true
                      \/ exists x, fs = [eq_str lr_student_id x]
                                   /\ str_in x al = true)).
    { destruct sid as [sid|].
      - destruct (truthy_str sid) eqn:Ts; cbn [andb] in Esc.
        + destruct (str_in sid al) eqn:Si; [|discriminate].
          apply ret_inv in Esc as [Esc <-]. inversion Esc. subst fs allowed.
          split; [congruence|]. split; [reflexivity|].
          right. exists sid. split; [reflexivity | exact Si].
        + apply ret_inv in Esc as [Esc <-]. inversion Esc. subst fs allowed.
          split; [congruence|]. split; [reflexivity|]. left.
          simpl in Hsk. rewrite Ts in Hsk. simpl in Hsk.
          apply negb_false_iff in Hsk. exact Hsk.
      - apply ret_inv in Esc as [Esc <-]. inversion Esc. subst fs allowed.
        split; [congruence|]. split; [reflexivity|]. left.
        simpl in Hsk. apply negb_false_iff in Hsk. exact Hsk. }
    destruct Hal as (D1 & -> & Hown). destruct (Hsel D1) as [Hf Hm].
    split; [exact Hf|].
    assert (Hin' : In (lr_student_id (lrr_row r)) al).
    { destruct Hown as [Hs | (x & -> & Hx)]; [apply str_in_In, Hs|].
      rewrite matches_single in Hm. apply String.eqb_eq in Hm. rewrite Hm.
      apply str_in_In, Hx. }
    unfold al in Hin'. apply in_map_iff in Hin' as (l & El & Hl).
    unfold apply_limit in Hl. rewrite D0 in Hl.
    apply filter_In in Hl as [Hl Hml]. rewrite matches_single in Hml.
    apply find_some in F as [Hp Hmp]. rewrite matches_single in Hmp.
    exists p, l. split; [exact Hp|]. split; [apply eq_opt_str_true, Hmp|].
    split; [exact Hl|]. split; [apply String.eqb_eq, Hml | exact El].
  - apply ret_inv in Esc as [_ <-]. destruct (Hsel eq_refl) as [Hf _].
    split; [exact Hf | exact I].
Qed.

Lemma parent_scope_quiet (u : TokenPayload) (p : parent_row) (w : World) :
  faults w = [] ->
  parent_of (db w) (sub u) = Some p ->
  select_one parents_t [eq_opt_str p_user_id (sub u)] w = (Return (Some p), w)
  /\ select_all parent_student_t [eq_str l_parent_id (parent_id p)] None true None w
     = (Return (filter (matches [eq_str l_parent_id (parent_id p)])
                  (parent_student (db w))), w).
Proof.
  intros Hq Hp. split.
  - rewrite (select_one_quiet parents_t _ w Hq). unfold parent_of in Hp.
    change (rows parents_t (db w)) with (parents (db w)). rewrite Hp. reflexivity.
  - rewrite (select_all_quiet parent_student_t _ None true None w Hq). reflexivity.
Qed.

(** X18. A parent who asks for a student who is not their child is
    refused with the 403 by [get_fees], but by [get_leave_requests] with
    an [AttributeError]: there the refusal is raised inside the [try]
    block and no failure of that handler is anything else. *)
Theorem get_leave_requests_refusal_is_attribute_error :
  forall (fee_status : option FeeStatus) (academic_year_q : option string)
         (status : option LeaveStatus) (sid : string)
         (current_user : TokenPayload) (p : parent_row) (w : World),
    faults w = [] ->
    role current_user = PARENT ->
    parent_of (db w) (sub current_user) = Some p ->
    children_of (db w) p <> [] ->
    truthy_str sid = true ->
    ~ In sid (children_of (db w) p) ->
    get_fees (Some sid) fee_status academic_year_q current_user w
    = (Raise (HTTPException 403 "Access denied to this student's records"), w)
    /\ get_leave_requests status (Some sid) current_user w
       = (Raise (leave_status_attribute_error status), w)
    /\ forall q u w0 e,
         fst (get_leave_requests status q u w0) = Raise e ->
         e = leave_status_attribute_error status.
Proof.
  intros fst_ y st sid u p w Hq Ro Hp Hne Ts Hni.
  destruct (parent_scope_quiet u p w Hq Hp) as [E1 E2].
  assert (Hsi : str_in sid (children_of (db w) p) = false).
  { destruct (str_in sid (children_of (db w) p)) eqn:Es; [|reflexivity].
    apply str_in_In in Es. contradiction. }
  assert (Htr : truthy_list (children_of (db w) p) = true).
  { destruct (children_of (db w) p); [congruence | reflexivity]. }
  unfold children_of in Hsi, Htr.
  split; [|split].
  - unfold get_fees. rewrite Ro. unfold bind. rewrite E1, E2.
    unfold apply_limit. rewrite Htr, Ts, Hsi. reflexivity.
  - unfold get_leave_requests. rewrite Ro. unfold try_except, bind.
    rewrite E1, E2. unfold apply_limit. rewrite Htr, Ts, Hsi. reflexivity.
  - intros q u0 w0 e H. unfold get_leave_requests, try_except in H.
    match type of H with
    | fst (match ?c with _ => _ end) = _ => destruct c as [[a|e1] w2]
    end; simpl in H; [discriminate|].
    inversion H. reflexivity.
Qed.

Lemma require_admin_passes (u : TokenPayload) (w : World) :
  role_in (role u) [ADMIN; MASTER] = true ->
  require_admin u w = (Return u, w).
Proof. intro H. unfold require_admin. rewrite H. reflexivity. Qed.

(** X19. An administrator's [DELETE] of a stored leave request, when
    the store answers, removes exactly the requests with that id, and
    the same call made again answers 404 and changes nothing. *)
Theorem delete_leave_request_then_gone :
  forall (rid : string) (caller : TokenPayload) (w : World) (r : leave_row),
    faults w = [] ->
    role_in (role caller) [ADMIN; MASTER] = true ->
    In r (leave_requests (db w)) ->
    request_id r = rid ->
    let w' := snd (delete_leave_request_guarded rid caller w) in
    fst (delete_leave_request_guarded rid caller w) = Return tt
    /\ leave_requests (db w')
       = filter (fun x => negb (request_id x =? rid)) (leave_requests (db w))
    /\ delete_leave_request_guarded rid caller w'
       = (Raise (HTTPException 404 "Leave request not found"), w').
Proof.
  intros rid u w r Hq Ha Hin Hid w'.
  assert (Hf : exists x, find (fun x => request_id x =? rid) (leave_requests (db w))
                         = Some x).
  { destruct (find _ (leave_requests (db w))) as [x|] eqn:F; [eexists; reflexivity|].
    rewrite find_none_iff in F. specialize (F r Hin).
    rewrite Hid, String.eqb_refl in F. discriminate. }
  destruct Hf as [x Hf].
  assert (E : delete_leave_request_guarded rid u w =
              (Return tt,
               set_db (with_rows leave_requests_t
                         (filter (fun x => negb (matches [eq_str request_id rid] x))
                            (leave_requests (db w))) (db w)) w)).
  { unfold delete_leave_request_guarded. unfold bind at 1.
    rewrite (require_admin_passes u w Ha). unfold delete_leave_request.
    rewrite try_except_bind, (select_by_id_quiet leave_requests_t _ _ w Hq).
    change (rows leave_requests_t (db w)) with (leave_requests (db w)).
    rewrite Hf. unfold delete_by_id, table_delete. unfold try_except, bind.
    rewrite (execute_quiet w Hq). reflexivity. }
  unfold w'. rewrite E. cbn [fst snd].
  split; [reflexivity|]. split.
  - cbn [db set_db]. simpl. apply filter_ext. intro a. unfold eq_str.
    rewrite andb_true_r. reflexivity.
  - set (w1 := set_db _ w). assert (Hq1 : faults w1 = []) by exact Hq.
    unfold delete_leave_request_guarded. unfold bind at 1.
    rewrite (require_admin_passes u w1 Ha). unfold delete_leave_request.
    rewrite try_except_bind, (select_by_id_quiet leave_requests_t _ _ w1 Hq1).
    assert (Hn : find (fun x => request_id x =? rid) (rows leave_requests_t (db w1))
                 = None).
    { apply find_none_iff. intros a Ha'. unfold w1 in Ha'. simpl in Ha'.
      apply filter_In in Ha' as [_ Ha']. unfold eq_str in Ha'.
      rewrite andb_true_r in Ha'. apply negb_true_iff in Ha'. exact Ha'. }
    rewrite Hn. reflexivity.
Qed.

(* --------------------------------------------------------------------- *)
(** ** Marks: reading, updating, deleting                                 *)
(* --------------------------------------------------------------------- *)

(** X20. When [get_mark] answers, the mark is the stored one with that
    id and its student is the caller's to see. *)
Theorem get_mark_respects_ownership :
  forall (mid : string) (current_user : TokenPayload) (w w' : World)
         (r : MarksResponse),
    get_mark mid current_user w = (Return r, w') ->
    In (mr_row r) (marks (db w))
    /\ mark_id (mr_row r) = mid
    /\ may_see (db w) current_user (m_student_id (mr_row r)).
Proof.
  intros mid u w w' r H. unfold get_mark in H.
  apply try_except_return_inv in H; [|intros; apply reraise_raises].
  apply bind_return_inv in H as (mk & w1 & E1 & H).
  destruct (select_by_id_cases marks_t mark_id mid w)
    as [w1' [(D1 & _) [E|[m [E _]]]]]; rewrite E in E1; inversion E1; subst; clear E1.
  change (rows marks_t (db w)) with (marks (db w)) in H.
  destruct (find _ (marks (db w))) as [mark|] eqn:F; [|discriminate].
  apply bind_return_inv in H as ([] & w2 & Hst & H).
  apply bind_return_inv in H as ([] & w3 & Hpa & H).
  apply bind_return_inv in H as (en & w4 & _ & H).
  apply MarksResponse_call_inv in H as (-> & _ & _). simpl mr_row.
  apply find_some in F as [Hin Hid]. apply String.eqb_eq in Hid.
  split; [exact Hin|]. split; [exact Hid|].
  unfold may_see. destruct (role u); try exact I.
  - cbn [UserRole_eqb] in Hst.
    apply student_check_inv in Hst as [_ Hs]. rewrite D1 in Hs. exact Hs.
  - cbn [UserRole_eqb] in Hst, Hpa. apply ret_inv in Hst as [_ <-].
    apply bind_return_inv in Hpa as (pp & w5 & E5 & Hpa).
    destruct (select_one_cases parents_t [eq_opt_str p_user_id (sub u)] w1)
      as [w5' [(D5 & _) [Ep|[m [Ep _]]]]]; rewrite Ep in E5; inversion E5; subst;
      clear E5.
    rewrite D1 in Hpa. change (rows parents_t (db w)) with (parents (db w)) in Hpa.
    destruct (find _ (parents (db w))) as [p|] eqn:Fp;
      [|apply bind_return_inv in Hpa as (? & ? & Hsub & _); discriminate].
    apply bind_return_inv in Hpa as (p' & w6 & Hsub & Hpa).
    apply ret_inv in Hsub as [<- <-].
    apply bind_return_inv in Hpa as (links & w7 & E7 & Hpa).
    destruct (select_all_cases parent_student_t [eq_str l_parent_id (parent_id p)]
                None true None w5)
      as [w7' [(D7 & _) [E'|[m [E' _]]]]]; rewrite E' in E7; inversion E7; subst;
      clear E7.
    cbv zeta in Hpa.
    destruct (str_in (m_student_id mark) _) eqn:Es; [|discriminate].
    apply str_in_In, in_map_iff in Es as (l & El & Hl).
    unfold apply_limit in Hl. rewrite D5, D1 in Hl.
    apply filter_In in Hl as [Hl Hml]. rewrite matches_single in Hml.
    apply find_some in Fp as [Hp Hmp]. rewrite matches_single in Hmp.
    exists p, l. split; [exact Hp|]. split; [apply eq_opt_str_true, Hmp|].
    split; [exact Hl|]. split; [apply String.eqb_eq, Hml | exact El].
Qed.

Lemma get_marks_loop_step (pf : bool) (ids : list string) (m : mark_row)
    (ml : list mark_row) :
  get_marks_loop pf ids (m :: ml) =
    if pf && negb (str_in (m_student_id m) ids)
    then get_marks_loop pf ids ml
    else
      (enriched <- _enrich_mark_response (Some m) ;;
       response <- MarksResponse_call m enriched ;;
       tail <- get_marks_loop pf ids ml ;;
       ret (response :: tail)).
Proof. reflexivity. Qed.

Lemma get_marks_loop_return (pf : bool) (ids : list string) (l : list mark_row) :
  forall w rs w',
    get_marks_loop pf ids l w = (Return rs, w') ->
    forall r, In r rs ->
      In (mr_row r) l
      /\ pf && negb (str_in (m_student_id (mr_row r)) ids) = false.
Proof.
  induction l as [|q l IH]; intros w rs w' H r Hr.
  - apply ret_inv in H as [<- _]. destruct Hr.
  - rewrite get_marks_loop_step in H.
    destruct (pf && negb (str_in (m_student_id q) ids)) eqn:Sk.
    + destruct (IH _ _ _ H r Hr) as [Hin Hs]. split; [right; exact Hin | exact Hs].
    + apply bind_return_inv in H as (en & w1 & _ & H).
      apply bind_return_inv in H as (re & w1' & Ere & H).
      apply MarksResponse_call_inv in Ere as (-> & _ & _).
      apply bind_return_inv in H as (tl & w2 & Etl & H).
      apply ret_inv in H as [<- _]. destruct Hr as [<-|Hr].
      * split; [left; reflexivity | exact Sk].
      * destruct (IH _ _ _ Etl r Hr) as [Hin Hs].
        split; [right; exact Hin | exact Hs].
Qed.

(** X21. Every mark [get_marks] answers with is a stored mark whose
    student is the caller's to see, whatever the query parameters and
    whatever the store does. *)
Theorem get_marks_respects_ownership :
  forall (student_id_q exam_id_q : option string) (current_user : TokenPayload)
         (w w' : World) (rs : list MarksResponse) (r : MarksResponse),
    get_marks student_id_q exam_id_q current_user w = (Return rs, w') ->
    In r rs ->
    In (mr_row r) (marks (db w))
    /\ may_see (db w) current_user (m_student_id (mr_row r)).
Proof.
  intros sid xid u w w' rs r H Hr. unfold get_marks in H.
  apply bind_return_inv in H as (sc & w1 & Esc & H).
  destruct sc as [[fs allowed]|]; [|apply ret_inv in H as [<- _]; destruct Hr].
  cbv zeta in H.
  apply try_except_return_inv in H; [|intros; eexists; reflexivity].
  apply bind_return_inv in H as (fl & w2 & Efl & H).
  destruct (get_marks_loop_return _ _ _ _ _ _ H r Hr) as [Hin Hsk].
  assert (Hsel : db w1 = db w ->
                 In (mr_row r) (marks (db w)) /\ matches fs (mr_row r) = true).
  { intro D1.
    match type of Efl with
    | select_all marks_t ?g _ _ _ _ = _ =>
        destruct (select_all_cases marks_t g (Some m_created_at) false None w1)
          as [w2' [_ [E|[m [E _]]]]]; rewrite E in Efl; inversion Efl; subst fl
    end.
    apply in_selected in Hin as [Hin Hm]. rewrite D1 in Hin.
    rewrite matches_app in Hm. apply andb_true_iff in Hm as [Hm _].
    split; [exact Hin | exact Hm]. }
  unfold may_see. destruct (role u) eqn:Ro.
  - apply ret_inv in Esc as [_ <-]. destruct (Hsel eq_refl) as [Hf _].
    split; [exact Hf | exact I].
  - apply ret_inv in Esc as [_ <-]. destruct (Hsel eq_refl) as [Hf _].
    split; [exact Hf | exact I].
  - apply bind_return_inv in Esc as (s & w0 & E0 & Esc).
    destruct (select_one_cases students_t [eq_opt_str s_user_id (sub u)] w)
      as [w0' [(D0 & _) [E|[m [E _]]]]]; rewrite E in E0; inversion E0; subst;
      clear E0.
    change (rows students_t (db w)) with (students (db w)) in Esc.
    destruct (find _ (students (db w))) as [s|] eqn:F;
      apply ret_inv in Esc as [Esc <-]; [|discriminate].
    inversion Esc. subst fs allowed.
    destruct (Hsel D0) as [Hf Hm]. split; [exact Hf|].
    rewrite matches_single in Hm. apply String.eqb_eq in Hm.
    apply find_some in F as [Hs Hms]. rewrite matches_single in Hms.
    exists s. split; [exact Hs|]. split; [apply eq_opt_str_true, Hms | auto].
  - apply bind_return_inv in Esc as (p & w0 & E0 & Esc).
    destruct (select_one_cases parents_t [eq_opt_str p_user_id (sub u)] w)
      as [w0' [(D0 & _) [E|[m [E _]]]]]; rewrite E in E0; inversion E0; subst;
      clear E0.
    change (rows parents_t (db w)) with (parents (db w)) in Esc.
    destruct (find _ (parents (db w))) as [p|] eqn:F;
      [|apply ret_inv in Esc as [Esc _]; discriminate].
    apply bind_return_inv in Esc as (links & w3 & E3 & Esc).
    destruct (select_all_cases parent_student_t [eq_str l_parent_id (parent_id p)]
                None true None w0)
      as [w3' [(D3 & _) [E'|[m [E' _]]]]]; rewrite E' in E3; inversion E3; subst;
      clear E3.
    cbv zeta in Esc.
    match type of Esc with
    | context [map l_student_id ?ls] => set (al := map l_student_id ls) in *
    end.
    destruct (truthy_list al) eqn:Tr; cbn [negb] in Esc;
      [|apply ret_inv in Esc as [Esc _]; discriminate].
    assert (Hal : db w1 = db w
                  /\ allowed = al
                  /\ (str_in (m_student_id (mr_row r)) al = true
                      \/ exists x, fs = [eq_str m_student_id x]
                                   /\ str_in x al = true)).
    { destruct sid as [sid|].
      - destruct (truthy_str sid) eqn:Ts; cbn [andb] in Esc.
        + destruct (str_in sid al) eqn:Si; [|discriminate].
          apply ret_inv in Esc as [Esc <-]. inversion Esc. subst fs allowed.
          split; [congruence|]. split; [reflexivity|].
          right. exists sid. split; [reflexivity | exact Si].
        + apply ret_inv in Esc as [Esc <-]. inversion Esc. subst fs allowed.
          split; [congruence|]. split; [reflexivity|]. left.
          simpl in Hsk. rewrite Ts in Hsk. simpl in Hsk.
          apply negb_false_iff in Hsk. exact Hsk.
      - apply ret_inv in Esc as [Esc <-]. inversion Esc. subst fs allowed.
        split; [congruence|]. split; [reflexivity|]. left.
        simpl in Hsk. apply negb_false_iff in Hsk. exact Hsk. }
    destruct Hal as (D1 & -> & Hown). destruct (Hsel D1) as [Hf Hm].
    split; [exact Hf|].
    assert (Hin' : In (m_student_id (mr_row r)) al).
    { destruct Hown as [Hs | (x & -> & Hx)]; [apply str_in_In, Hs|].
      rewrite matches_single in Hm. apply String.eqb_eq in Hm. rewrite Hm.
      apply str_in_In, Hx. }
    unfold al in Hin'. apply in_map_iff in Hin' as (l & El & Hl).
    unfold apply_limit in Hl. rewrite D0 in Hl.
    apply filter_In in Hl as [Hl Hml]. rewrite matches_single in Hml.
    apply find_some in F as [Hp Hmp]. rewrite matches_single in Hmp.
    exists p, l. split; [exact Hp|]. split; [apply eq_opt_str_true, Hmp|].
    split; [exact Hl|]. split; [apply String.eqb_eq, Hml | exact El].
  - apply ret_inv in Esc as [_ <-]. destruct (Hsel eq_refl) as [Hf _].
    split; [exact Hf | exact I].
Qed.

(** The last steps of [update_mark]: nothing happens to the store, or
    the rows with the given id are rewritten. *)
Lemma update_mark_tail (mid : string) (score : option Q)
    (remarks : option (option string)) (w w2 : World) :
  db w2 = db w ->
  (exists x, find (fun r => mark_id r =? mid) (marks (db w)) = Some x) ->
  let rest :=
    try_except
      (updated_mark <- update_by_id marks_t mark_id mid
                         (mark_update_data score remarks) ;;
       um <- subscript updated_mark ;;
       enriched <- _enrich_mark_response (Some um) ;;
       MarksResponse_call um enriched)
      (reraise_http_or_500 "Failed to update mark: ") in
  db (snd (rest w2)) = db w
  \/ db (snd (rest w2))
     = with_rows marks_t
         (map (fun r => if mark_id r =? mid
                        then mark_update_data score remarks r else r)
            (marks (db w)))
         (db w).
Proof.
  intros D2 [x F] rest. unfold rest. rewrite try_except_bind.
  destruct (update_by_id_effect marks_t mark_id mid
              (mark_update_data score remarks) w2)
    as [(w3 & E3 & D3) | (y & w3 & E3 & D3)]; rewrite E3;
    [|left; read_rest; congruence].
  rewrite D2. change (rows marks_t (db w)) with (marks (db w)). rewrite F.
  cbv beta iota delta [option_map].
  right. rewrite try_except_bind. cbv beta iota delta [subscript ret].
  read_rest. rewrite D3, D2. reflexivity.
Qed.

(** What [update_mark] does to the store: nothing, or it rewrites the
    rows with the given id, with a score checked against the exam of the
    row found. *)
Lemma update_mark_effect (mid : string) (mark_data : MarksUpdate)
    (u : TokenPayload) (w : World) :
  db (snd (update_mark mid mark_data u w)) = db w
  \/ exists existing score remarks,
       find (fun r => mark_id r =? mid) (marks (db w)) = Some existing
       /\ match score with
          | Some q =>
              exists e,
                find (fun x => exam_id x =? m_exam_id existing) (exams (db w))
                = Some e
                /\ (q <= inject_Z (max_marks e))%Q
          | None => True
          end
       /\ db (snd (update_mark mid mark_data u w))
          = with_rows marks_t
              (map (fun r => if mark_id r =? mid
                             then mark_update_data score remarks r else r)
                 (marks (db w)))
              (db w).
Proof.
  set (d' := db (snd (update_mark mid mark_data u w))).
  assert (Hd : d' = db (snd (update_mark mid mark_data u w))) by reflexivity.
  clearbody d'. unfold update_mark in Hd. rewrite try_except_bind in Hd.
  destruct (select_by_id_cases marks_t mark_id mid w)
    as [w1 [(D1 & _) [E|[m [E _]]]]]; rewrite E in Hd;
    [|left; rewrite Hd; read_rest; exact D1].
  change (rows marks_t (db w)) with (marks (db w)) in Hd.
  destruct (find (fun r => mark_id r =? mid) (marks (db w))) as [existing|] eqn:F;
    [|left; rewrite Hd; read_rest; exact D1].
  assert (Hx : exists x, Some existing = Some x) by (exists existing; reflexivity).
  rewrite <- F in Hx.
  destruct (mu_marks_scored mark_data) as [value|] eqn:Sc.
  - rewrite try_except_bind in Hd. unfold bind at 1 in Hd.
    destruct (select_by_id_cases exams_t exam_id (m_exam_id existing) w1)
      as [w2 [(D2 & _) [E2|[m [E2 _]]]]]; rewrite E2 in Hd;
      [|left; rewrite Hd; read_rest; congruence].
    rewrite D1 in Hd. change (rows exams_t (db w)) with (exams (db w)) in Hd.
    destruct (find (fun x => exam_id x =? m_exam_id existing) (exams (db w)))
      as [e|] eqn:Fe;
      [|left; rewrite Hd; unfold raise at 1; cbv beta iota; read_rest; congruence].
    destruct value as [q|];
      [|left; rewrite Hd; unfold raise at 1; cbv beta iota; read_rest; congruence].
    destruct (Qgtb q (inject_Z (max_marks e))) eqn:G;
      [left; rewrite Hd; unfold raise at 1; cbv beta iota; read_rest; congruence|].
    apply Qgtb_false_iff in G.
    unfold ret at 1 in Hd. cbv beta iota in Hd.
    assert (D2' : db w2 = db w) by congruence.
    destruct (update_mark_tail mid (Some q) (mu_remarks mark_data) w w2 D2' Hx)
      as [T|T]; [left; rewrite Hd; exact T|].
    right. exists existing, (Some q), (mu_remarks mark_data).
    split; [reflexivity|]. split; [|rewrite Hd; exact T].
    exists e. split; [exact Fe | exact G].
  - destruct (mu_remarks mark_data) as [rm|] eqn:Rm;
      [|left; rewrite Hd; read_rest; exact D1].
    rewrite try_except_bind in Hd. cbv beta iota delta [ret] in Hd.
    destruct (update_mark_tail mid None (Some rm) w w1 D1 Hx)
      as [T|T]; [left; rewrite Hd; exact T|].
    right. exists existing, None, (Some rm).
    split; [reflexivity|]. split; [exact I | rewrite Hd; exact T].
Qed.

Lemma filter_map_length {A} (p : A -> bool) (f : A -> A) (l : list A) :
  (forall x, p (f x) = p x) ->
  length (filter p (map f l)) = length (filter p l).
Proof.
  intro H. induction l as [|x l IH]; simpl; [reflexivity|].
  rewrite H. destruct (p x); simpl; congruence.
Qed.

(** X22. [update_mark] keeps the marks table sound when mark ids are
    unique: afterwards there is still at most one mark per (exam,
    student), no mark exceeds the maximum of its exam, and the mark ids
    are the same, whatever the store does. *)
Theorem update_mark_preserves_invariants :
  forall (mid : string) (mark_data : MarksUpdate) (current_user : TokenPayload)
         (w : World),
    mark_ids_unique (db w) ->
    marks_unique (db w) ->
    marks_bounded (db w) ->
    let d' := db (snd (update_mark mid mark_data current_user w)) in
    marks_unique d' /\ marks_bounded d'
    /\ map mark_id (marks d') = map mark_id (marks (db w)).
Proof.
  intros mid md u w Hk Hu Hb d'. unfold d'.
  destruct (update_mark_effect mid md u w)
    as [E | (existing & score & remarks & F & Hsc & E)]; rewrite E;
    [split; [exact Hu | split; [exact Hb | reflexivity]]|].
  split; [|split].
  - intros eid sid. simpl.
    rewrite filter_map_length; [apply Hu|].
    intro x. destruct (mark_id x =? mid); reflexivity.
  - intros m e Hin Hf. simpl in Hin, Hf.
    apply in_map_iff in Hin as (r & <- & Hr).
    destruct (mark_id r =? mid) eqn:Ei; [|exact (Hb r e Hr Hf)].
    apply String.eqb_eq in Ei.
    pose proof (find_key_unique mark_id _ _ existing r Hk F Hr Ei) as ->.
    simpl in Hf. destruct score as [q|]; simpl.
    + destruct Hsc as (e0 & Fe & Hle). rewrite Fe in Hf. inversion Hf. subst e0.
      exact Hle.
    + exact (Hb existing e Hr Hf).
  - simpl. rewrite map_map. apply map_ext. intro r.
    destruct (mark_id r =? mid); reflexivity.
Qed.

Lemma delete_mark_effect (mid : string) (u : TokenPayload) (w : World) :
  db (snd (delete_mark mid u w)) = db w
  \/ db (snd (delete_mark mid u w))
     = with_rows marks_t (filter (fun r => negb (mark_id r =? mid)) (marks (db w)))
         (db w).
Proof.
  unfold delete_mark. rewrite try_except_bind.
  destruct (select_by_id_cases marks_t mark_id mid w)
    as [w1 [(D1 & _) [E|[m [E _]]]]]; rewrite E;
    [|left; read_rest; exact D1].
  destruct (find _ (rows marks_t (db w))); [|left; read_rest; exact D1].
  rewrite try_except_bind.
  destruct (delete_by_id_effect marks_t mark_id mid w1)
    as [(w2 & E2 & D2) | (x & w2 & E2 & D2)]; rewrite E2;
    [|left; read_rest; congruence].
  right. read_rest. rewrite D2, D1. reflexivity.
Qed.

Lemma filter_filter_length {A} (p q : A -> bool) (l : list A) :
  (length (filter p (filter q l)) <= length (filter p l))%nat.
Proof.
  induction l as [|x l IH]; simpl; [lia|].
  destruct (q x); simpl; destruct (p x); simpl; lia.
Qed.

Lemma delete_mark_preserves (mid : string) (u : TokenPayload) (w : World) :
  (marks_unique (db w) -> marks_unique (db (snd (delete_mark mid u w))))
  /\ (marks_bounded (db w) -> marks_bounded (db (snd (delete_mark mid u w)))).
Proof.
  destruct (delete_mark_effect mid u w) as [E|E]; rewrite E; [split; auto|].
  split.
  - intros Hu eid sid. simpl.
    eapply Nat.le_trans; [apply filter_filter_length | apply Hu].
  - intros Hb m e Hin Hf. simpl in Hin, Hf. apply filter_In in Hin as [Hin _].
    exact (Hb m e Hin Hf).
Qed.

Lemma create_mark_keeps_bound (mark_data : MarksCreate) (u : TokenPayload)
    (w : World) :
  marks_bounded (db w) -> marks_bounded (db (snd (create_mark mark_data u w))).
Proof.
  intro Hb.
  destruct (create_mark_effect mark_data u w)
    as [E | (e & row & Fe & Hle & Fm & Re & Rs & Rm & E)]; rewrite E; [exact Hb|].
  intros m e' Hin Hf. simpl in Hin, Hf. apply in_app_or in Hin as [Hin|[<-|[]]].
  - apply (Hb m e' Hin Hf).
  - rewrite Re in Hf. rewrite Fe in Hf. inversion Hf. subst e'.
    rewrite Rm. exact Hle.
Qed.

Lemma create_mark_keeps_unique (mark_data : MarksCreate) (u : TokenPayload)
    (w : World) :
  marks_unique (db w) -> marks_unique (db (snd (create_mark mark_data u w))).
Proof.
  intro Hu.
  destruct (create_mark_effect mark_data u w)
    as [E | (e & row & Fe & Hle & Fm & Re & Rs & Rm & E)]; rewrite E; [exact Hu|].
  intros eid sid. simpl. apply marks_unique_app; [exact Hu|].
  rewrite Re, Rs. exact Fm.
Qed.

(** X23. No sequence of writes through [create_mark],
    [create_bulk_marks] and [delete_mark] stores a mark above the
    maximum of its exam, whatever the store does in between. *)
Theorem marks_writes_keep_bound :
  forall (calls : list marks_write) (w : World),
    marks_bounded (db w) ->
    marks_bounded (db (run_marks_writes calls w)).
Proof.
  induction calls as [|c calls IH]; intros w Hb; [exact Hb|].
  simpl. apply IH. destruct c as [md u | ml u | mid u]; simpl.
  - apply create_mark_keeps_bound. exact Hb.
  - apply create_bulk_marks_preserves_bound. exact Hb.
  - apply (delete_mark_preserves mid u w). exact Hb.
Qed.

(** X24. A sequence of writes that does not use the bulk create keeps
    at most one mark per (exam, student). *)
Theorem marks_single_writes_keep_unique :
  forall (calls : list marks_write) (w : World),
    existsb is_bulk calls = false ->
    marks_unique (db w) ->
    marks_unique (db (run_marks_writes calls w)).
Proof.
  induction calls as [|c calls IH]; intros w Hn Hu; [exact Hu|].
  simpl in Hn. apply orb_false_iff in Hn as [Hc Hn].
  simpl. apply IH; [exact Hn|]. destruct c as [md u | ml u | mid u]; simpl.
  - apply (create_mark_keeps_unique md u w Hu).
  - discriminate.
  - apply (delete_mark_preserves mid u w). exact Hu.
Qed.

(* --------------------------------------------------------------------- *)
(** ** Attendance: bulk marking, updating, deleting, statistics           *)
(* --------------------------------------------------------------------- *)

Lemma distinct_NoDup (l : list string) : distinct l = true -> NoDup l.
Proof.
  induction l as [|x l IH]; simpl; intro H; [constructor|].
  apply andb_true_iff in H as [Hx Hl]. constructor; [|apply IH, Hl].
  intro Hin. apply str_in_In in Hin. rewrite Hin in Hx. discriminate.
Qed.

Lemma validate_class_members_pure (c : string) (ids : list string)
    (recs : list bulk_record) (w : World) :
  exists o, validate_class_members c ids recs w = (o, w).
Proof.
  induction recs as [|r recs IH]; simpl; [eexists; reflexivity|].
  destruct (negb _); [eexists; reflexivity | exact IH].
Qed.

Lemma record_student_ids_run (recs : list bulk_record) (w : World) :
  record_student_ids recs w = (Return (named_students recs), w)
  \/ exists e, record_student_ids recs w = (Raise e, w).
Proof.
  induction recs as [|r recs IH]; [left; reflexivity|].
  simpl. unfold bind, item. destruct (rec_student_id r) as [s|];
    [|right; eexists; reflexivity].
  cbv beta iota delta [ret].
  destruct IH as [E | [e E]]; rewrite E;
    [left; reflexivity | right; eexists; reflexivity].
Qed.

Lemma bulk_attendance_rows_run (d : date) (recs : list bulk_record) (w : World) :
  (exists ds,
      bulk_attendance_rows d recs w = (Return ds, w)
      /\ forall n t,
           map a_student_id (materialise ds n t) = named_students recs
           /\ forall r, In r (materialise ds n t) -> a_date r = d)
  \/ exists e, bulk_attendance_rows d recs w = (Raise e, w).
Proof.
  induction recs as [|r recs IH].
  - left. exists []. split; [reflexivity|]. intros n t. split; [reflexivity|].
    intros x [].
  - simpl. unfold bind, item. destruct (rec_student_id r) as [s|];
      [|right; eexists; reflexivity].
    cbv beta iota delta [ret].
    destruct (rec_status r) as [st|]; [|right; eexists; reflexivity].
    cbv beta iota delta [ret].
    destruct IH as [(ds & E & H) | [e E]]; rewrite E;
      [|right; eexists; reflexivity].
    left. eexists. split; [reflexivity|]. intros n t.
    destruct (H (S n) t) as [Hm Hd]. split.
    + simpl. rewrite Hm. reflexivity.
    + intros x [<-|Hx]; [reflexivity | exact (Hd x Hx)].
Qed.

(** What [mark_bulk_attendance] does to the store: nothing, or it
    appends one record per named student, all for the given date, none
    of whom had a record that day. *)
Lemma mark_bulk_attendance_effect (b : AttendanceBulkCreate) (u : TokenPayload)
    (w : World) :
  db (snd (mark_bulk_attendance b u w)) = db w
  \/ exists new,
       filter (matches [in_str a_student_id (named_students (attendance_records b));
                        eq_date a_date (ab_date b)])
         (attendance (db w)) = []
       /\ map a_student_id new = named_students (attendance_records b)
       /\ (forall r, In r new -> a_date r = ab_date b)
       /\ db (snd (mark_bulk_attendance b u w))
          = with_rows attendance_t (attendance (db w) ++ new) (db w).
Proof.
  set (d' := db (snd (mark_bulk_attendance b u w))).
  assert (Hd : d' = db (snd (mark_bulk_attendance b u w))) by reflexivity.
  clearbody d'. unfold mark_bulk_attendance in Hd. rewrite try_except_bind in Hd.
  destruct (select_all_cases students_t [eq_opt_str s_class_id (ab_class_id b)]
              None true None w)
    as [w1 [(D1 & _) [E|[m [E _]]]]]; rewrite E in Hd;
    [|left; rewrite Hd; read_rest; exact D1].
  cbv zeta in Hd. rewrite try_except_bind in Hd.
  match type of Hd with
  | context [validate_class_members ?c ?ids ?recs w1] =>
      destruct (validate_class_members_pure c ids recs w1) as [[[]|e] Ev];
        rewrite Ev in Hd
  end; [|left; rewrite Hd; read_rest; exact D1].
  rewrite try_except_bind in Hd.
  destruct (record_student_ids_run (attendance_records b) w1) as [Er | [e Er]];
    rewrite Er in Hd; [|left; rewrite Hd; read_rest; exact D1].
  rewrite try_except_bind in Hd.
  match type of Hd with
  | context [table_select attendance_t ?fs w1] =>
      destruct (table_select_cases attendance_t fs w1)
        as [w2 [(D2 & _) [E2|[m [E2 _]]]]]; rewrite E2 in Hd
  end; [|left; rewrite Hd; read_rest; congruence].
  rewrite D1 in Hd. change (rows attendance_t (db w)) with (attendance (db w)) in Hd.
  destruct (filter _ (attendance (db w))) as [|x xs] eqn:Fx;
    [|left; rewrite Hd; read_rest; congruence].
  cbv beta iota delta [truthy_list] in Hd. rewrite try_except_bind in Hd.
  destruct (bulk_attendance_rows_run (ab_date b) (attendance_records b) w2)
    as [(ds & Eb & Hds) | [e Eb]]; rewrite Eb in Hd;
    [|left; rewrite Hd; read_rest; congruence].
  rewrite try_except_bind in Hd.
  destruct (insert_many_cases attendance_t ds w2)
    as [(w3 & E3 & D3) | (x & w3 & E3 & D3)]; rewrite E3 in Hd;
    [|left; rewrite Hd; read_rest; congruence].
  right. exists (materialise ds (next_id w2) (clock w2)).
  destruct (Hds (next_id w2) (clock w2)) as [Hm Hdt].
  split; [reflexivity|]. split; [exact Hm|]. split; [exact Hdt|].
  rewrite Hd. read_rest. rewrite D3, D2, D1. reflexivity.
Qed.

Lemma count_key_le_1 {R} (key : R -> string) (q : R -> bool) (k : string)
    (l : list R) :
  NoDup (map key l) ->
  (length (filter (fun r => ((key r =? k)%string && q r)%bool) l) <= 1)%nat.
Proof.
  induction l as [|x l IH]; simpl; intro Hn; [lia|].
  inversion Hn as [|? ? Hni Hn']. subst. specialize (IH Hn').
  destruct (key x =? k) eqn:Ek; simpl; [|exact IH].
  assert (Hz : filter (fun r => (key r =? k) && q r) l = []).
  { apply filter_nil_iff. intros y Hy.
    destruct (key y =? k) eqn:Ey; [|reflexivity].
    exfalso. apply Hni. apply String.eqb_eq in Ek, Ey. rewrite Ek, <- Ey.
    apply in_map. exact Hy. }
  rewrite Hz. destruct (q x); simpl; lia.
Qed.

Lemma mark_bulk_attendance_keeps_unique (b : AttendanceBulkCreate)
    (u : TokenPayload) (w : World) :
  distinct (named_students (attendance_records b)) = true ->
  attendance_unique (db w) ->
  attendance_unique (db (snd (mark_bulk_attendance b u w))).
Proof.
  intros Hdist Hu.
  destruct (mark_bulk_attendance_effect b u w) as [E | (new & Hex & Hm & Hdt & E)];
    rewrite E; [exact Hu|].
  intros sid d. simpl. rewrite pair_count_app.
  destruct (filter (same_pair sid d) new) as [|r rs] eqn:Fn.
  - unfold pair_count at 2. rewrite Fn. simpl. specialize (Hu sid d). lia.
  - assert (Hr : In r (filter (same_pair sid d) new)) by (rewrite Fn; left; reflexivity).
    apply filter_In in Hr as [Hr Hsp]. unfold same_pair in Hsp.
    apply andb_true_iff in Hsp as [Hs Hdd].
    apply String.eqb_eq in Hs. apply Z.eqb_eq in Hdd.
    assert (Hold : pair_count sid d (attendance (db w)) = 0%nat).
    { unfold pair_count.
      assert (Hz : filter (same_pair sid d) (attendance (db w)) = []);
        [|rewrite Hz; reflexivity].
      apply filter_nil_iff. intros y Hy.
      destruct (same_pair sid d y) eqn:Sy; [|reflexivity]. exfalso.
      rewrite filter_nil_iff in Hex. specialize (Hex y Hy).
      unfold same_pair in Sy. apply andb_true_iff in Sy as [Sy1 Sy2].
      apply String.eqb_eq in Sy1.
      rewrite matches_cons, matches_single in Hex.
      unfold in_str, eq_date in Hex.
      assert (Hin : str_in (a_student_id y) (named_students (attendance_records b))
                    = true).
      { apply str_in_In. rewrite <- Hm, Sy1, <- Hs. apply in_map. exact Hr. }
      rewrite Hin in Hex. rewrite <- (Hdt r Hr), Hdd in Hex.
      rewrite Sy2 in Hex. discriminate. }
    rewrite Hold. simpl.
    apply (count_key_le_1 a_student_id (fun x => (a_date x =? d)%Z) sid new).
    rewrite Hm. apply distinct_NoDup, Hdist.
Qed.

Lemma update_attendance_effect (aid : string) (st : AttendanceStatus)
    (rm : option string) (u : TokenPayload) (w : World) :
  db (snd (update_attendance aid st rm u w)) = db w
  \/ db (snd (update_attendance aid st rm u w))
     = with_rows attendance_t
         (map (fun r => if attendance_id r =? aid
                        then attendance_update_data st rm r else r)
            (attendance (db w)))
         (db w).
Proof.
  set (d' := db (snd (update_attendance aid st rm u w))).
  assert (Hd : d' = db (snd (update_attendance aid st rm u w))) by reflexivity.
  clearbody d'. unfold update_attendance in Hd. rewrite try_except_bind in Hd.
  destruct (select_by_id_cases attendance_t attendance_id aid w)
    as [w1 [(D1 & _) [E|[m [E _]]]]]; rewrite E in Hd;
    [|left; rewrite Hd; simpl; exact D1].
  destruct (find _ (rows attendance_t (db w))) as [x|];
    [|left; rewrite Hd; simpl; exact D1].
  rewrite try_except_bind in Hd.
  destruct (update_by_id_effect attendance_t attendance_id aid
              (attendance_update_data st rm) w1)
    as [(w2 & E2 & D2) | (y & w2 & E2 & D2)]; rewrite E2 in Hd.
  - right. rewrite Hd. rewrite D1 in D2.
    match goal with
    | |- db (snd (try_except ?c ?h w2)) = _ =>
        assert (R : reads_only (try_except c h))
    end.
    { apply reads_only_try_except; [|intros e; destruct (is_HTTPException e); reads].
      reads. }
    destruct (R w2) as [R1 _]. rewrite R1. exact D2.
  - left. rewrite Hd. destruct (is_HTTPException y); simpl; congruence.
Qed.

Lemma delete_attendance_effect (aid : string) (u : TokenPayload) (w : World) :
  db (snd (delete_attendance aid u w)) = db w
  \/ db (snd (delete_attendance aid u w))
     = with_rows attendance_t
         (filter (fun r => negb (attendance_id r =? aid)) (attendance (db w)))
         (db w).
Proof.
  unfold delete_attendance. rewrite try_except_bind.
  destruct (select_by_id_cases attendance_t attendance_id aid w)
    as [w1 [(D1 & _) [E|[m [E _]]]]]; rewrite E;
    [|left; read_rest; exact D1].
  destruct (find _ (rows attendance_t (db w))); [|left; read_rest; exact D1].
  rewrite try_except_bind.
  destruct (delete_by_id_effect attendance_t attendance_id aid w1)
    as [(w2 & E2 & D2) | (x & w2 & E2 & D2)]; rewrite E2;
    [|left; read_rest; congruence].
  right. read_rest. rewrite D2, D1. reflexivity.
Qed.

(** X25. A sequence of writes through [mark_attendance],
    [mark_bulk_attendance], [update_attendance] and [delete_attendance]
    keeps at most one record per (student, date), whatever the store
    does in between, provided no bulk request names a student twice. *)
Theorem attendance_writes_keep_unique :
  forall (calls : list attendance_write) (w : World),
    forallb names_each_once calls = true ->
    attendance_unique (db w) ->
    attendance_unique (db (run_attendance_writes calls w)).
Proof.
  induction calls as [|c calls IH]; intros w Hn Hu; [exact Hu|].
  simpl in Hn. apply andb_true_iff in Hn as [Hc Hn].
  simpl. apply IH; [exact Hn|].
  destruct c as [a u | b u | aid st rm u | aid u]; simpl.
  - apply mark_attendance_preserves_unique. exact Hu.
  - apply mark_bulk_attendance_keeps_unique; assumption.
  - destruct (update_attendance_effect aid st rm u w) as [E|E]; rewrite E;
      [exact Hu|].
    intros sid d. simpl. unfold pair_count.
    rewrite filter_map_length; [apply Hu|].
    intro x. destruct (attendance_id x =? aid); reflexivity.
  - destruct (delete_attendance_effect aid u w) as [E|E]; rewrite E; [exact Hu|].
    intros sid d. simpl. unfold pair_count.
    eapply Nat.le_trans; [apply filter_filter_length | apply Hu].
Qed.

(** X26. A bulk request that names a student of the class twice, for a
    date on which that student has no record, stores two records for
    that student and date when the store answers: the check against
    existing records does not look inside the request. *)
Theorem mark_bulk_attendance_stores_duplicates :
  forall (class_id : string) (d : date) (r1 r2 : bulk_record) (sid : string)
         (s1 s2 : string) (current_user : TokenPayload) (w : World),
    faults w = [] ->
    rec_student_id r1 = Some sid -> rec_status r1 = Some s1 ->
    rec_student_id r2 = Some sid -> rec_status r2 = Some s2 ->
    (exists s, In s (students (db w)) /\ s_class_id s = Some class_id
               /\ student_id s = sid) ->
    pair_count sid d (attendance (db w)) = 0%nat ->
    let w' := snd (mark_bulk_attendance (mk_attendance_bulk class_id d [r1; r2])
                     current_user w) in
    pair_count sid d (attendance (db w')) = 2%nat
    /\ ~ attendance_unique (db w').
Proof.
  intros c d r1 r2 sid s1 s2 u w Hq H1 H1s H2 H2s (s & Hs & Hc & Hsid) H0 w'.
  assert (Hin : str_in sid
                  (map student_id
                     (filter (matches [eq_opt_str s_class_id c]) (students (db w))))
                = true).
  { apply str_in_In. rewrite <- Hsid. apply in_map. apply filter_In.
    split; [exact Hs|]. rewrite matches_single. unfold eq_opt_str.
    rewrite Hc. apply String.eqb_refl. }
  assert (Hex : filter (matches [in_str a_student_id [sid; sid]; eq_date a_date d])
                  (attendance (db w)) = []).
  { apply filter_nil_iff. intros y Hy.
    unfold pair_count in H0. apply length_zero_iff_nil in H0.
    rewrite filter_nil_iff in H0. specialize (H0 y Hy).
    rewrite matches_cons, matches_single. unfold in_str, eq_date, same_pair in *.
    simpl. destruct (a_student_id y =? sid); simpl in *; [exact H0 | reflexivity]. }
  assert (E : db w' =
              with_rows attendance_t
                (attendance (db w)
                 ++ [mk_attendance (uuid (next_id w)) sid d s1 (rec_remarks r1)
                       (clock w);
                     mk_attendance (uuid (S (next_id w))) sid d s2 (rec_remarks r2)
                       (clock w)])
                (db w)).
  { assert (Hval : forall ids, str_in sid ids = true ->
                      validate_class_members c ids [r1; r2] w = (Return tt, w)).
    { intros ids Hi. simpl. rewrite H1, H2, Hi. reflexivity. }
    assert (Hrec : record_student_ids [r1; r2] w = (Return [sid; sid], w)).
    { simpl. unfold bind, item, ret. rewrite H1, H2. reflexivity. }
    assert (Hrows : bulk_attendance_rows d [r1; r2] w =
                    (Return [fun id created =>
                               mk_attendance id sid d s1 (rec_remarks r1) created;
                             fun id created =>
                               mk_attendance id sid d s2 (rec_remarks r2) created],
                     w)).
    { simpl. unfold bind, item, ret. rewrite H1, H1s, H2, H2s. reflexivity. }
    unfold w', mark_bulk_attendance. cbn [ab_class_id ab_date attendance_records].
    rewrite try_except_bind, (select_all_quiet students_t _ None true None w Hq).
    unfold apply_limit. cbv zeta.
    change (rows students_t (db w)) with (students (db w)).
    rewrite try_except_bind, (Hval _ Hin).
    rewrite try_except_bind, Hrec.
    rewrite try_except_bind, (table_select_quiet attendance_t _ w Hq).
    change (rows attendance_t (db w)) with (attendance (db w)).
    rewrite Hex. cbv beta iota delta [truthy_list].
    rewrite try_except_bind, Hrows.
    unfold insert_many, table_insert, try_except, bind.
    rewrite (execute_quiet w Hq). reflexivity. }
  assert (Hp : pair_count sid d (attendance (db w')) = 2%nat).
  { rewrite E. simpl. rewrite pair_count_app, H0. unfold pair_count, same_pair.
    simpl. rewrite String.eqb_refl, Z.eqb_refl. reflexivity. }
  split; [exact Hp|]. intro Hu. specialize (Hu sid d). lia.
Qed.

Lemma update_by_id_raises {R} (T : Table R) (col : R -> string) v (upd : R -> R)
    w e w' :
  update_by_id T col v upd w = (Raise e, w') -> exists m, e = Exception m.
Proof.
  destruct (update_by_id_cases T col v upd w)
    as [(w1 & E & _) | (m & w1 & E & _)]; rewrite E; intro H; inversion H.
  eexists. reflexivity.
Qed.

Lemma select_by_id_raises {R} (T : Table R) (col : R -> string) v w e w' :
  select_by_id T col v w = (Raise e, w') -> exists m, e = Exception m.
Proof.
  destruct (select_by_id_cases T col v w) as [w1 [_ [E|[m [E _]]]]]; rewrite E;
    intro H; inversion H. eexists. reflexivity.
Qed.

(** X27. [update_attendance] fails in one way only, whatever goes
    wrong, a missing record included: with an [AttributeError], because
    the parameter [status] hides the framework's [status] in both of its
    [raise] statements; it never answers 404 or 500. *)
Theorem update_attendance_failures :
  forall (aid : string) (status : AttendanceStatus) (remarks : option string)
         (current_user : TokenPayload) (w : World) (e : exn),
    fst (update_attendance aid status remarks current_user w) = Raise e ->
    e = attendance_status_attribute_error "HTTP_500_INTERNAL_SERVER_ERROR".
Proof.
  intros aid st rm u w e H. unfold update_attendance, try_except in H.
  match type of H with
  | fst (match ?c with _ => _ end) = _ => destruct c as [[a|e1] w1] eqn:B
  end; [discriminate|].
  assert (Hn : is_HTTPException e1 = false).
  { apply bind_raise_inv in B as [B | (x & w0 & _ & B)].
    - apply select_by_id_raises in B as [m ->]. reflexivity.
    - destruct x as [x|]; [|inversion B; reflexivity].
      apply bind_raise_inv in B as [B | (y & w2 & _ & B)].
      + apply update_by_id_raises in B as [m ->]. reflexivity.
      + apply bind_raise_inv in B as [B | (z & w3 & _ & B)].
        * destruct y; inversion B. reflexivity.
        * apply bind_raise_inv in B as [B | (s & w4 & _ & B)].
          -- apply select_by_id_raises in B as [m ->]. reflexivity.
          -- unfold AttendanceResponse_call in B.
             destruct (AttendanceStatus_of_value (a_status z)); inversion B.
             reflexivity. }
  rewrite Hn in H. simpl in H. inversion H. reflexivity.
Qed.





(* --------------------------------------------------------------------- *)
(** ** The gateway: pages, counts, existence                              *)
(* --------------------------------------------------------------------- *)

Lemma chunks_cover {A} (s : nat) :
  forall (n : nat) (l : list A),
    (length l <= n * s)%nat ->
    flat_map (fun i => firstn s (skipn (i * s) l)) (seq 0 n) = l.
Proof.
  induction n as [|n IH]; intros l Hl.
  - simpl in Hl. destruct l; [reflexivity | simpl in Hl; lia].
  - rewrite <- cons_seq, <- seq_shift. cbn [flat_map]. rewrite flat_map_concat_map.
    rewrite map_map. rewrite <- flat_map_concat_map.
    rewrite (flat_map_ext _ (fun i => firstn s (skipn (i * s) (skipn s l)))).
    + rewrite IH; [apply firstn_skipn|]. rewrite length_skipn. simpl in Hl. lia.
    + intro i. rewrite skipn_skipn. f_equal. f_equal. simpl. lia.
Qed.

Lemma table_select_window_quiet {R} (T : Table R) fs ob desc off lim w :
  faults w = [] ->
  table_select_window T fs ob desc off lim w =
    (Return (firstn lim
               (skipn off
                  match ob with
                  | Some col => order_rows col desc (filter (matches fs) (rows T (db w)))
                  | None => filter (matches fs) (rows T (db w))
                  end),
             length (filter (matches fs) (rows T (db w)))), w).
Proof.
  intro H. unfold table_select_window. unfold bind, get_world, ret.
  rewrite (execute_quiet w H). reflexivity.
Qed.

Lemma paginate_quiet {R} (T : Table R) (page page_size : positive) fs ob asc w :
  faults w = [] ->
  let sel := filter (matches fs) (rows T (db w)) in
  let ordered := match ob with
                 | Some col => order_rows col (negb asc) sel
                 | None => sel
                 end in
  paginate T page page_size fs ob asc w =
    (Return
       (mk_page
          (firstn (Pos.to_nat page_size)
             (skipn ((Pos.to_nat page - 1) * Pos.to_nat page_size) ordered))
          (length sel) page page_size
          (if (0 <? length sel)%nat
           then ((length sel + Pos.to_nat page_size - 1) / Pos.to_nat page_size)%nat
           else 0%nat)), w).
Proof.
  intros H sel ordered. unfold paginate. rewrite try_except_bind.
  rewrite (table_select_window_quiet T fs ob (negb asc) _ _ w H).
  unfold try_except, ret. cbn [fst snd].
  replace ((Pos.to_nat page - 1) * Pos.to_nat page_size + Pos.to_nat page_size - 1
           - (Pos.to_nat page - 1) * Pos.to_nat page_size + 1)%nat
    with (Pos.to_nat page_size) by lia.
  reflexivity.
Qed.

Lemma pages_enough (c s : nat) :
  (0 < s)%nat ->
  (c <= (if (0 <? c)%nat then (c + s - 1) / s else 0) * s)%nat.
Proof.
  intro Hs. destruct (0 <? c)%nat eqn:Hc.
  - pose proof (Nat.div_mod_eq (c + s - 1) s) as Hd.
    pose proof (Nat.mod_upper_bound (c + s - 1) s ltac:(lia)) as Hm.
    nia.
  - apply Nat.ltb_ge in Hc. lia.
Qed.

(** X29. When the store answers, the pages of [paginate] from 1 to the
    number of pages it reports, put one after the other, are exactly the
    ordered selection: no row is left out or given twice; and no page
    holds more than [page_size] rows. *)
Theorem paginate_pages_cover :
  forall {R} (T : Table R) (page_size : positive) (fs : filters R)
         (order_by : option (R -> Z)) (ascending : bool) (w : World),
    faults w = [] ->
    let sel := filter (matches fs) (rows T (db w)) in
    let ordered := match order_by with
                   | Some col => order_rows col (negb ascending) sel
                   | None => sel
                   end in
    flat_map (fun i => page_rows T (Pos.of_succ_nat i) page_size fs order_by
                         ascending w)
      (seq 0 (pages_reported T 1%positive page_size fs order_by ascending w))
    = ordered
    /\ forall page,
         (length (page_rows T page page_size fs order_by ascending w)
          <= Pos.to_nat page_size)%nat.
Proof.
  intros R T size fs ob asc w Hq sel ordered.
  assert (Hlen : length ordered = length sel).
  { unfold ordered. destruct ob as [col|]; [|reflexivity].
    apply Permutation_length, order_perm. }
  split.
  - unfold pages_reported. rewrite (paginate_quiet T 1%positive size fs ob asc w Hq).
    cbn [fst pg_total_pages]. fold sel.
    rewrite (flat_map_ext _
               (fun i => firstn (Pos.to_nat size)
                           (skipn (i * Pos.to_nat size) ordered))).
    + apply chunks_cover. rewrite Hlen. apply pages_enough. lia.
    + intro i. unfold page_rows.
      rewrite (paginate_quiet T (Pos.of_succ_nat i) size fs ob asc w Hq).
      cbn [fst pg_data]. fold sel. fold ordered.
      rewrite SuccNat2Pos.id_succ. f_equal. f_equal. lia.
  - intro page. unfold page_rows.
    rewrite (paginate_quiet T page size fs ob asc w Hq). cbn [fst pg_data].
    apply firstn_le_length.
Qed.

(** X30. When the store answers, [exists] and [count] agree with each
    other and with [select_all]: [exists] holds exactly when the count
    is positive, and the count is the number of rows [select_all]
    returns without a limit; none of the three changes the store. *)
Theorem exists_agrees_with_count :
  forall {R} (T : Table R) (fs : filters R) (w : World),
    faults w = [] ->
    exists (b : bool) (n : nat) (l : list R),
      exists_ T fs w = (Return b, w)
      /\ count T fs w = (Return n, w)
      /\ select_all T fs None true None w = (Return l, w)
      /\ n = length l
      /\ b = (0 <? n)%nat.
Proof.
  intros R T fs w Hq. unfold exists_, count.
  rewrite !try_except_bind, (table_select_quiet T fs w Hq),
    (table_select_window_quiet T fs None false 0 0 w Hq),
    (select_all_quiet T fs None true None w Hq).
  unfold try_except, ret, apply_limit. cbn [fst snd].
  do 3 eexists. repeat split.
  destruct (filter (matches fs) (rows T (db w))); reflexivity.
Qed.

End Further.

(* ===================================================================== *)
(** * Concrete runs                                                       *)
(* ===================================================================== *)

#[local] Existing Instance exact_platform.

(** *** Fee payments *)

Lemma record_payment_rejects_overpayment_run :
  hd None (faults calm) = None
  /\ find (fun f => fee_id f =? "f1") (fees (db calm)) = Some fee_ann
  /\ (amount fee_ann < float_add (amount_paid fee_ann) 70)%Q
  /\ fst (record_payment (mk_fee_payment "f1" 70 "cash" None) an_admin calm) =
       Raise (HTTPException 400 (overpayment_detail 70 60))
  /\ db (snd (record_payment (mk_fee_payment "f1" 70 "cash" None) an_admin calm))
     = db calm
  /\ faults (snd (record_payment (mk_fee_payment "f1" 70 "cash" None) an_admin calm))
     = tl (faults calm).
Proof.
  assert (H1 : hd None (faults calm) = None) by reflexivity.
  assert (H2 : find (fun f => fee_id f =? "f1") (fees (db calm)) = Some fee_ann)
    by reflexivity.
  assert (H3 : (amount fee_ann < float_add (amount_paid fee_ann) 70)%Q)
    by (vm_compute; reflexivity).
  split; [exact H1|]. split; [exact H2|]. split; [exact H3|].
  exact (record_payment_rejects_overpayment
           (mk_fee_payment "f1" 70 "cash" None) an_admin calm fee_ann H1 H2 H3).
Defined.

(** C1, refuted as stated: with Python's arithmetic a payment of 2.5
    against a balance of 2 is accepted, because 2^53 + 2.5 rounds to
    2^53 + 2, which does not exceed the amount; the fee is stored as paid
    in full. *)
Lemma record_payment_accepts_overpayment :
  find (fun f => fee_id f =? fp_fee_id a_payment_of_two_and_a_half)
    (fees (db endowed)) = Some fee_endowment
  /\ (amount fee_endowment
      < amount_paid fee_endowment + fp_amount_paid a_payment_of_two_and_a_half)%Q
  /\ fst (record_payment (platform := binary64_platform)
            a_payment_of_two_and_a_half an_admin endowed)
     = Return (mk_fee_response
                 (mk_fee "f9" "s3" 9007199254740994 "endowment" 40%Z PAID "2024"
                    9007199254740994 (Some 1000%Z) (Some "transfer") None 0%Z)
                 (Some "Cat") 0)
  /\ map (fun f => (fee_id f, amount_paid f, f_status f))
       (fees (db (snd (record_payment (platform := binary64_platform)
                         a_payment_of_two_and_a_half an_admin endowed))))
     = [("f1", 40, PENDING); ("f2", 0, PENDING); ("f3", 0, PENDING);
        ("f9", 9007199254740994, PAID)].
Proof.
  split; [reflexivity|]. split; [reflexivity|].
  split; vm_compute; reflexivity.
Qed.

(** *** Leave requests *)

(** C2, refuted as stated: an admin who sends [status = approved] gets a
    request that is stored as approved, not pending. *)
Lemma create_leave_request_stores_approved :
  fst (create_leave_request approved_request an_admin calm)
    = Return (mk_leave_response approved_row (Some "Ann"))
  /\ leave_requests (db (snd (create_leave_request approved_request an_admin calm)))
     = [leave_ann; approved_row]
  /\ lr_status approved_row <> LEAVE_PENDING.
Proof.
  split; [vm_compute; reflexivity|]. split; [vm_compute; reflexivity|].
  discriminate.
Qed.

Lemma create_leave_request_keeps_supplied_status_run :
  create_leave_request approved_request an_admin calm
    = (Return (mk_leave_response approved_row (Some "Ann")),
       snd (create_leave_request approved_request an_admin calm))
  /\ leave_requests (db (snd (create_leave_request approved_request an_admin calm)))
     = leave_requests (db calm) ++ [approved_row]
  /\ lr_status approved_row = APPROVED.
Proof.
  assert (H : create_leave_request approved_request an_admin calm
              = (Return (mk_leave_response approved_row (Some "Ann")),
                 snd (create_leave_request approved_request an_admin calm)))
    by (vm_compute; reflexivity).
  split; [exact H|].
  exact (create_leave_request_keeps_supplied_status "s1" 40%Z 41%Z "trip"
           (Some APPROVED) an_admin calm _ _ H).
Defined.

(** C3, refuted as stated: a teacher moves an approved request to
    rejected, and back to pending. *)
Lemma put_leave_request_changes_approved :
  map lr_status (leave_requests (db calm)) = [APPROVED]
  /\ map lr_status
       (leave_requests
          (db (snd (put_leave_request "r1" (mk_leave_update REJECTED None)
                      a_teacher calm)))) = [REJECTED]
  /\ map lr_status
       (leave_requests
          (db (snd (put_leave_request "r1" (mk_leave_update LEAVE_PENDING None)
                      a_teacher calm)))) = [LEAVE_PENDING].
Proof. repeat split; vm_compute; reflexivity. Qed.

Lemma put_leave_request_sets_any_status_run :
  faults calm = []
  /\ find (fun x => request_id x =? "r1") (leave_requests (db calm)) = Some leave_ann
  /\ (exists name,
        fst (put_leave_request "r1" (mk_leave_update REJECTED None) a_teacher calm)
        = Return (mk_leave_response
                    (leave_update_dict (mk_leave_update REJECTED None) (clock calm)
                       leave_ann) name))
  /\ leave_requests
       (db (snd (put_leave_request "r1" (mk_leave_update REJECTED None)
                   a_teacher calm)))
     = map (fun x => if request_id x =? "r1"
                     then leave_update_dict (mk_leave_update REJECTED None)
                            (clock calm) x
                     else x)
         (leave_requests (db calm))
  /\ lr_status (leave_update_dict (mk_leave_update REJECTED None) (clock calm)
                  leave_ann) = REJECTED.
Proof.
  assert (H1 : faults calm = []) by reflexivity.
  assert (H2 : find (fun x => request_id x =? "r1") (leave_requests (db calm))
               = Some leave_ann) by reflexivity.
  split; [exact H1|]. split; [exact H2|].
  exact (put_leave_request_sets_any_status "r1" (mk_leave_update REJECTED None)
           a_teacher calm leave_ann H1 H2).
Defined.

(** *** Registration *)

(** C4, the divergence. A registration that asks for the role admin is
    served by the earlier definition: one row is appended, its stored
    role is "admin" and the returned role is [ADMIN].  The later
    definition of [register_user], run on the same request, stores
    "student" and returns [STUDENT]. *)
Theorem post_register_keeps_requested_role :
  uc_role eve = ADMIN
  /\ fst (post_register eve calm)
     = Return (mk_user_response "id-0" "eve@school.example" ADMIN true 1000%Z)
  /\ users (db (snd (post_register eve calm)))
     = users (db calm)
       ++ [mk_user "id-0" "eve@school.example" (hash_password "password1") "admin"
             true 1000%Z]
  /\ fst (register_user eve calm)
     = Return (mk_user_response "id-0" "eve@school.example" STUDENT true 1000%Z)
  /\ map u_role (users (db (snd (register_user eve calm)))) = ["admin"; "student"].
Proof. repeat split; vm_compute; reflexivity. Qed.

Lemma register_user_forces_student_run :
  faults calm = []
  /\ (forall u, In u (users (db calm)) -> u_email u <> uc_email eve)
  /\ fst (register_user eve calm)
     = Return (mk_user_response "id-0" "eve@school.example" STUDENT true 1000%Z)
  /\ users (db (snd (register_user eve calm)))
     = users (db calm)
       ++ [mk_user "id-0" "eve@school.example" (hash_password "password1") "student"
             true 1000%Z]
  /\ u_role (mk_user "id-0" "eve@school.example" (hash_password "password1") "student"
               true 1000%Z) = UserRole_value STUDENT.
Proof.
  assert (H1 : faults calm = []) by reflexivity.
  assert (H2 : forall u, In u (users (db calm)) -> u_email u <> uc_email eve).
  { intros u [<-|[]]. simpl. discriminate. }
  split; [exact H1|]. split; [exact H2|].
  exact (register_user_forces_student eve calm H1 H2).
Defined.

(** *** Fees as a parent sees them *)

(** C6, refuted as stated: a fee of amount 0 for one of the children is
    none that [FeeResponse] admits; the list is not returned, and the
    [except] clause, whose [status] is the absent query parameter, ends
    in an [AttributeError]. *)
Lemma get_fees_parent_zero_amount :
  role lee = PARENT
  /\ faults waiver = []
  /\ parent_of (db waiver) (sub lee) = Some mrs_lee
  /\ children_of (db waiver) mrs_lee = ["s1"; "s2"]
  /\ In fee_waived (fees (db waiver))
  /\ fst (get_fees None None None lee waiver)
     = Raise (AttributeError
                "'NoneType' object has no attribute 'HTTP_500_INTERNAL_SERVER_ERROR'")
  /\ forall l, fst (get_fees None None None lee waiver) <> Return l.
Proof.
  split; [reflexivity|]. split; [reflexivity|]. split; [reflexivity|].
  split; [reflexivity|]. split; [simpl; tauto|].
  assert (H : fst (get_fees None None None lee waiver)
              = Raise (AttributeError
                         "'NoneType' object has no attribute 'HTTP_500_INTERNAL_SERVER_ERROR'"))
    by (vm_compute; reflexivity).
  split; [exact H|]. intros l E. rewrite H in E. discriminate E.
Qed.

Lemma calm_fees_positive :
  fees_positive (db calm) (children_of (db calm) mrs_lee).
Proof.
  intros f Hf _. simpl in Hf.
  destruct Hf as [<-|[<-|[<-|[]]]]; reflexivity.
Qed.

Lemma get_fees_parent_children_only_run :
  role lee = PARENT
  /\ faults calm = []
  /\ parent_of (db calm) (sub lee) = Some mrs_lee
  /\ children_of (db calm) mrs_lee <> []
  /\ fees_positive (db calm) (children_of (db calm) mrs_lee)
  /\ exists l,
       get_fees None None None lee calm = (Return l, calm)
       /\ Permutation (map fr_row l)
            (filter (fun f => str_in (f_student_id f) (children_of (db calm) mrs_lee))
               (fees (db calm)))
       /\ (forall f, In f (map fr_row l) <->
                     In f (fees (db calm))
                     /\ In (f_student_id f) (children_of (db calm) mrs_lee)).
Proof.
  assert (H1 : role lee = PARENT) by reflexivity.
  assert (H2 : faults calm = []) by reflexivity.
  assert (H3 : parent_of (db calm) (sub lee) = Some mrs_lee) by reflexivity.
  assert (H4 : children_of (db calm) mrs_lee <> []) by (simpl; discriminate).
  assert (H5 : fees_positive (db calm) (children_of (db calm) mrs_lee))
    by exact calm_fees_positive.
  split; [exact H1|]. split; [exact H2|]. split; [exact H3|]. split; [exact H4|].
  split; [exact H5|].
  exact (get_fees_parent_children_only lee calm mrs_lee H1 H2 H3 H4 H5).
Defined.

(** *** 500 responses *)



(** The two kinds of answer, run: a failure inside the [try] of
    [get_marks] reaches the client with the store's text; a failure of
    the parent's profile lookup, before the [try], reaches it as the
    server's fixed text. *)
Lemma get_marks_store_failure_replies :
  client_reply (fst (get_marks None None an_admin
                       (failing "permission denied for table marks")))
    = Some (500%Z,
            "Failed to retrieve marks: Failed to select from marks: permission denied for table marks")
  /\ fst (get_marks None None lee (failing "permission denied for table parents"))
     = Raise (Exception
                "Failed to select from parents: permission denied for table parents")
  /\ client_reply (fst (get_marks None None lee
                          (failing "permission denied for table parents")))
     = Some (500%Z, "Internal Server Error").
Proof. repeat split; vm_compute; reflexivity. Qed.

(** *** Attendance *)

Lemma mark_attendance_at_most_one_per_day_run :
  attendance_unique (db calm)
  /\ attendance_unique (db marked_twice)
  /\ pair_count "s1" 77%Z (attendance (db marked_twice)) = 1%nat
  /\ db (snd (mark_attendance ann_present a_teacher marked_twice)) = db marked_twice
  /\ fst (mark_attendance ann_present a_teacher marked_twice)
     = Raise (HTTPException 400 "Attendance already marked for this date").
Proof.
  assert (H : attendance_unique (db calm)).
  { intros sid d. unfold pair_count. simpl. lia. }
  destruct (mark_attendance_at_most_one_per_day
              [(ann_present, a_teacher); (ann_present, a_teacher)] calm H)
    as [U R].
  assert (P : (0 < pair_count (ac_student_id ann_present) (ac_date ann_present)
                     (attendance (db marked_twice)))%nat)
    by (vm_compute; lia).
  destruct (R ann_present a_teacher P) as [D F].
  split; [exact H|]. split; [exact U|]. split; [reflexivity|].
  split; [exact D | exact (F eq_refl)].
Defined.

(** *** Tokens *)

(** C9, refuted as stated: a token signed by the service, not expired
    and carrying sub and role claims is not accepted when its role is no
    value of the enum, when it has no expiry, or when its expiry lies
    beyond what [datetime] holds; the refresh endpoint then answers 401
    instead of fresh tokens. *)
Lemma verify_token_rejects_signed_tokens :
  verify_token
    (Signed SECRET_KEY ALGORITHM
       (mk_claims (Some "u-tea") (Some "headmaster") (Some 4600%Z) (Some "access")))
    calm
  = (Raise (ValueError "'headmaster' is not a valid UserRole"), calm)
  /\ verify_token
       (Signed SECRET_KEY ALGORITHM
          (mk_claims (Some "u-tea") (Some "teacher") None (Some "access")))
       calm
     = (Raise (TypeError "'NoneType' object cannot be interpreted as an integer"), calm)
  /\ verify_token
       (Signed SECRET_KEY ALGORITHM
          (mk_claims (Some "u-tea") (Some "teacher") (Some 1000000000000%Z)
             (Some "access")))
       calm
     = (Raise (ValueError "year 33658 is out of range"), calm)
  /\ refresh_token
       (Signed SECRET_KEY ALGORITHM
          (mk_claims (Some "u-tea") (Some "headmaster") (Some 4600%Z) (Some "access")))
       calm
     = (Raise (HTTPException 401 "Invalid refresh token"), calm).
Proof. repeat split; vm_compute; reflexivity. Qed.

Lemma verify_token_ignores_type_run :
  UserRole_of_value "teacher" = Some TEACHER
  /\ (clock calm <= 4600)%Z
  /\ fromtimestamp_fails 4600%Z = None
  /\ verify_token
       (Signed SECRET_KEY ALGORITHM
          (mk_claims (Some "u-tea") (Some "teacher") (Some 4600%Z) (Some "access")))
       calm
     = (Return (mk_payload "u-tea" TEACHER 4600%Z), calm)
  /\ refresh_token
       (Signed SECRET_KEY ALGORITHM
          (mk_claims (Some "u-tea") (Some "teacher") (Some 4600%Z) (Some "access")))
       calm
     = (Return (mk_token
                  (Signed SECRET_KEY ALGORITHM
                     (mk_claims (Some "u-tea") (Some "teacher") (Some 4600%Z)
                        (Some "access")))
                  (Signed SECRET_KEY ALGORITHM
                     (mk_claims (Some "u-tea") (Some "teacher") (Some 605800%Z)
                        (Some "refresh")))
                  "bearer" 3600%Z), calm).
Proof.
  assert (H1 : UserRole_of_value "teacher" = Some TEACHER) by reflexivity.
  assert (H2 : (clock calm <= 4600)%Z) by (simpl; lia).
  assert (H3 : fromtimestamp_fails 4600%Z = None) by reflexivity.
  split; [exact H1|]. split; [exact H2|]. split; [exact H3|].
  exact (verify_token_ignores_type "u-tea" "teacher" TEACHER 4600%Z (Some "access")
           calm H1 H2 H3).
Defined.

(** *** Reading one mark *)

Lemma get_mark_parent_without_profile_run :
  role orphan_parent = PARENT
  /\ (forall p, In p (parents (db calm)) -> p_user_id p <> Some (sub orphan_parent))
  /\ find (fun m => mark_id m =? "m1") (marks (db calm)) = Some mark_ann
  /\ faults calm = []
  /\ get_mark "m1" orphan_parent calm
     = (Raise (HTTPException 500
                 "Failed to retrieve mark: 'NoneType' object is not subscriptable"),
        calm).
Proof.
  assert (H1 : role orphan_parent = PARENT) by reflexivity.
  assert (H2 : forall p, In p (parents (db calm)) ->
                         p_user_id p <> Some (sub orphan_parent)).
  { intros p [<-|[]]. simpl. discriminate. }
  assert (H3 : find (fun m => mark_id m =? "m1") (marks (db calm)) = Some mark_ann)
    by reflexivity.
  split; [exact H1|]. split; [exact H2|]. split; [exact H3|].
  split; [reflexivity|].
  exact (proj2 (get_mark_parent_without_profile "m1" orphan_parent calm mark_ann
                  H1 H2 H3) eq_refl).
Defined.

(** *** Bulk creation of marks *)

(** C5, where the code departs from it: [create_bulk_marks] inserts two
    marks for the same (exam, student) in one upload, and one more for a
    pair that already has a mark, while [create_mark] rejects that same
    record as a duplicate. *)
Theorem create_bulk_marks_inserts_duplicates :
  map exam_student (marks (db calm)) = [("e1", "s1")]
  /\ fst (create_bulk_marks [bob_55; bob_60; ann_10] a_teacher calm)
     = Return (mk_bulk_result "Bulk marks processed." 3 [])
  /\ map exam_student
       (marks (db (snd (create_bulk_marks [bob_55; bob_60; ann_10] a_teacher calm))))
     = [("e1", "s1"); ("e1", "s2"); ("e1", "s2"); ("e1", "s1")]
  /\ fst (create_mark ann_10 a_teacher calm)
     = Raise (HTTPException 400 "Marks for this student and exam already exist.").
Proof. repeat split; vm_compute; reflexivity. Qed.

(* --------------------------------------------------------------------- *)
(** ** Runs of the further properties                                     *)
(* --------------------------------------------------------------------- *)

#[local] Existing Instance plain_passlib.

Lemma calm_fee_ids_unique : fee_ids_unique (db calm).
Proof.
  unfold fee_ids_unique. simpl. repeat constructor; simpl; intuition discriminate.
Qed.

Lemma calm_fees_within : fees_within (db calm).
Proof. intros f [<-|[<-|[<-|[]]]]; vm_compute; discriminate. Qed.

Lemma calm_marks_unique : marks_unique (db calm).
Proof.
  intros eid sid. simpl. destruct (same_exam_student eid sid mark_ann); simpl; lia.
Qed.

Lemma calm_marks_bounded : marks_bounded (db calm).
Proof.
  intros m e [<-|[]] Hf. simpl in Hf. inversion Hf. vm_compute. discriminate.
Qed.

Lemma term_attendance_unique : attendance_unique (db term).
Proof.
  intros sid d. unfold pair_count. simpl.
  destruct (same_pair sid d attendance_ann); simpl; lia.
Qed.

(** *** Tokens and guards *)

Lemma issued_tokens_live_until_expiry_run :
  UserRole_of_value "admin" = Some ADMIN
  /\ exists access refresh,
       create_access_token (mk_claims (Some "u-adm") (Some "admin") None None) None calm
       = (Return access, calm)
       /\ create_refresh_token (mk_claims (Some "u-adm") (Some "admin") None None) calm
          = (Return refresh, calm)
       /\ verify_token access calm = (Return (mk_payload "u-adm" ADMIN 4600%Z), calm)
       /\ verify_token refresh calm = (Return (mk_payload "u-adm" ADMIN 605800%Z), calm).
Proof.
  assert (H1 : UserRole_of_value "admin" = Some ADMIN) by reflexivity.
  split; [exact H1|].
  exact (issued_tokens_live_until_expiry "u-adm" "admin" ADMIN calm calm H1).
Defined.

Lemma verify_token_refuses_forged_run :
  ("another key" <> SECRET_KEY \/ "HS256" <> ALGORITHM)
  /\ verify_token
       (Signed "another key" "HS256"
          (mk_claims (Some "u-adm") (Some "admin") (Some 4600%Z) (Some "access")))
       calm
     = (Raise (HTTPException 401 "Could not validate credentials"), calm).
Proof.
  assert (H : "another key" <> SECRET_KEY \/ "HS256" <> ALGORITHM)
    by (left; simpl; discriminate).
  split; [exact H|].
  exact (verify_token_refuses_forged
           (Signed "another key" "HS256"
              (mk_claims (Some "u-adm") (Some "admin") (Some 4600%Z) (Some "access")))
           calm H).
Defined.

Lemma verify_token_conversion_errors_run :
  (clock calm <= 4600)%Z
  /\ UserRole_of_value "headmaster" = None
  /\ verify_token
       (Signed SECRET_KEY ALGORITHM
          (mk_claims (Some "u-adm") (Some "headmaster") (Some 4600%Z) None)) calm
     = (Raise (ValueError "'headmaster' is not a valid UserRole"), calm)
  /\ verify_token
       (Signed SECRET_KEY ALGORITHM
          (mk_claims (Some "u-adm") (Some (UserRole_value ADMIN)) None None)) calm
     = (Raise (TypeError "'NoneType' object cannot be interpreted as an integer"),
        calm).
Proof.
  assert (H1 : (clock calm <= 4600)%Z) by (simpl; lia).
  assert (H2 : UserRole_of_value "headmaster" = None) by reflexivity.
  split; [exact H1|]. split; [exact H2|].
  exact (verify_token_conversion_errors "u-adm" "headmaster" None ADMIN calm 4600%Z
           H1 H2).
Defined.

Lemma guards_nest_run :
  require_master (mk_payload "u-root" MASTER 5000%Z) calm
  = (Return (mk_payload "u-root" MASTER 5000%Z), calm)
  /\ require_admin (mk_payload "u-root" MASTER 5000%Z) calm
     = (Return (mk_payload "u-root" MASTER 5000%Z), calm).
Proof.
  assert (H : require_master (mk_payload "u-root" MASTER 5000%Z) calm
              = (Return (mk_payload "u-root" MASTER 5000%Z), calm)) by reflexivity.
  split; [exact H|].
  exact (proj1 (guards_nest (mk_payload "u-root" MASTER 5000%Z) calm) H).
Defined.

(** *** Signing in *)

Lemma login_tokens_identify_user_run :
  faults calm = []
  /\ find (fun u => u_email u =? ul_email head_login) (users (db calm))
     = Some head_teacher
  /\ u_is_active head_teacher = true
  /\ verify_password (ul_password head_login) (u_password_hash head_teacher) = true
  /\ UserRole_of_value (u_role head_teacher) = Some ADMIN
  /\ (0 <= ACCESS_TOKEN_EXPIRE_MINUTES)%Z
  /\ (0 <= REFRESH_TOKEN_EXPIRE_DAYS)%Z
  /\ exists issued,
       login head_login calm = (Return issued, calm)
       /\ get_current_user (tk_access_token issued) calm
          = (Return (mk_payload "u-adm" ADMIN 4600%Z), calm)
       /\ exists fresh, refresh_token (tk_refresh_token issued) calm
                        = (Return fresh, calm).
Proof.
  assert (H1 : faults calm = []) by reflexivity.
  assert (H2 : find (fun u => u_email u =? ul_email head_login) (users (db calm))
               = Some head_teacher) by reflexivity.
  assert (H3 : u_is_active head_teacher = true) by reflexivity.
  assert (H4 : verify_password (ul_password head_login) (u_password_hash head_teacher)
               = true) by reflexivity.
  assert (H5 : UserRole_of_value (u_role head_teacher) = Some ADMIN) by reflexivity.
  assert (H6 : (0 <= ACCESS_TOKEN_EXPIRE_MINUTES)%Z) by (simpl; lia).
  assert (H7 : (0 <= REFRESH_TOKEN_EXPIRE_DAYS)%Z) by (simpl; lia).
  repeat (split; [assumption|]).
  exact (login_tokens_identify_user head_login calm head_teacher ADMIN
           H1 H2 H3 H4 H5 H6 H7).
Defined.

Lemma login_refusals_run :
  faults calm = []
  /\ db (snd (login (mk_user_login "nobody@school.example" "x") calm)) = db calm
  /\ login (mk_user_login "nobody@school.example" "x") calm
     = (Raise (HTTPException 401 "Invalid email or password"), calm)
  /\ login (mk_user_login "head@school.example" "guess") calm
     = (Raise (HTTPException 401 "Invalid email or password"), calm).
Proof.
  assert (H1 : faults calm = []) by reflexivity.
  split; [exact H1|].
  split; [exact (proj1 (login_refusals (mk_user_login "nobody@school.example" "x")
                          calm))|].
  split; [exact (proj2 (login_refusals (mk_user_login "nobody@school.example" "x")
                          calm) H1)|].
  exact (proj2 (proj2 (login_refusals (mk_user_login "head@school.example" "guess")
                         calm) H1) eq_refl eq_refl).
Defined.

Lemma change_password_then_login_run :
  faults calm = []
  /\ find (fun u => user_id u =? sub an_admin) (users (db calm)) = Some head_teacher
  /\ find (fun u => u_email u =? u_email head_teacher) (users (db calm))
     = Some head_teacher
  /\ u_is_active head_teacher = true
  /\ verify_password "y" (hash_password "y") = true
  /\ exists w',
       change_password "x" "y" an_admin calm
       = (Return "Password changed successfully", w')
       /\ users (db w') =
            map (fun u => if user_id u =? sub an_admin
                          then set_password_hash (hash_password "y") u
                          else u)
              (users (db calm))
       /\ exists issued,
            login (mk_user_login (u_email head_teacher) "y") w' = (Return issued, w').
Proof.
  assert (H1 : faults calm = []) by reflexivity.
  assert (H2 : find (fun u => user_id u =? sub an_admin) (users (db calm))
               = Some head_teacher) by reflexivity.
  assert (H3 : find (fun u => u_email u =? u_email head_teacher) (users (db calm))
               = Some head_teacher) by reflexivity.
  assert (H4 : u_is_active head_teacher = true) by reflexivity.
  assert (H5 : verify_password "y" (hash_password "y") = true) by reflexivity.
  repeat (split; [assumption|]).
  exact (change_password_then_login "x" "y" an_admin calm head_teacher
           H1 H2 H3 H4 H5).
Defined.

Lemma register_then_login_run :
  faults calm = []
  /\ (forall u, In u (users (db calm)) -> u_email u <> uc_email eve)
  /\ verify_password (uc_password eve) (hash_password (uc_password eve)) = true
  /\ (0 <= ACCESS_TOKEN_EXPIRE_MINUTES)%Z
  /\ fromtimestamp_fails (clock calm + ACCESS_TOKEN_EXPIRE_MINUTES * 60)%Z = None
  /\ exists issued,
       login (mk_user_login (uc_email eve) (uc_password eve))
         (snd (post_register eve calm))
       = (Return issued, snd (post_register eve calm))
       /\ get_current_user (tk_access_token issued) (snd (post_register eve calm))
          = (Return (mk_payload "id-0" ADMIN 4600%Z), snd (post_register eve calm)).
Proof.
  assert (H1 : faults calm = []) by reflexivity.
  assert (H2 : forall u, In u (users (db calm)) -> u_email u <> uc_email eve).
  { intros u [<-|[]]. simpl. discriminate. }
  assert (H3 : verify_password (uc_password eve) (hash_password (uc_password eve))
               = true) by reflexivity.
  assert (H4 : (0 <= ACCESS_TOKEN_EXPIRE_MINUTES)%Z) by (simpl; lia).
  assert (H5 : fromtimestamp_fails (clock calm + ACCESS_TOKEN_EXPIRE_MINUTES * 60)%Z
               = None) by reflexivity.
  split; [exact H1|]. split; [exact H2|]. split; [exact H3|]. split; [exact H4|].
  split; [exact H5|].
  exact (register_then_login eve calm H1 H2 H3 H4 H5).
Defined.

(** *** Fees *)

Lemma record_payment_keeps_fees_within_run :
  fee_ids_unique (db calm)
  /\ fees_within (db calm)
  /\ fees_within (db (snd (record_payment a_payment an_admin calm)))
  /\ map fee_id (fees (db (snd (record_payment a_payment an_admin calm))))
     = map fee_id (fees (db calm))
  /\ (forall f, In f (fees (db calm)) -> fee_id f <> fp_fee_id a_payment ->
                In f (fees (db (snd (record_payment a_payment an_admin calm))))).
Proof.
  split; [exact calm_fee_ids_unique|]. split; [exact calm_fees_within|].
  exact (record_payment_keeps_fees_within a_payment an_admin calm
           calm_fee_ids_unique calm_fees_within).
Defined.

Lemma delete_fee_spares_paid_fees_run :
  fee_ids_unique (db calm)
  /\ In fee_ann (fees (db calm))
  /\ (fee_id fee_ann <> "f1" \/ (0 < amount_paid fee_ann)%Q)
  /\ In fee_ann (fees (db (snd (delete_fee "f1" an_admin calm)))).
Proof.
  assert (H2 : In fee_ann (fees (db calm))) by (left; reflexivity).
  assert (H3 : fee_id fee_ann <> "f1" \/ (0 < amount_paid fee_ann)%Q)
    by (right; vm_compute; reflexivity).
  split; [exact calm_fee_ids_unique|]. split; [exact H2|]. split; [exact H3|].
  exact (delete_fee_spares_paid_fees "f1" an_admin calm fee_ann
           calm_fee_ids_unique H2 H3).
Defined.

Lemma get_fee_respects_ownership_run :
  get_fee "f1" lee calm = (Return (mk_fee_response fee_ann (Some "Ann") 60), calm)
  /\ In fee_ann (fees (db calm))
  /\ fee_id fee_ann = "f1"
  /\ may_see (db calm) lee (f_student_id fee_ann).
Proof.
  assert (H : get_fee "f1" lee calm
              = (Return (mk_fee_response fee_ann (Some "Ann") 60), calm))
    by (vm_compute; reflexivity).
  split; [exact H|].
  exact (get_fee_respects_ownership "f1" lee calm calm
           (mk_fee_response fee_ann (Some "Ann") 60) H).
Defined.

Lemma get_fees_failures_run :
  fst (get_fees None None None an_admin (failing "connection reset"))
  = Raise (status_attribute_error None)
  /\ (status_attribute_error None
      = HTTPException 403 "Access denied to this student's records"
      \/ (exists m, status_attribute_error None = Exception m)
      \/ status_attribute_error None = status_attribute_error None).
Proof.
  assert (H : fst (get_fees None None None an_admin (failing "connection reset"))
              = Raise (status_attribute_error None)) by (vm_compute; reflexivity).
  split; [exact H|].
  exact (get_fees_failures None None None an_admin (failing "connection reset")
           (status_attribute_error None) H).
Defined.

Lemma get_fees_respects_ownership_run :
  get_fees None None None lee calm
  = (Return [mk_fee_response fee_bob (Some "Bob") 80;
             mk_fee_response fee_ann (Some "Ann") 60], calm)
  /\ In (mk_fee_response fee_ann (Some "Ann") 60)
       [mk_fee_response fee_bob (Some "Bob") 80;
        mk_fee_response fee_ann (Some "Ann") 60]
  /\ In fee_ann (fees (db calm))
  /\ may_see (db calm) lee (f_student_id fee_ann).
Proof.
  assert (H1 : get_fees None None None lee calm
               = (Return [mk_fee_response fee_bob (Some "Bob") 80;
                          mk_fee_response fee_ann (Some "Ann") 60], calm))
    by (vm_compute; reflexivity).
  assert (H2 : In (mk_fee_response fee_ann (Some "Ann") 60)
                 [mk_fee_response fee_bob (Some "Bob") 80;
                  mk_fee_response fee_ann (Some "Ann") 60])
    by (right; left; reflexivity).
  split; [exact H1|]. split; [exact H2|].
  exact (get_fees_respects_ownership None None None lee calm calm _ _ H1 H2).
Defined.

Lemma get_fee_statistics_counts_run :
  faults calm = []
  /\ match fst (get_fee_statistics (Some "2024") an_admin calm) with
     | Return (FeeStatistics s) =>
         (paid_count s + pending_count s + overdue_count s + partial_count s)%nat
         = 3%nat
     | _ => False
     end.
Proof.
  assert (H1 : faults calm = []) by reflexivity.
  split; [exact H1|].
  pose proof (get_fee_statistics_counts (Some "2024") an_admin calm H1) as H.
  cbv zeta in H.
  destruct (fst (get_fee_statistics (Some "2024") an_admin calm)) as [[m|s]|e];
    [discriminate H | exact (proj2 H) | exact H].
Defined.

(** *** Leave requests *)

Lemma get_leave_request_respects_ownership_run :
  get_leave_request "r1" lee calm
  = (Return (mk_leave_response leave_ann (Some "Ann")), calm)
  /\ In leave_ann (leave_requests (db calm))
  /\ request_id leave_ann = "r1"
  /\ may_see (db calm) lee (lr_student_id leave_ann).
Proof.
  assert (H : get_leave_request "r1" lee calm
              = (Return (mk_leave_response leave_ann (Some "Ann")), calm))
    by (vm_compute; reflexivity).
  split; [exact H|].
  exact (get_leave_request_respects_ownership "r1" lee calm calm
           (mk_leave_response leave_ann (Some "Ann")) H).
Defined.

Lemma get_leave_requests_respects_ownership_run :
  get_leave_requests None None lee calm
  = (Return [mk_leave_response leave_ann (Some "Ann")], calm)
  /\ In (mk_leave_response leave_ann (Some "Ann"))
       [mk_leave_response leave_ann (Some "Ann")]
  /\ In leave_ann (leave_requests (db calm))
  /\ may_see (db calm) lee (lr_student_id leave_ann).
Proof.
  assert (H1 : get_leave_requests None None lee calm
               = (Return [mk_leave_response leave_ann (Some "Ann")], calm))
    by (vm_compute; reflexivity).
  assert (H2 : In (mk_leave_response leave_ann (Some "Ann"))
                 [mk_leave_response leave_ann (Some "Ann")])
    by (left; reflexivity).
  split; [exact H1|]. split; [exact H2|].
  exact (get_leave_requests_respects_ownership None None lee calm calm _ _ H1 H2).
Defined.

Lemma get_leave_requests_refusal_is_attribute_error_run :
  faults calm = []
  /\ role lee = PARENT
  /\ parent_of (db calm) (sub lee) = Some mrs_lee
  /\ children_of (db calm) mrs_lee <> []
  /\ truthy_str "s3" = true
  /\ ~ In "s3" (children_of (db calm) mrs_lee)
  /\ get_fees (Some "s3") None None lee calm
     = (Raise (HTTPException 403 "Access denied to this student's records"), calm)
  /\ get_leave_requests None (Some "s3") lee calm
     = (Raise (leave_status_attribute_error None), calm)
  /\ forall q u w0 e,
       fst (get_leave_requests None q u w0) = Raise e ->
       e = leave_status_attribute_error None.
Proof.
  assert (H1 : faults calm = []) by reflexivity.
  assert (H2 : role lee = PARENT) by reflexivity.
  assert (H3 : parent_of (db calm) (sub lee) = Some mrs_lee) by reflexivity.
  assert (H4 : children_of (db calm) mrs_lee <> []) by (simpl; discriminate).
  assert (H5 : truthy_str "s3" = true) by reflexivity.
  assert (H6 : ~ In "s3" (children_of (db calm) mrs_lee))
    by (simpl; intuition discriminate).
  repeat (split; [assumption|]).
  exact (get_leave_requests_refusal_is_attribute_error None None None "s3" lee
           mrs_lee calm H1 H2 H3 H4 H5 H6).
Defined.

Lemma delete_leave_request_then_gone_run :
  faults calm = []
  /\ role_in (role an_admin) [ADMIN; MASTER] = true
  /\ In leave_ann (leave_requests (db calm))
  /\ request_id leave_ann = "r1"
  /\ fst (delete_leave_request_guarded "r1" an_admin calm) = Return tt
  /\ leave_requests (db (snd (delete_leave_request_guarded "r1" an_admin calm)))
     = filter (fun x => negb (request_id x =? "r1")) (leave_requests (db calm))
  /\ delete_leave_request_guarded "r1" an_admin
       (snd (delete_leave_request_guarded "r1" an_admin calm))
     = (Raise (HTTPException 404 "Leave request not found"),
        snd (delete_leave_request_guarded "r1" an_admin calm)).
Proof.
  assert (H1 : faults calm = []) by reflexivity.
  assert (H2 : role_in (role an_admin) [ADMIN; MASTER] = true) by reflexivity.
  assert (H3 : In leave_ann (leave_requests (db calm))) by (left; reflexivity).
  assert (H4 : request_id leave_ann = "r1") by reflexivity.
  repeat (split; [assumption|]).
  exact (delete_leave_request_then_gone "r1" an_admin calm leave_ann H1 H2 H3 H4).
Defined.

(** *** Marks *)

Lemma get_mark_respects_ownership_run :
  get_mark "m1" lee calm
  = (Return (mk_marks_response mark_ann (Some "Ann") (Some "Algebra") (Some 100%Z)
               (Some 70)), calm)
  /\ In mark_ann (marks (db calm))
  /\ mark_id mark_ann = "m1"
  /\ may_see (db calm) lee (m_student_id mark_ann).
Proof.
  assert (H : get_mark "m1" lee calm
              = (Return (mk_marks_response mark_ann (Some "Ann") (Some "Algebra")
                           (Some 100%Z) (Some 70)), calm))
    by (vm_compute; reflexivity).
  split; [exact H|].
  exact (get_mark_respects_ownership "m1" lee calm calm _ H).
Defined.

Lemma get_marks_respects_ownership_run :
  get_marks None None lee calm
  = (Return [mk_marks_response mark_ann (Some "Ann") (Some "Algebra") (Some 100%Z)
               (Some 70)], calm)
  /\ In (mk_marks_response mark_ann (Some "Ann") (Some "Algebra") (Some 100%Z) (Some 70))
       [mk_marks_response mark_ann (Some "Ann") (Some "Algebra") (Some 100%Z) (Some 70)]
  /\ In mark_ann (marks (db calm))
  /\ may_see (db calm) lee (m_student_id mark_ann).
Proof.
  assert (H1 : get_marks None None lee calm
               = (Return [mk_marks_response mark_ann (Some "Ann") (Some "Algebra")
                            (Some 100%Z) (Some 70)], calm))
    by (vm_compute; reflexivity).
  assert (H2 : In (mk_marks_response mark_ann (Some "Ann") (Some "Algebra")
                     (Some 100%Z) (Some 70))
                 [mk_marks_response mark_ann (Some "Ann") (Some "Algebra")
                    (Some 100%Z) (Some 70)])
    by (left; reflexivity).
  split; [exact H1|]. split; [exact H2|].
  exact (get_marks_respects_ownership None None lee calm calm _ _ H1 H2).
Defined.

Lemma update_mark_preserves_invariants_run :
  mark_ids_unique (db calm)
  /\ marks_unique (db calm)
  /\ marks_bounded (db calm)
  /\ marks_unique (db (snd (update_mark "m1" rescore_ann a_teacher calm)))
  /\ marks_bounded (db (snd (update_mark "m1" rescore_ann a_teacher calm)))
  /\ map mark_id (marks (db (snd (update_mark "m1" rescore_ann a_teacher calm))))
     = map mark_id (marks (db calm)).
Proof.
  assert (H1 : mark_ids_unique (db calm)).
  { unfold mark_ids_unique. simpl. repeat constructor. simpl. intuition. }
  split; [exact H1|]. split; [exact calm_marks_unique|].
  split; [exact calm_marks_bounded|].
  exact (update_mark_preserves_invariants "m1" rescore_ann a_teacher calm
           H1 calm_marks_unique calm_marks_bounded).
Defined.

Lemma marks_writes_keep_bound_run :
  marks_bounded (db calm)
  /\ marks_bounded
       (db (run_marks_writes
              [CreateMark bob_55 a_teacher;
               CreateBulkMarks [bob_60; ann_10] a_teacher;
               DeleteMark "m1" an_admin] calm)).
Proof.
  split; [exact calm_marks_bounded|].
  exact (marks_writes_keep_bound
           [CreateMark bob_55 a_teacher;
            CreateBulkMarks [bob_60; ann_10] a_teacher;
            DeleteMark "m1" an_admin] calm calm_marks_bounded).
Defined.

Lemma marks_single_writes_keep_unique_run :
  existsb is_bulk [CreateMark bob_55 a_teacher; CreateMark bob_60 a_teacher;
                   DeleteMark "m1" an_admin] = false
  /\ marks_unique (db calm)
  /\ marks_unique
       (db (run_marks_writes
              [CreateMark bob_55 a_teacher; CreateMark bob_60 a_teacher;
               DeleteMark "m1" an_admin] calm)).
Proof.
  assert (H1 : existsb is_bulk [CreateMark bob_55 a_teacher; CreateMark bob_60 a_teacher;
                                DeleteMark "m1" an_admin] = false) by reflexivity.
  split; [exact H1|]. split; [exact calm_marks_unique|].
  exact (marks_single_writes_keep_unique _ calm H1 calm_marks_unique).
Defined.

(** *** Attendance *)

Lemma attendance_writes_keep_unique_run :
  forallb names_each_once a_year_of_writes = true
  /\ attendance_unique (db term)
  /\ attendance_unique (db (run_attendance_writes a_year_of_writes term)).
Proof.
  assert (H1 : forallb names_each_once a_year_of_writes = true) by reflexivity.
  split; [exact H1|]. split; [exact term_attendance_unique|].
  exact (attendance_writes_keep_unique a_year_of_writes term H1
           term_attendance_unique).
Defined.

Lemma mark_bulk_attendance_stores_duplicates_run :
  faults term = []
  /\ rec_student_id dan_present = Some "s4" /\ rec_status dan_present = Some "present"
  /\ rec_student_id dan_absent = Some "s4" /\ rec_status dan_absent = Some "absent"
  /\ (exists s, In s (students (db term)) /\ s_class_id s = Some "c1"
                /\ student_id s = "s4")
  /\ pair_count "s4" 78%Z (attendance (db term)) = 0%nat
  /\ pair_count "s4" 78%Z
       (attendance
          (db (snd (mark_bulk_attendance
                      (mk_attendance_bulk "c1" 78%Z [dan_present; dan_absent])
                      a_teacher term)))) = 2%nat
  /\ ~ attendance_unique
         (db (snd (mark_bulk_attendance
                     (mk_attendance_bulk "c1" 78%Z [dan_present; dan_absent])
                     a_teacher term))).
Proof.
  assert (H1 : faults term = []) by reflexivity.
  assert (H2 : rec_student_id dan_present = Some "s4") by reflexivity.
  assert (H3 : rec_status dan_present = Some "present") by reflexivity.
  assert (H4 : rec_student_id dan_absent = Some "s4") by reflexivity.
  assert (H5 : rec_status dan_absent = Some "absent") by reflexivity.
  assert (H6 : exists s, In s (students (db term)) /\ s_class_id s = Some "c1"
                         /\ student_id s = "s4").
  { exists dan. split; [simpl; tauto|]. split; reflexivity. }
  assert (H7 : pair_count "s4" 78%Z (attendance (db term)) = 0%nat) by reflexivity.
  repeat (split; [assumption|]).
  exact (mark_bulk_attendance_stores_duplicates "c1" 78%Z dan_present dan_absent "s4"
           "present" "absent" a_teacher term H1 H2 H3 H4 H5 H6 H7).
Defined.

Lemma update_attendance_failures_run :
  fst (update_attendance "a9" ABSENT None a_teacher term)
  = Raise (attendance_status_attribute_error "HTTP_500_INTERNAL_SERVER_ERROR")
  /\ attendance_status_attribute_error "HTTP_500_INTERNAL_SERVER_ERROR"
     = attendance_status_attribute_error "HTTP_500_INTERNAL_SERVER_ERROR".
Proof.
  assert (H : fst (update_attendance "a9" ABSENT None a_teacher term)
              = Raise (attendance_status_attribute_error
                         "HTTP_500_INTERNAL_SERVER_ERROR"))
    by (vm_compute; reflexivity).
  split; [exact H|].
  exact (update_attendance_failures "a9" ABSENT None a_teacher term _ H).
Defined.


(** A status that is no value of the enumeration goes through the bulk
    path into the store, and the four counts then fall short of the
    total. *)
Lemma get_attendance_statistics_unknown_status :
  let w := snd (mark_bulk_attendance (mk_attendance_bulk "c1" 78%Z [dan_on_holiday])
                  a_teacher term) in
  map a_status (attendance (db w)) = ["present"; "holiday"]
  /\ exists s,
       get_attendance_statistics None None None None an_admin w = (Return s, w)
       /\ total_records s = 2%nat
       /\ (present s + absent s + late s + excused s)%nat = 1%nat.
Proof.
  split; [vm_compute; reflexivity|].
  eexists. split; [vm_compute; reflexivity|]. split; reflexivity.
Qed.

(** *** The gateway *)

Lemma paginate_pages_cover_run :
  faults calm = []
  /\ flat_map (fun i => page_rows fees_t (Pos.of_succ_nat i) 2%positive []
                          (Some due_date) true calm)
       (seq 0 (pages_reported fees_t 1%positive 2%positive [] (Some due_date) true calm))
     = order_rows due_date (negb true) (filter (matches []) (rows fees_t (db calm)))
  /\ pages_reported fees_t 1%positive 2%positive [] (Some due_date) true calm = 2%nat.
Proof.
  assert (H1 : faults calm = []) by reflexivity.
  split; [exact H1|].
  split; [|reflexivity].
  exact (proj1 (paginate_pages_cover fees_t 2%positive [] (Some due_date) true calm H1)).
Defined.

Lemma exists_agrees_with_count_run :
  faults calm = []
  /\ exists (b : bool) (n : nat) (l : list fee_row),
       exists_ fees_t [eq_str f_student_id "s1"] calm = (Return b, calm)
       /\ count fees_t [eq_str f_student_id "s1"] calm = (Return n, calm)
       /\ select_all fees_t [eq_str f_student_id "s1"] None true None calm
          = (Return l, calm)
       /\ n = length l
       /\ b = (0 <? n)%nat.
Proof.
  assert (H1 : faults calm = []) by reflexivity.
  split; [exact H1|].
  exact (exists_agrees_with_count fees_t [eq_str f_student_id "s1"] calm H1).
Defined.
